(** * ethereal_testnet: risk gate, capital ledger, grid strategy and order
    lifecycle, embedded from the Python sources.

    Conventions of the embedding.
    - Python numbers ([int] and [float]) are exact rationals [Q]; rounding is
      not modelled, so numeric equalities are stated with [==] where a
      computation is involved.
    - A [dict] whose iteration order is irrelevant to the result is a
      [gmap]; the order registry, which is iterated by the reconciliation
      loop, is an insertion-ordered association list.
    - Methods that mutate [self] are computations in a state-and-exception
      monad: a raised exception keeps the mutations made before it, as in
      Python.
    - [datetime.now()] and [uuid.uuid4()] are inputs of the step that calls
      them. *)

From Stdlib Require Import ZArith QArith Qabs Lqa String List.
From stdpp Require Import base option list strings gmap fin_maps.
Local Close Scope Q_scope.
Local Open Scope string_scope.

(** ** Python values, exceptions and the method monad *)
Module Py.

Inductive exn := KeyError | TypeError | ZeroDivisionError | Exception.

Inductive result (A : Type) :=
| Ok (a : A)
| Raise (e : exn).
Arguments Ok {A} a.
Arguments Raise {A} e.

(** A method body over object state [S]. *)
Definition M (S A : Type) : Type := S → result A * S.

Definition ret {S A} (a : A) : M S A := λ s, (Ok a, s).

Definition bind {S A B} (c : M S A) (k : A → M S B) : M S B :=
  λ s, match c s with
       | (Ok a, s') => k a s'
       | (Raise e, s') => (Raise e, s')
       end.

Definition raise {S A} (e : exn) : M S A := λ s, (Raise e, s).
Definition gets {S A} (f : S → A) : M S A := λ s, (Ok (f s), s).
Definition modify {S} (f : S → S) : M S unit := λ s, (Ok tt, f s).

(** [try: c  except Exception: h] *)
Definition try_except {S A} (c : M S A) (h : exn → M S A) : M S A :=
  λ s, match c s with
       | (Ok a, s') => (Ok a, s')
       | (Raise e, s') => h e s'
       end.

(** Run a method of a component held in a field of a larger object. *)
Definition zoom {S T A} (get : S → T) (set : T → S → S) (c : M T A) : M S A :=
  λ s, let '(r, t') := c (get s) in (r, set t' s).

(** [for x in l: body x] *)
Fixpoint for_each {S A} (l : list A) (body : A → M S unit) : M S unit :=
  match l with
  | [] => ret tt
  | x :: l' => bind (body x) (λ _, for_each l' body)
  end.

(** Comparisons on numbers, as booleans. *)
Definition gt (a b : Q) : bool :=
  match (a ?= b)%Q with Gt => true | _ => false end.
Definition lt (a b : Q) : bool :=
  match (a ?= b)%Q with Lt => true | _ => false end.

(** [a / b], which raises on a zero divisor. *)
Definition div {S} (a b : Q) : M S Q :=
  if Qeq_bool b 0 then raise ZeroDivisionError else ret (a / b)%Q.

(** [max(a, b)]: the first argument unless the second is greater. *)
Definition max2 (a b : Q) : Q := if gt b a then b else a.

(** [max(l)] on a non-empty list, [sum(l)] and [len(l)] as a number. *)
Definition max_list (hd : Q) (tl : list Q) : Q :=
  fold_left (λ m x, if gt x m then x else m) tl hd.
Definition sum (l : list Q) : Q := fold_left Qplus l 0%Q.
Definition len {A} (l : list A) : Q := inject_Z (Z.of_nat (length l)).

(** [range(a, b)] *)
Definition range (a b : Z) : list Z :=
  map (λ k, (a + Z.of_nat k)%Z) (seq 0 (Z.to_nat (b - a))).

(** Values stored in the untyped trade dictionaries. *)
Inductive value :=
| VNone
| VStr (s : string)
| VNum (q : Q)
| VTime (t : Z).

(** A dict in insertion order.  [od_get d k] is [d.get(k)], [od_set d k v]
    is [d[k] = v]: an existing key keeps its place, a new one goes last. *)
Definition odict (V : Type) := list (string * V).

Fixpoint od_get {V} (d : odict V) (k : string) : option V :=
  match d with
  | [] => None
  | (k', v) :: d' => if String.eqb k' k then Some v else od_get d' k
  end.

Fixpoint od_set {V} (d : odict V) (k : string) (v : V) : odict V :=
  match d with
  | [] => [(k, v)]
  | (k', v') :: d' =>
      if String.eqb k' k then (k', v) :: d' else (k', v') :: od_set d' k v
  end.

Definition od_keys {V} (d : odict V) : list string := map fst d.

(** The trade records; [dict_get d k dflt] is [d.get(k, dflt)]. *)
Definition dict := odict value.

Definition dict_get (d : dict) (k : string) (dflt : value) : value :=
  default dflt (od_get d k).

(** Using a value where a number is needed. *)
Definition as_num {S} (v : value) : M S Q :=
  match v with
  | VNum q => ret q
  | _ => raise TypeError
  end.

End Py.

(** Method bodies are written with stdpp's monadic notation:
    [x ← c; k] and [c;; k]. *)
#[global] Instance M_ret {S} : MRet (Py.M S) := λ A, Py.ret.
#[global] Instance M_bind {S} : MBind (Py.M S) := λ A B k c, Py.bind c k.

(** An order intent, as the strategies produce it.  [account_id = None]
    stands for a dict without the ['account_id'] key. *)
Record OrderData := {
  od_account_id : option string;
  od_ticker : string;
  od_side : string;
  od_quantity : Q;
  od_price : Q;
  od_type : option string;
  od_strategy : option string;
  od_grid_level : option Z
}.

(** ** account_manager.py *)
Module AccountManager.

Record Account := {
  account_id : string;
  api_key : string;
  api_secret : string;
  balance : gmap string Q;
  available_balance : gmap string Q;
  positions : gmap string Q;
  risk_limit : Q;
  max_position_size : Q;
  is_active : bool
}.

(** One entry of [config['accounts']]; optional keys have defaults. *)
Record AccountConfig := {
  cfg_account_id : string;
  cfg_api_key : string;
  cfg_api_secret : string;
  cfg_balance : option (gmap string Q);
  cfg_available_balance : option (gmap string Q);
  cfg_positions : option (gmap string Q);
  cfg_risk_limit : option Q;
  cfg_max_position_size : option Q
}.

Record t := { accounts : gmap string Account }.

Definition make_account (c : AccountConfig) : Account :=
  {| account_id := cfg_account_id c;
     api_key := cfg_api_key c;
     api_secret := cfg_api_secret c;
     balance := default ∅ (cfg_balance c);
     available_balance := default ∅ (cfg_available_balance c);
     positions := default ∅ (cfg_positions c);
     risk_limit := default 0.02%Q (cfg_risk_limit c);
     max_position_size := default 1000%Q (cfg_max_position_size c);
     is_active := true |}.

Definition _initialize_accounts (accounts_config : list AccountConfig)
  : gmap string Account :=
  fold_left (λ accs c, let account := make_account c in
                       <[account_id account := account]> accs)
            accounts_config ∅.

Definition init (accounts_config : list AccountConfig) : t :=
  {| accounts := _initialize_accounts accounts_config |}.

Definition get_account (self : t) (id : string) : option Account :=
  accounts self !! id.

Definition values {A} (m : gmap string A) : list A := (map_to_list m).*2.

Definition get_active_accounts (self : t) : list Account :=
  filter (λ acc, is_active acc = true) (values (accounts self)).

Definition update_account_balance (id : string) (balance_data : gmap string Q)
    (self : t) : t :=
  match accounts self !! id with
  | Some acc =>
      let acc' :=
        {| account_id := account_id acc; api_key := api_key acc;
           api_secret := api_secret acc;
           balance := balance_data ∪ balance acc;
           available_balance := available_balance acc;
           positions := positions acc; risk_limit := risk_limit acc;
           max_position_size := max_position_size acc;
           is_active := is_active acc |} in
      {| accounts := <[id := acc']> (accounts self) |}
  | None => self
  end.

Definition update_account_positions (id : string)
    (positions_data : gmap string Q) (self : t) : t :=
  match accounts self !! id with
  | Some acc =>
      let acc' :=
        {| account_id := account_id acc; api_key := api_key acc;
           api_secret := api_secret acc; balance := balance acc;
           available_balance := available_balance acc;
           positions := positions_data ∪ positions acc;
           risk_limit := risk_limit acc;
           max_position_size := max_position_size acc;
           is_active := is_active acc |} in
      {| accounts := <[id := acc']> (accounts self) |}
  | None => self
  end.

(** The locals of [check_risk_limits]. *)
Definition total_position (account : Account) (new_position_size : Q)
    (ticker : string) : Q :=
  let current_position := default 0%Q (positions account !! ticker) in
  Qabs (current_position + new_position_size).

Definition account_value (account : Account) : Q :=
  Py.sum (values (balance account)).

Definition risk_ratio (account : Account) (position_value : Q) : Q :=
  if Py.gt (account_value account) 0
  then (position_value / account_value account)%Q
  else 1%Q.

Definition check_risk_limits (self : t) (id : string)
    (new_position_size : Q) (ticker : string) : bool :=
  match get_account self id with
  | None => false
  | Some account =>
      let total_position := total_position account new_position_size ticker in
      if Py.gt total_position (max_position_size account) then false
      else
        let position_value := total_position in
        if Py.gt (risk_ratio account position_value) (risk_limit account)
        then false
        else true
  end.

Definition allocate_funds (self : t) (total_amount : Q)
    (allocation_strategy : string) : Py.result (gmap string Q) :=
  let active_accounts := get_active_accounts self in
  match active_accounts with
  | [] => Py.Ok ∅
  | _ =>
    if String.eqb allocation_strategy "equal" then
      let amount_per_account := (total_amount / Py.len active_accounts)%Q in
      Py.Ok (fold_left (λ allocation account,
                          <[account_id account := amount_per_account]> allocation)
                       active_accounts ∅)
    else if String.eqb allocation_strategy "risk_weighted" then
      let total_risk_capacity := Py.sum (map risk_limit active_accounts) in
      if Qeq_bool total_risk_capacity 0 then Py.Raise Py.ZeroDivisionError
      else
        Py.Ok (fold_left (λ allocation account,
                 let weight := (risk_limit account / total_risk_capacity)%Q in
                 <[account_id account := (total_amount * weight)%Q]> allocation)
               active_accounts ∅)
    else if String.eqb allocation_strategy "balance_weighted" then
      let total_balance := Py.sum (map account_value active_accounts) in
      if Py.gt total_balance 0 then
        Py.Ok (fold_left (λ allocation account,
                 let account_balance := account_value account in
                 let weight := (account_balance / total_balance)%Q in
                 <[account_id account := (total_amount * weight)%Q]> allocation)
               active_accounts ∅)
      else Py.Ok ∅
    else Py.Ok ∅
  end.

End AccountManager.

(** ** risk_manager.py *)
Module RiskMetrics.

Record t := {
  max_drawdown : Q;
  current_drawdown : Q;
  var_95 : Q;
  sharpe_ratio : Q;
  win_rate : Q;
  profit_factor : Q;
  total_pnl : Q;
  daily_pnl : Q
}.

Definition init : t :=
  {| max_drawdown := 0; current_drawdown := 0; var_95 := 0;
     sharpe_ratio := 0; win_rate := 0; profit_factor := 0;
     total_pnl := 0; daily_pnl := 0 |}.

Definition set_win_rate (v : Q) (m : t) : t :=
  {| max_drawdown := max_drawdown m; current_drawdown := current_drawdown m;
     var_95 := var_95 m; sharpe_ratio := sharpe_ratio m; win_rate := v;
     profit_factor := profit_factor m; total_pnl := total_pnl m;
     daily_pnl := daily_pnl m |}.

Definition set_current_drawdown (v : Q) (m : t) : t :=
  {| max_drawdown := max_drawdown m; current_drawdown := v;
     var_95 := var_95 m; sharpe_ratio := sharpe_ratio m;
     win_rate := win_rate m; profit_factor := profit_factor m;
     total_pnl := total_pnl m; daily_pnl := daily_pnl m |}.

Definition set_max_drawdown (v : Q) (m : t) : t :=
  {| max_drawdown := v; current_drawdown := current_drawdown m;
     var_95 := var_95 m; sharpe_ratio := sharpe_ratio m;
     win_rate := win_rate m; profit_factor := profit_factor m;
     total_pnl := total_pnl m; daily_pnl := daily_pnl m |}.

(** [daily_pnl += pnl; total_pnl += pnl] *)
Definition add_pnl (pnl : Q) (m : t) : t :=
  {| max_drawdown := max_drawdown m; current_drawdown := current_drawdown m;
     var_95 := var_95 m; sharpe_ratio := sharpe_ratio m;
     win_rate := win_rate m; profit_factor := profit_factor m;
     total_pnl := (total_pnl m + pnl)%Q;
     daily_pnl := (daily_pnl m + pnl)%Q |}.

End RiskMetrics.

Module RiskManager.

(** Keys of the per-account dicts.  The annotation says [str], but the
    callback registered in main.py forwards [order_update['account_id']],
    which is [None] for an intent without an account hint. *)
Abbreviation account_key := (option string).

Record Config := {
  cfg_max_daily_loss : option Q;
  cfg_max_position_size : option Q;
  cfg_max_drawdown_limit : option Q;
  cfg_max_leverage : option Q
}.

Record t := {
  max_daily_loss : Q;
  max_position_size : Q;
  max_drawdown_limit : Q;
  max_leverage : Q;
  positions : gmap account_key (gmap string Q);
  daily_pnl : gmap account_key Q;
  trade_history : list Py.dict;
  risk_metrics : RiskMetrics.t;
  is_risk_mode : bool;
  emergency_stop : bool
}.

Definition init (config : Config) : t :=
  {| max_daily_loss := default 1000%Q (cfg_max_daily_loss config);
     max_position_size := default 10000%Q (cfg_max_position_size config);
     max_drawdown_limit := default 0.10%Q (cfg_max_drawdown_limit config);
     max_leverage := default 3.0%Q (cfg_max_leverage config);
     positions := ∅;
     daily_pnl := ∅;
     trade_history := [];
     risk_metrics := RiskMetrics.init;
     is_risk_mode := false;
     emergency_stop := false |}.

Definition set_positions (v : gmap account_key (gmap string Q)) (self : t) : t :=
  {| max_daily_loss := max_daily_loss self;
     max_position_size := max_position_size self;
     max_drawdown_limit := max_drawdown_limit self;
     max_leverage := max_leverage self;
     positions := v; daily_pnl := daily_pnl self;
     trade_history := trade_history self;
     risk_metrics := risk_metrics self;
     is_risk_mode := is_risk_mode self;
     emergency_stop := emergency_stop self |}.

Definition set_daily_pnl (v : gmap account_key Q) (self : t) : t :=
  {| max_daily_loss := max_daily_loss self;
     max_position_size := max_position_size self;
     max_drawdown_limit := max_drawdown_limit self;
     max_leverage := max_leverage self;
     positions := positions self; daily_pnl := v;
     trade_history := trade_history self;
     risk_metrics := risk_metrics self;
     is_risk_mode := is_risk_mode self;
     emergency_stop := emergency_stop self |}.

Definition set_trade_history (v : list Py.dict) (self : t) : t :=
  {| max_daily_loss := max_daily_loss self;
     max_position_size := max_position_size self;
     max_drawdown_limit := max_drawdown_limit self;
     max_leverage := max_leverage self;
     positions := positions self; daily_pnl := daily_pnl self;
     trade_history := v;
     risk_metrics := risk_metrics self;
     is_risk_mode := is_risk_mode self;
     emergency_stop := emergency_stop self |}.

Definition set_risk_metrics (v : RiskMetrics.t) (self : t) : t :=
  {| max_daily_loss := max_daily_loss self;
     max_position_size := max_position_size self;
     max_drawdown_limit := max_drawdown_limit self;
     max_leverage := max_leverage self;
     positions := positions self; daily_pnl := daily_pnl self;
     trade_history := trade_history self;
     risk_metrics := v;
     is_risk_mode := is_risk_mode self;
     emergency_stop := emergency_stop self |}.

Definition set_is_risk_mode (v : bool) (self : t) : t :=
  {| max_daily_loss := max_daily_loss self;
     max_position_size := max_position_size self;
     max_drawdown_limit := max_drawdown_limit self;
     max_leverage := max_leverage self;
     positions := positions self; daily_pnl := daily_pnl self;
     trade_history := trade_history self;
     risk_metrics := risk_metrics self;
     is_risk_mode := v;
     emergency_stop := emergency_stop self |}.

Definition set_emergency_stop (v : bool) (self : t) : t :=
  {| max_daily_loss := max_daily_loss self;
     max_position_size := max_position_size self;
     max_drawdown_limit := max_drawdown_limit self;
     max_leverage := max_leverage self;
     positions := positions self; daily_pnl := daily_pnl self;
     trade_history := trade_history self;
     risk_metrics := risk_metrics self;
     is_risk_mode := is_risk_mode self;
     emergency_stop := v |}.

(** [self.positions[account_id].get(ticker, 0)], for a present or an
    absent account. *)
Definition position (self : t) (account_id : account_key) (ticker : string) : Q :=
  default 0%Q (default ∅ (positions self !! account_id) !! ticker).

(** [if account_id not in self.positions: self.positions[account_id] = {}] *)
Definition ensure_account (account_id : account_key) (self : t) : t :=
  match positions self !! account_id with
  | Some _ => self
  | None => set_positions (<[account_id := ∅]> (positions self)) self
  end.

Definition _check_position_limits (account_id : account_key)
    (ticker : string) (quantity : Q) (side : string) : Py.M t bool :=
  Py.modify (ensure_account account_id);;
  self ← Py.gets id;
  let current_position := position self account_id ticker in
  let new_position :=
    if String.eqb side "buy" then (current_position + quantity)%Q
    else (current_position - quantity)%Q in
  if Py.gt (Qabs new_position) (max_position_size self) then mret false
  else mret true.

Definition _check_daily_loss_limit (account_id : account_key) : Py.M t bool :=
  self ← Py.gets id;
  let current_daily_pnl := default 0%Q (daily_pnl self !! account_id) in
  if Py.lt current_daily_pnl (- max_daily_loss self)%Q then
    Py.modify (set_is_risk_mode true);;
    mret false
  else mret true.

Definition _check_margin_requirements (account_id : account_key)
    (quantity price : Q) : Py.M t bool :=
  self ← Py.gets id;
  required_margin ← Py.div (quantity * price)%Q (max_leverage self);
  mret true.

Definition _check_drawdown_limit (account_id : account_key) : Py.M t bool :=
  self ← Py.gets id;
  if Py.gt (RiskMetrics.current_drawdown (risk_metrics self))
           (max_drawdown_limit self) then
    Py.modify (set_is_risk_mode true);;
    mret false
  else mret true.

Definition check_pre_trade_risk (order_data : OrderData) : Py.M t bool :=
  let account_id := Some (default "default" (od_account_id order_data)) in
  let ticker := od_ticker order_data in
  let side := od_side order_data in
  let quantity := od_quantity order_data in
  let price := od_price order_data in
  self ← Py.gets id;
  if emergency_stop self then mret false else
  ok ← _check_position_limits account_id ticker quantity side;
  if negb ok then mret false else
  ok ← _check_daily_loss_limit account_id;
  if negb ok then mret false else
  ok ← _check_margin_requirements account_id quantity price;
  if negb ok then mret false else
  ok ← _check_drawdown_limit account_id;
  if negb ok then mret false else
  mret true.

Definition key_value (account_id : account_key) : Py.value :=
  match account_id with
  | Some s => Py.VStr s
  | None => Py.VNone
  end.

(** [if account_id not in self.daily_pnl: self.daily_pnl[account_id] = 0] *)
Definition ensure_daily_pnl (account_id : account_key) (self : t) : t :=
  match daily_pnl self !! account_id with
  | Some _ => self
  | None => set_daily_pnl (<[account_id := 0%Q]> (daily_pnl self)) self
  end.

(** [self.daily_pnl[account_id] += pnl] *)
Definition add_daily_pnl (account_id : account_key) (pnl : Q) (self : t) : t :=
  set_daily_pnl
    (<[account_id := (default 0%Q (daily_pnl self !! account_id) + pnl)%Q]>
       (daily_pnl self)) self.

(** [self.risk_metrics.daily_pnl += pnl; self.risk_metrics.total_pnl += pnl] *)
Definition add_metrics_pnl (pnl : Q) (self : t) : t :=
  set_risk_metrics (RiskMetrics.add_pnl pnl (risk_metrics self)) self.

Definition _update_pnl (account_id : account_key) (ticker side : string)
    (quantity price : Q) : Py.M t unit :=
  let trade_value := (quantity * price)%Q in
  if String.eqb side "sell" then
    Py.modify (ensure_daily_pnl account_id);;
    let pnl := (trade_value * 0.001)%Q in
    Py.modify (add_daily_pnl account_id pnl);;
    Py.modify (add_metrics_pnl pnl)
  else mret tt.

(** [if ticker not in self.positions[account_id]:
       self.positions[account_id][ticker] = 0] *)
Definition ensure_ticker (account_id : account_key) (ticker : string)
    (self : t) : t :=
  let of_account := default ∅ (positions self !! account_id) in
  match of_account !! ticker with
  | Some _ => self
  | None =>
      set_positions
        (<[account_id := <[ticker := 0%Q]> of_account]> (positions self)) self
  end.

(** [self.positions[account_id][ticker] += quantity] for a buy,
    [-= quantity] otherwise. *)
Definition move_position (account_id : account_key) (ticker side : string)
    (quantity : Q) (self : t) : t :=
  let of_account := default ∅ (positions self !! account_id) in
  let current := default 0%Q (of_account !! ticker) in
  let updated :=
    if String.eqb side "buy" then (current + quantity)%Q
    else (current - quantity)%Q in
  set_positions
    (<[account_id := <[ticker := updated]> of_account]> (positions self)) self.

Definition trade_record (now : Z) (account_id : account_key)
    (ticker side : string) (quantity price : Q) : Py.dict :=
  [("timestamp", Py.VTime now);
   ("account_id", key_value account_id);
   ("ticker", Py.VStr ticker);
   ("side", Py.VStr side);
   ("quantity", Py.VNum quantity);
   ("price", Py.VNum price);
   ("value", Py.VNum (quantity * price)%Q)].

Definition append_trade (trade : Py.dict) (self : t) : t :=
  set_trade_history (trade_history self ++ [trade]) self.

Definition update_position (now : Z) (account_id : account_key)
    (ticker side : string) (quantity price : Q) : Py.M t unit :=
  Py.modify (ensure_account account_id);;
  Py.modify (ensure_ticker account_id ticker);;
  Py.modify (move_position account_id ticker side quantity);;
  let trade := trade_record now account_id ticker side quantity price in
  Py.modify (append_trade trade);;
  _update_pnl account_id ticker side quantity price.

(** [[t for t in trades if t.get('pnl', 0) > 0]] *)
Fixpoint profitable (trades : list Py.dict) : Py.M t (list Py.dict) :=
  match trades with
  | [] => mret []
  | trade :: rest =>
      pnl ← Py.as_num (Py.dict_get trade "pnl" (Py.VNum 0));
      kept ← profitable rest;
      mret (if Py.gt pnl 0 then trade :: kept else kept)
  end.

Fixpoint equity_loop (trades : list Py.dict) (equity_curve : list Q)
  : Py.M t (list Q) :=
  match trades with
  | [] => mret equity_curve
  | trade :: rest =>
      pnl ← Py.as_num (Py.dict_get trade "pnl" (Py.VNum 0));
      equity_loop rest
        (equity_curve ++ [(List.last equity_curve 0 + pnl)%Q])
  end.

Definition _calculate_equity_curve : Py.M t (list Q) :=
  self ← Py.gets id;
  equity_loop (trade_history self) [10000%Q].

Definition store_win_rate (rate : Q) (self : t) : t :=
  set_risk_metrics (RiskMetrics.set_win_rate rate (risk_metrics self)) self.

Definition store_current_drawdown (drawdown : Q) (self : t) : t :=
  set_risk_metrics
    (RiskMetrics.set_current_drawdown drawdown (risk_metrics self)) self.

(** [max_drawdown = max(max_drawdown, current_drawdown)] *)
Definition store_max_drawdown (self : t) : t :=
  let m := risk_metrics self in
  set_risk_metrics
    (RiskMetrics.set_max_drawdown
       (Py.max2 (RiskMetrics.max_drawdown m) (RiskMetrics.current_drawdown m))
       m) self.

Definition update_risk_metrics : Py.M t unit :=
  self ← Py.gets id;
  match trade_history self with
  | [] => mret tt
  | _ =>
      profitable_trades ← profitable (trade_history self);
      Py.modify (store_win_rate
        (Py.len profitable_trades / Py.len (trade_history self))%Q);;
      equity_curve ← _calculate_equity_curve;
      match equity_curve with
      | [] => mret tt
      | first :: others =>
          let max_equity := Py.max_list first others in
          let current_equity := List.last equity_curve 0%Q in
          drawdown ← Py.div (max_equity - current_equity)%Q max_equity;
          Py.modify (store_current_drawdown drawdown);;
          Py.modify store_max_drawdown
      end
  end.

(** [for account_id in self.positions:
       for ticker in self.positions[account_id]:
         self.positions[account_id][ticker] = 0] *)
Definition flatten_positions (self : t) : t :=
  set_positions
    ((λ of_account : gmap string Q, (λ _, 0%Q) <$> of_account)
       <$> positions self) self.

Definition emergency_stop_all : Py.M t unit :=
  Py.modify (set_emergency_stop true);;
  Py.modify flatten_positions.

End RiskManager.

(** ** strategies/base_strategy.py and strategies/grid_trading.py *)
Module GridTradingStrategy.

Record MarketEntry := { price : Q; volume : Q; timestamp : Z }.

Record Config := {
  cfg_grid_count : option Z;
  cfg_grid_spacing : option Q;
  cfg_base_volume : option Q;
  cfg_center_price : option Q;
  cfg_tickers : option (list string)
}.

Record t := {
  name : string;
  config : Config;
  is_running : bool;
  grid_count : Z;
  grid_spacing : Q;
  base_volume : Q;
  center_price : option Q
}.

Definition init (config : Config) : t :=
  {| name := "GridTrading";
     config := config;
     is_running := false;
     grid_count := default 10%Z (cfg_grid_count config);
     grid_spacing := default 0.005%Q (cfg_grid_spacing config);
     base_volume := default 0.1%Q (cfg_base_volume config);
     center_price := cfg_center_price config |}.

Definition set_is_running (v : bool) (self : t) : t :=
  {| name := name self; config := config self; is_running := v;
     grid_count := grid_count self; grid_spacing := grid_spacing self;
     base_volume := base_volume self; center_price := center_price self |}.

Definition set_center_price (v : option Q) (self : t) : t :=
  {| name := name self; config := config self; is_running := is_running self;
     grid_count := grid_count self; grid_spacing := grid_spacing self;
     base_volume := base_volume self; center_price := v |}.

Definition start : Py.M t unit := Py.modify (set_is_running true).
Definition stop : Py.M t unit := Py.modify (set_is_running false).

Definition grid_order (self : t) (ticker side : string) (grid_price : Q)
    (i : Z) : OrderData :=
  {| od_account_id := None;
     od_ticker := ticker;
     od_side := side;
     od_quantity := base_volume self;
     od_price := grid_price;
     od_type := Some "limit";
     od_strategy := Some (name self);
     od_grid_level := Some i |}.

(** [None * float] raises; a set center price is a number. *)
Definition number {S} (v : option Q) : Py.M S Q :=
  match v with
  | Some q => mret q
  | None => Py.raise Py.TypeError
  end.

(** The loop of [_generate_grid_orders] over the remaining levels. *)
Fixpoint grid_loop (ticker : string) (current_price : Q) (levels : list Z)
    (orders : list OrderData) : Py.M t (list OrderData) :=
  match levels with
  | [] => mret orders
  | i :: rest =>
      if (i =? 0)%Z then grid_loop ticker current_price rest orders
      else
        self ← Py.gets id;
        center ← number (center_price self);
        let grid_price := (center * (1 + inject_Z i * grid_spacing self))%Q in
        if Py.lt grid_price current_price then
          grid_loop ticker current_price rest
            (orders ++ [grid_order self ticker "buy" grid_price i])
        else if Py.gt grid_price current_price then
          grid_loop ticker current_price rest
            (orders ++ [grid_order self ticker "sell" grid_price i])
        else grid_loop ticker current_price rest orders
  end.

Definition _generate_grid_orders (ticker : string) (current_price : Q)
  : Py.M t (list OrderData) :=
  self ← Py.gets id;
  grid_loop ticker current_price
    (Py.range (- grid_count self / 2)%Z (grid_count self / 2 + 1)%Z) [].

Fixpoint execute_loop (market_data : gmap string MarketEntry)
    (tickers : list string) (orders : list OrderData)
  : Py.M t (list OrderData) :=
  match tickers with
  | [] => mret orders
  | ticker :: rest =>
      match market_data !! ticker with
      | None => execute_loop market_data rest orders
      | Some entry =>
          let current_price := price entry in
          Py.modify (λ self,
            match center_price self with
            | None => set_center_price (Some current_price) self
            | Some _ => self
            end);;
          grid_orders ← _generate_grid_orders ticker current_price;
          execute_loop market_data rest (orders ++ grid_orders)
      end
  end.

Definition execute (market_data : gmap string MarketEntry)
  : Py.M t (list OrderData) :=
  self ← Py.gets id;
  if negb (is_running self) then mret []
  else execute_loop market_data (default [] (cfg_tickers (config self))) [].

(** [on_order_update] and [_place_reverse_order] compute a price and log
    it; the strategy's state is not changed. *)
Definition on_order_update : Py.M t unit := mret tt.

End GridTradingStrategy.

(** ** trading_engine.py *)
Module TradingEngine.

Inductive Status := pending | submitted | partial | filled | failed.

#[global] Instance Status_eq_dec : EqDecision Status.
Proof. solve_decision. Defined.

Record Order := {
  order_id : string;
  account_id : option string;
  ticker : string;
  side : string;
  quantity : Q;
  price : Q;
  order_type : string;
  status : Status;
  strategy : string;
  created_at : Z;
  filled_quantity : Q;
  remaining_quantity : Q
}.

(** [uuid.uuid4()] and [datetime.now()], read by one step. *)
Record Env := { uuid4 : string; now : Z }.

(** [Order.__init__] *)
Definition new_order (e : Env) (order_data : OrderData) : Order :=
  {| order_id := uuid4 e;
     account_id := od_account_id order_data;
     ticker := od_ticker order_data;
     side := od_side order_data;
     quantity := od_quantity order_data;
     price := od_price order_data;
     order_type := default "limit" (od_type order_data);
     status := pending;
     strategy := default "unknown" (od_strategy order_data);
     created_at := now e;
     filled_quantity := 0.0%Q;
     remaining_quantity := od_quantity order_data |}.

Definition set_status (v : Status) (o : Order) : Order :=
  {| order_id := order_id o; account_id := account_id o; ticker := ticker o;
     side := side o; quantity := quantity o; price := price o;
     order_type := order_type o; status := v; strategy := strategy o;
     created_at := created_at o; filled_quantity := filled_quantity o;
     remaining_quantity := remaining_quantity o |}.

(** [status = 'filled'; filled_quantity = quantity; remaining_quantity = 0] *)
Definition fill (o : Order) : Order :=
  {| order_id := order_id o; account_id := account_id o; ticker := ticker o;
     side := side o; quantity := quantity o; price := price o;
     order_type := order_type o; status := filled; strategy := strategy o;
     created_at := created_at o; filled_quantity := quantity o;
     remaining_quantity := 0%Q |}.

(** The dict built by [_notify_order_update]. *)
Record OrderUpdate := {
  u_order_id : string;
  u_account_id : option string;
  u_ticker : string;
  u_side : string;
  u_quantity : Q;
  u_filled_quantity : Q;
  u_price : Q;
  u_status : Status;
  u_strategy : string;
  u_timestamp : Z
}.

Definition order_update_of (e : Env) (order : Order) : OrderUpdate :=
  {| u_order_id := order_id order;
     u_account_id := account_id order;
     u_ticker := ticker order;
     u_side := side order;
     u_quantity := quantity order;
     u_filled_quantity := filled_quantity order;
     u_price := price order;
     u_status := status order;
     u_strategy := strategy order;
     u_timestamp := now e |}.

Record Client := { base_url : string; client_key : string; client_secret : string }.

Record t := {
  account_manager : AccountManager.t;
  clients : gmap string Client;
  orders : Py.odict Order;
  is_running : bool
}.

Definition _initialize_clients (am : AccountManager.t) : gmap string Client :=
  fold_left (λ clients account,
               <[AccountManager.account_id account :=
                   {| base_url := "https://api.etherealtest.net";
                      client_key := AccountManager.api_key account;
                      client_secret := AccountManager.api_secret account |}]>
                 clients)
            (AccountManager.get_active_accounts am) ∅.

Definition init (accounts_config : list AccountManager.AccountConfig) : t :=
  let am := AccountManager.init accounts_config in
  {| account_manager := am;
     clients := _initialize_clients am;
     orders := [];
     is_running := false |}.

Definition set_orders (v : Py.odict Order) (self : t) : t :=
  {| account_manager := account_manager self; clients := clients self;
     orders := v; is_running := is_running self |}.

(** [x or "default"] on an optional string. *)
Definition or_default (x : option string) : string :=
  match x with
  | None => "default"
  | Some s => if String.eqb s "" then "default" else s
  end.

(** The engine runs against the objects it notifies: the strategies and
    the registered callbacks.  Their state is [W]; the engine's registry
    is not reachable from them. *)
Section Engine.
Context {W : Type}.
Variable strategies : string → option (OrderUpdate → Py.M W unit).
Variable order_update_callbacks : Env → list (OrderUpdate → Py.M W unit).

Definition on_engine {A} (c : Py.M t A) : Py.M (t * W) A :=
  Py.zoom fst (λ x s, (x, snd s)) c.
Definition on_world {A} (c : Py.M W A) : Py.M (t * W) A :=
  Py.zoom snd (λ x s, (fst s, x)) c.

Definition _notify_order_update (e : Env) (order : Order)
  : Py.M (t * W) unit :=
  let order_update := order_update_of e order in
  match strategies (strategy order) with
  | Some on_order_update => on_world (on_order_update order_update)
  | None => mret tt
  end;;
  Py.for_each (order_update_callbacks e) (λ callback,
    Py.try_except (on_world (callback order_update)) (λ _, mret tt)).

Definition _submit_order (e : Env) (order_data : OrderData)
  : Py.M (t * W) unit :=
  Py.try_except
    (let order := new_order e order_data in
     let account_id := or_default (account_id order) in
     self ← Py.gets fst;
     if negb (AccountManager.check_risk_limits (account_manager self)
                account_id (quantity order) (ticker order))
     then mret tt
     else
       match clients self !! account_id with
       | None => mret tt
       | Some client =>
           Py.try_except
             (let order := set_status submitted order in
              on_engine (Py.modify (λ self,
                set_orders (Py.od_set (orders self) (order_id order) order) self));;
              _notify_order_update e order)
             (λ _,
              (** [order] is the registered object; the assignment is
                  seen through the registry. *)
              let order := set_status failed (set_status submitted order) in
              on_engine (Py.modify (λ self,
                set_orders (Py.od_set (orders self) (order_id order) order) self));;
              _notify_order_update e order)
       end)
    (λ _, mret tt).

(** The body of the reconciliation loop for one registered order. *)
Definition update_one (e : Env) (id : string) : Py.M (t * W) unit :=
  self ← Py.gets fst;
  match Py.od_get (orders self) id with
  | None => mret tt
  | Some order =>
      if bool_decide (status order = submitted ∨ status order = partial) then
        Py.try_except
          (if bool_decide (status order = submitted) then
             let order := fill order in
             on_engine (Py.modify (λ self,
               set_orders (Py.od_set (orders self) id order) self));;
             _notify_order_update e order
           else mret tt)
          (λ _, mret tt)
      else mret tt
  end.

Definition _update_order_status (e : Env) : Py.M (t * W) unit :=
  self ← Py.gets fst;
  Py.for_each (Py.od_keys (orders self)) (update_one e).

End Engine.

End TradingEngine.

(** ** main.py: the engine wired to monitoring and to the risk manager *)
Module System.

Section Wiring.
(** State of the strategies and of the monitoring system. *)
Context {Obs : Type}.
Variable strategies : string → option (TradingEngine.OrderUpdate → Py.M Obs unit).
Variable monitoring_on_order_update : TradingEngine.OrderUpdate → Py.M Obs unit.

Definition World : Type := Obs * RiskManager.t.
Definition t : Type := TradingEngine.t * World.

Definition engine (s : t) : TradingEngine.t := fst s.
Definition risk_manager (s : t) : RiskManager.t := snd (snd s).

Definition on_obs {A} (c : Py.M Obs A) : Py.M World A :=
  Py.zoom fst (λ x s, (x, snd s)) c.
Definition on_risk {A} (c : Py.M RiskManager.t A) : Py.M World A :=
  Py.zoom snd (λ x s, (fst s, x)) c.

(** The lambda registered as the second callback. *)
Definition risk_callback (e : TradingEngine.Env)
    (order_update : TradingEngine.OrderUpdate) : Py.M RiskManager.t unit :=
  RiskManager.update_position (TradingEngine.now e)
    (TradingEngine.u_account_id order_update)
    (TradingEngine.u_ticker order_update)
    (TradingEngine.u_side order_update)
    (TradingEngine.u_filled_quantity order_update)
    (TradingEngine.u_price order_update).

Definition callbacks (e : TradingEngine.Env)
  : list (TradingEngine.OrderUpdate → Py.M World unit) :=
  [ (λ u, on_obs (monitoring_on_order_update u));
    (λ u, on_risk (risk_callback e u)) ].

Definition strategy_handlers (name : string)
  : option (TradingEngine.OrderUpdate → Py.M World unit) :=
  (λ h u, on_obs (h u)) <$> strategies name.

Definition init (accounts_config : list AccountManager.AccountConfig)
    (risk_config : RiskManager.Config) (obs : Obs) : t :=
  (TradingEngine.init accounts_config, (obs, RiskManager.init risk_config)).

Inductive Action :=
| Submit (e : TradingEngine.Env) (order_data : OrderData)
| Reconcile (e : TradingEngine.Env)
| RefreshMetrics
| EmergencyStop.

Definition exec (a : Action) (s : t) : t :=
  match a with
  | Submit e order_data =>
      snd (TradingEngine._submit_order strategy_handlers callbacks e order_data s)
  | Reconcile e =>
      snd (TradingEngine._update_order_status strategy_handlers callbacks e s)
  | RefreshMetrics =>
      snd (Py.zoom snd (λ x s, (fst s, x))
             (on_risk RiskManager.update_risk_metrics) s)
  | EmergencyStop =>
      snd (Py.zoom snd (λ x s, (fst s, x))
             (on_risk RiskManager.emergency_stop_all) s)
  end.

Definition run (actions : list Action) (s : t) : t :=
  fold_left (λ s a, exec a s) actions s.

End Wiring.

Arguments World : clear implicits.
Arguments t : clear implicits.

End System.

(** ** More builtins *)
Module Builtin.

(** [min(a, b)]: the first argument unless the second is smaller. *)
Definition min2 (a b : Q) : Q := if Py.lt b a then b else a.

(** [a >= b] and [a <= b] *)
Definition ge (a b : Q) : bool := negb (Py.lt a b).
Definition le (a b : Q) : bool := negb (Py.gt a b).

(** A pure expression that may raise. *)
Definition div (a b : Q) : Py.result Q :=
  if Qeq_bool b 0 then Py.Raise Py.ZeroDivisionError else Py.Ok (a / b)%Q.

(** A pure expression used inside a method body. *)
Definition lift {S A} (r : Py.result A) : Py.M S A := λ s, (r, s).

End Builtin.

(** ** risk_manager.py: position sizing *)
Module PositionSizing.

(** The attributes of the risk manager that only [calculate_position_size]
    reads: [position_size_method], [risk_per_trade], and the two optional
    keys of [self.config]. *)
Record Settings := {
  position_size_method : string;
  risk_per_trade : Q;
  fixed_position_size : option Q;
  default_position_size : option Q
}.

Definition calculate_position_size (settings : Settings) (self : RiskManager.t)
    (account_balance entry_price stop_loss_price : Q) : Py.result Q :=
  let fallback := Py.Ok (default 100%Q (default_position_size settings)) in
  if String.eqb (position_size_method settings) "fixed" then
    Py.Ok (default 100%Q (fixed_position_size settings))
  else if String.eqb (position_size_method settings) "risk_based" then
    let risk_amount := (account_balance * risk_per_trade settings)%Q in
    let price_risk := Qabs (entry_price - stop_loss_price) in
    if Py.gt price_risk 0 then
      let position_size := (risk_amount / price_risk)%Q in
      Py.Ok (Builtin.min2 position_size (RiskManager.max_position_size self))
    else fallback
  else if String.eqb (position_size_method settings) "kelly" then
    let win_rate := RiskMetrics.win_rate (RiskManager.risk_metrics self) in
    let profit_factor :=
      RiskMetrics.profit_factor (RiskManager.risk_metrics self) in
    if Py.gt profit_factor 0 && Py.gt win_rate 0 then
      let kelly_fraction := (win_rate - ((1 - win_rate) / profit_factor))%Q in
      let kelly_fraction := Py.max2 0 (Builtin.min2 kelly_fraction 0.25) in
      Builtin.div (account_balance * kelly_fraction) entry_price
    else fallback
  else fallback.

End PositionSizing.

(** ** strategies/market_making.py *)
Module MarketMakingStrategy.

Record Config := {
  cfg_spread_ratio : option Q;
  cfg_order_size : option Q;
  cfg_max_inventory : option Q;
  cfg_inventory_skew : option Q;
  cfg_tickers : option (list string)
}.

Record t := {
  name : string;
  config : Config;
  is_running : bool;
  spread_ratio : Q;
  order_size : Q;
  max_inventory : Q;
  inventory_skew : Q;
  current_inventory : gmap string Q
}.

Definition init (config : Config) : t :=
  {| name := "MarketMaking";
     config := config;
     is_running := false;
     spread_ratio := default 0.002%Q (cfg_spread_ratio config);
     order_size := default 0.1%Q (cfg_order_size config);
     max_inventory := default 1.0%Q (cfg_max_inventory config);
     inventory_skew := default 0.5%Q (cfg_inventory_skew config);
     current_inventory := ∅ |}.

Definition set_is_running (v : bool) (self : t) : t :=
  {| name := name self; config := config self; is_running := v;
     spread_ratio := spread_ratio self; order_size := order_size self;
     max_inventory := max_inventory self;
     inventory_skew := inventory_skew self;
     current_inventory := current_inventory self |}.

Definition set_current_inventory (v : gmap string Q) (self : t) : t :=
  {| name := name self; config := config self; is_running := is_running self;
     spread_ratio := spread_ratio self; order_size := order_size self;
     max_inventory := max_inventory self;
     inventory_skew := inventory_skew self;
     current_inventory := v |}.

Definition start : Py.M t unit := Py.modify (set_is_running true).
Definition stop : Py.M t unit := Py.modify (set_is_running false).

Definition _calculate_bid_ask_prices (self : t) (market_price inventory : Q)
  : Q * Q :=
  let base_spread := (market_price * spread_ratio self)%Q in
  let inventory_adjustment :=
    (inventory * inventory_skew self * base_spread)%Q in
  let bid_price :=
    (market_price - base_spread / 2 - inventory_adjustment)%Q in
  let ask_price :=
    (market_price + base_spread / 2 - inventory_adjustment)%Q in
  (bid_price, ask_price).

Definition _calculate_order_sizes (self : t) (inventory : Q)
  : Py.result (Q * Q) :=
  match Builtin.div inventory (max_inventory self) with
  | Py.Raise e => Py.Raise e
  | Py.Ok inventory_ratio =>
      let '(bid_size, ask_size) :=
        if Py.gt inventory 0 then
          ((order_size self * (1 - inventory_ratio))%Q,
           (order_size self * (1 + inventory_ratio))%Q)
        else
          ((order_size self * (1 + Qabs inventory_ratio))%Q,
           (order_size self * (1 - Qabs inventory_ratio))%Q) in
      let '(bid_size, ask_size) :=
        if Builtin.ge (Qabs inventory) (max_inventory self) then
          if Py.gt inventory 0 then (0%Q, ask_size) else (bid_size, 0%Q)
        else (bid_size, ask_size) in
      Py.Ok (Py.max2 0 bid_size, Py.max2 0 ask_size)
  end.

Definition quote (self : t) (ticker side : string) (quantity price : Q)
  : OrderData :=
  {| od_account_id := None;
     od_ticker := ticker;
     od_side := side;
     od_quantity := quantity;
     od_price := price;
     od_type := Some "limit";
     od_strategy := Some (name self);
     od_grid_level := None |}.

Fixpoint execute_loop (market_data : gmap string GridTradingStrategy.MarketEntry)
    (tickers : list string) (orders : list OrderData)
  : Py.M t (list OrderData) :=
  match tickers with
  | [] => mret orders
  | ticker :: rest =>
      match market_data !! ticker with
      | None => execute_loop market_data rest orders
      | Some entry =>
          self ← Py.gets id;
          let market_price := GridTradingStrategy.price entry in
          let current_inv := default 0%Q (current_inventory self !! ticker) in
          let '(bid_price, ask_price) :=
            _calculate_bid_ask_prices self market_price current_inv in
          sizes ← Builtin.lift (_calculate_order_sizes self current_inv);
          let '(bid_size, ask_size) := sizes in
          let orders :=
            if Py.gt bid_size 0
            then (orders ++ [quote self ticker "buy" bid_size bid_price])%list
            else orders in
          let orders :=
            if Py.gt ask_size 0
            then (orders ++ [quote self ticker "sell" ask_size ask_price])%list
            else orders in
          execute_loop market_data rest orders
      end
  end.

Definition execute (market_data : gmap string GridTradingStrategy.MarketEntry)
  : Py.M t (list OrderData) :=
  self ← Py.gets id;
  if negb (is_running self) then mret []
  else execute_loop market_data (default [] (cfg_tickers (config self))) [].

(** [if ticker not in self.current_inventory:
       self.current_inventory[ticker] = 0] *)
Definition ensure_ticker (ticker : string) (self : t) : t :=
  match current_inventory self !! ticker with
  | Some _ => self
  | None => set_current_inventory (<[ticker := 0%Q]> (current_inventory self)) self
  end.

Definition move_inventory (ticker side : string) (quantity : Q) (self : t) : t :=
  let current := default 0%Q (current_inventory self !! ticker) in
  let updated :=
    if String.eqb side "buy" then (current + quantity)%Q
    else (current - quantity)%Q in
  set_current_inventory (<[ticker := updated]> (current_inventory self)) self.

Definition on_order_update (order_update : TradingEngine.OrderUpdate)
  : Py.M t unit :=
  if bool_decide (TradingEngine.u_status order_update = TradingEngine.filled)
  then
    let ticker := TradingEngine.u_ticker order_update in
    let side := TradingEngine.u_side order_update in
    let quantity := TradingEngine.u_quantity order_update in
    Py.modify (ensure_ticker ticker);;
    Py.modify (move_inventory ticker side quantity)
  else mret tt.

End MarketMakingStrategy.

(** ** strategies/arbitrage.py *)
Module ArbitrageStrategy.

Record ArbPair := {
  ticker_a : string;
  ticker_b : string;
  exchange_rate : option Q
}.

Record Config := {
  cfg_arbitrage_pairs : option (list ArbPair);
  cfg_min_profit_threshold : option Q;
  cfg_max_volume : option Q
}.

Record t := {
  name : string;
  is_running : bool;
  arbitrage_pairs : list ArbPair;
  min_profit_threshold : Q;
  max_volume : Q
}.

Definition init (config : Config) : t :=
  {| name := "Arbitrage";
     is_running := false;
     arbitrage_pairs := default [] (cfg_arbitrage_pairs config);
     min_profit_threshold := default 0.002%Q (cfg_min_profit_threshold config);
     max_volume := default 1.0%Q (cfg_max_volume config) |}.

Definition set_is_running (v : bool) (self : t) : t :=
  {| name := name self; is_running := v;
     arbitrage_pairs := arbitrage_pairs self;
     min_profit_threshold := min_profit_threshold self;
     max_volume := max_volume self |}.

Definition start : Py.M t unit := Py.modify (set_is_running true).
Definition stop : Py.M t unit := Py.modify (set_is_running false).

(** An order intent of this strategy: the keys the engine reads, and the
    ['arbitrage_pair'] key next to them. *)
Record TaggedOrder := { order : OrderData; arbitrage_pair : string }.

Definition leg (self : t) (pair : ArbPair) (ticker side : string)
    (quantity price : Q) : TaggedOrder :=
  {| order :=
       {| od_account_id := None;
          od_ticker := ticker;
          od_side := side;
          od_quantity := quantity;
          od_price := price;
          od_type := Some "limit";
          od_strategy := Some (name self);
          od_grid_level := None |};
     arbitrage_pair := String.append (ticker_a pair)
                         (String.append "-" (ticker_b pair)) |}.

Definition _calculate_optimal_volume (self : t) (price_a price_b : Q)
  : Py.result Q :=
  match Builtin.div 100 (Py.max2 price_a price_b) with
  | Py.Raise e => Py.Raise e
  | Py.Ok v => Py.Ok (Builtin.min2 (max_volume self) v)
  end.

Definition _check_arbitrage_opportunity (self : t) (arb_pair : ArbPair)
    (market_data : gmap string GridTradingStrategy.MarketEntry)
  : Py.result (list TaggedOrder) :=
  let rate := default 1.0%Q (exchange_rate arb_pair) in
  match market_data !! ticker_a arb_pair, market_data !! ticker_b arb_pair with
  | Some entry_a, Some entry_b =>
      let price_a := GridTradingStrategy.price entry_a in
      let price_b := GridTradingStrategy.price entry_b in
      let price_diff := (price_a - price_b * rate)%Q in
      match Builtin.div (Qabs price_diff) price_a with
      | Py.Raise e => Py.Raise e
      | Py.Ok profit_rate =>
          if Py.lt profit_rate (min_profit_threshold self) then Py.Ok []
          else
            match _calculate_optimal_volume self price_a price_b with
            | Py.Raise e => Py.Raise e
            | Py.Ok optimal =>
                let volume := Builtin.min2 (max_volume self) optimal in
                if Py.gt price_diff 0 then
                  Py.Ok
                    [leg self arb_pair (ticker_a arb_pair) "sell" volume
                       (price_a * 0.999)%Q;
                     leg self arb_pair (ticker_b arb_pair) "buy"
                       (volume * rate)%Q (price_b * 1.001)%Q]
                else
                  Py.Ok
                    [leg self arb_pair (ticker_a arb_pair) "buy" volume
                       (price_a * 1.001)%Q;
                     leg self arb_pair (ticker_b arb_pair) "sell"
                       (volume * rate)%Q (price_b * 0.999)%Q]
            end
      end
  | _, _ => Py.Ok []
  end.

Fixpoint execute_loop (self : t)
    (market_data : gmap string GridTradingStrategy.MarketEntry)
    (pairs : list ArbPair) (orders : list TaggedOrder)
  : Py.result (list TaggedOrder) :=
  match pairs with
  | [] => Py.Ok orders
  | arb_pair :: rest =>
      match _check_arbitrage_opportunity self arb_pair market_data with
      | Py.Raise e => Py.Raise e
      | Py.Ok arb_orders =>
          execute_loop self market_data rest (orders ++ arb_orders)%list
      end
  end.

Definition execute (self : t)
    (market_data : gmap string GridTradingStrategy.MarketEntry)
  : Py.result (list TaggedOrder) :=
  if negb (is_running self) then Py.Ok []
  else execute_loop self market_data (arbitrage_pairs self) [].

End ArbitrageStrategy.

(** ** strategies/self_hedging.py *)
Module SelfHedgingStrategy.

Record HedgePair := {
  ticker : string;
  buy_account : string;
  sell_account : string
}.

Record Config := {
  cfg_hedge_pairs : option (list HedgePair);
  cfg_volume_range : option (list Q);
  cfg_price_offset : option Q
}.

Record t := {
  name : string;
  is_running : bool;
  hedge_pairs : list HedgePair;
  volume_range : list Q;
  price_offset : Q
}.

Definition init (config : Config) : t :=
  {| name := "SelfHedging";
     is_running := false;
     hedge_pairs := default [] (cfg_hedge_pairs config);
     volume_range := default [0.01%Q; 0.1%Q] (cfg_volume_range config);
     price_offset := default 0.0001%Q (cfg_price_offset config) |}.

Definition set_is_running (v : bool) (self : t) : t :=
  {| name := name self; is_running := v; hedge_pairs := hedge_pairs self;
     volume_range := volume_range self; price_offset := price_offset self |}.

Definition start : Py.M t unit := Py.modify (set_is_running true).
Definition stop : Py.M t unit := Py.modify (set_is_running false).

(** [random.uniform] on the unpacked [volume_range]: [a + (b - a) * random()]
    for two arguments, a [TypeError] for any other number of them.  [u] is
    the value that [random()] returns. *)
Definition uniform (args : list Q) (u : Q) : Py.result Q :=
  match args with
  | [a; b] => Py.Ok (a + (b - a) * u)%Q
  | _ => Py.Raise Py.TypeError
  end.

Definition hedge_order (self : t) (account ticker side : string)
    (quantity price : Q) : OrderData :=
  {| od_account_id := Some account;
     od_ticker := ticker;
     od_side := side;
     od_quantity := quantity;
     od_price := price;
     od_type := Some "limit";
     od_strategy := Some (name self);
     od_grid_level := None |}.

(** [random n] is the value of the [n]-th call of [random()] made by this
    [execute]. *)
Fixpoint execute_loop (self : t)
    (market_data : gmap string GridTradingStrategy.MarketEntry)
    (random : nat → Q) (drawn : nat) (pairs : list HedgePair)
    (orders : list OrderData) : Py.result (list OrderData) :=
  match pairs with
  | [] => Py.Ok orders
  | hedge :: rest =>
      match market_data !! ticker hedge with
      | None => execute_loop self market_data random drawn rest orders
      | Some entry =>
          let market_price := GridTradingStrategy.price entry in
          match uniform (volume_range self) (random drawn) with
          | Py.Raise e => Py.Raise e
          | Py.Ok volume =>
              let buy_order :=
                hedge_order self (buy_account hedge) (ticker hedge) "buy" volume
                  (market_price * (1 - price_offset self))%Q in
              let sell_order :=
                hedge_order self (sell_account hedge) (ticker hedge) "sell"
                  volume (market_price * (1 + price_offset self))%Q in
              execute_loop self market_data random (S drawn) rest
                (orders ++ [buy_order; sell_order])%list
          end
      end
  end.

Definition execute (self : t)
    (market_data : gmap string GridTradingStrategy.MarketEntry)
    (random : nat → Q) : Py.result (list OrderData) :=
  if negb (is_running self) then Py.Ok []
  else execute_loop self market_data random 0 (hedge_pairs self) [].

End SelfHedgingStrategy.

(** ** trading_engine.py: statistics *)
Module OrderStatistics.

Record t := {
  total_orders : nat;
  filled_orders : nat;
  fill_rate : Q;
  orders_by_strategy : gmap string nat;
  orders_by_status : gmap string nat
}.

Definition is_filled (o : TradingEngine.Order) : bool :=
  bool_decide (TradingEngine.status o = TradingEngine.filled).

Definition get_order_statistics (self : TradingEngine.t) : t :=
  let total := length (TradingEngine.orders self) in
  let filled :=
    length (filter (λ kv, is_filled (snd kv) = true) (TradingEngine.orders self)) in
  {| total_orders := total;
     filled_orders := filled;
     fill_rate :=
       if (0 <? total)%nat
       then (inject_Z (Z.of_nat filled) / inject_Z (Z.of_nat total))%Q
       else 0%Q;
     orders_by_strategy := ∅;
     orders_by_status := ∅ |}.

End OrderStatistics.

(** ** Vocabulary of the properties *)

(** The calls that reach the risk manager while the system runs: the fill
    callback and the periodic metrics refresh. *)
Inductive RiskCall :=
| UpdatePosition (now : Z) (account_id : RiskManager.account_key)
    (ticker side : string) (quantity price : Q)
| UpdateRiskMetrics.

Definition risk_call (c : RiskCall) : Py.M RiskManager.t unit :=
  match c with
  | UpdatePosition now account_id ticker side quantity price =>
      RiskManager.update_position now account_id ticker side quantity price
  | UpdateRiskMetrics => RiskManager.update_risk_metrics
  end.

Definition risk_calls (cs : list RiskCall) : Py.M RiskManager.t unit :=
  Py.for_each cs risk_call.

(** A trade record without the ['pnl'] key. *)
Definition no_pnl (trade : Py.dict) : Prop := Py.od_get trade "pnl" = None.

(** A risk manager whose recorded trades carry no PnL and whose win rate
    and current drawdown are still zero. *)
Definition flat_metrics (self : RiskManager.t) : Prop :=
  Forall no_pnl (RiskManager.trade_history self) ∧
  (RiskMetrics.win_rate (RiskManager.risk_metrics self) == 0)%Q ∧
  (RiskMetrics.current_drawdown (RiskManager.risk_metrics self) == 0)%Q.

(** Every account of the ledger is stored under its own identifier, as
    [_initialize_accounts] stores it. *)
Definition keyed_by_id (self : AccountManager.t) : Prop :=
  ∀ id account, AccountManager.accounts self !! id = Some account →
                AccountManager.account_id account = id.

(** An account that holds nothing: no balance, no position, the default
    limits. *)
Definition bare_account : AccountManager.AccountConfig :=
  {| AccountManager.cfg_account_id := "A";
     AccountManager.cfg_api_key := "key";
     AccountManager.cfg_api_secret := "secret";
     AccountManager.cfg_balance := None;
     AccountManager.cfg_available_balance := None;
     AccountManager.cfg_positions := None;
     AccountManager.cfg_risk_limit := None;
     AccountManager.cfg_max_position_size := None |}.

(** The orders of one ladder: a buy below the center for a negative
    level, a sell above it for a positive one, nothing at level 0. *)
Definition ladder (self : GridTradingStrategy.t) (center : Q) (ticker : string)
    (levels : list Z) : list OrderData :=
  flat_map (λ i : Z,
    if (i =? 0)%Z then []
    else [GridTradingStrategy.grid_order self ticker
            (if (i <? 0)%Z then "buy" else "sell")
            (center * (1 + inject_Z i * GridTradingStrategy.grid_spacing self))%Q
            i]) levels.

(** *** The order lifecycle *)
Section Lifecycle.
Import TradingEngine.
Context {W : Type}.
Variable strategies : string → option (OrderUpdate → Py.M W unit).
Variable order_update_callbacks : Env → list (OrderUpdate → Py.M W unit).

(** A computation that leaves the engine's own state alone. *)
Definition engine_stable {A} (c : Py.M (t * W) A) : Prop :=
  ∀ s, fst (snd (c s)) = fst s.

(** The two steps of the orchestrator that touch the order registry. *)
Inductive EngineStep :=
| SubmitOrder (e : Env) (order_data : OrderData)
| UpdateOrderStatus (e : Env).

Definition engine_step (step : EngineStep) (s : t * W) : t * W :=
  match step with
  | SubmitOrder e order_data =>
      snd (_submit_order strategies order_update_callbacks e order_data s)
  | UpdateOrderStatus e =>
      snd (_update_order_status strategies order_update_callbacks e s)
  end.

Definition registered (s : t * W) (id : string) : option Order :=
  Py.od_get (orders (fst s)) id.

(** [uuid4] does not return an identifier that is already registered. *)
Definition fresh_id (step : EngineStep) (s : t * W) : Prop :=
  match step with
  | SubmitOrder e _ => registered s (uuid4 e) = None
  | UpdateOrderStatus _ => True
  end.

(** The states an engine has gone through, the latest first, from a start
    with an empty registry. *)
Inductive trace : list (t * W) → Prop :=
| trace_start s : orders (fst s) = [] → trace [s]
| trace_step step s earlier :
    trace (s :: earlier) → fresh_id step s →
    trace (engine_step step s :: s :: earlier).

End Lifecycle.

(** The transitions of the order state machine:
    [pending → submitted → {filled | failed}], and [pending → failed]. *)
Definition forward (a b : TradingEngine.Status) : Prop :=
  a = b ∨
  (a = TradingEngine.pending ∧
   (b = TradingEngine.submitted ∨ b = TradingEngine.failed)) ∨
  (a = TradingEngine.submitted ∧
   (b = TradingEngine.filled ∨ b = TradingEngine.failed)).

Definition terminal (a : TradingEngine.Status) : Prop :=
  a = TradingEngine.filled ∨ a = TradingEngine.failed.

(** What a reconciliation pass may do to a registry: fill submitted
    orders, nothing else. *)
Definition reconciled (before after : Py.odict TradingEngine.Order) : Prop :=
  ∀ id,
    Py.od_get after id = Py.od_get before id ∨
    ∃ o, Py.od_get before id = Some o ∧
         TradingEngine.status o = TradingEngine.submitted ∧
         Py.od_get after id = Some (TradingEngine.fill o).

(** What one step may do to the registry entry of an identifier. *)
Definition entry_step (before after : option TradingEngine.Order) : Prop :=
  match before with
  | Some o =>
      after = Some o ∨
      (TradingEngine.status o = TradingEngine.submitted ∧
       after = Some (TradingEngine.fill o))
  | None =>
      after = None ∨
      ∃ o, after = Some o ∧
           (TradingEngine.status o = TradingEngine.submitted ∨
            TradingEngine.status o = TradingEngine.failed)
  end.

(** *** A small system to run *)

(** One funded account: 1000 USD, no position, the default risk limit of
    0.02, at most 10 units per ticker. *)
Definition funded_account : AccountManager.AccountConfig :=
  {| AccountManager.cfg_account_id := "A";
     AccountManager.cfg_api_key := "key";
     AccountManager.cfg_api_secret := "secret";
     AccountManager.cfg_balance := Some {[ "USD" := 1000%Q ]};
     AccountManager.cfg_available_balance := None;
     AccountManager.cfg_positions := None;
     AccountManager.cfg_risk_limit := None;
     AccountManager.cfg_max_position_size := Some 10%Q |}.

Definition default_risk_config : RiskManager.Config :=
  {| RiskManager.cfg_max_daily_loss := None;
     RiskManager.cfg_max_position_size := None;
     RiskManager.cfg_max_drawdown_limit := None;
     RiskManager.cfg_max_leverage := None |}.

(** No strategy is registered under the orders' tag and monitoring only
    counts; neither has state of interest here. *)
Definition no_strategy (name : string)
  : option (TradingEngine.OrderUpdate → Py.M unit unit) := None.
Definition quiet_monitoring (u : TradingEngine.OrderUpdate) : Py.M unit unit :=
  mret tt.

Definition small_system : System.t unit :=
  System.init [funded_account] default_risk_config tt.

Definition small_run (actions : list System.Action) : System.t unit :=
  System.run no_strategy quiet_monitoring actions small_system.

Definition intent (side : string) (quantity : Q) : OrderData :=
  {| od_account_id := Some "A";
     od_ticker := "BTC";
     od_side := side;
     od_quantity := quantity;
     od_price := 1%Q;
     od_type := Some "limit";
     od_strategy := Some "manual";
     od_grid_level := None |}.

Definition at_time (id : string) (now : Z) : TradingEngine.Env :=
  {| TradingEngine.uuid4 := id; TradingEngine.now := now |}.

Definition ledger_of (s : System.t unit) : option AccountManager.Account :=
  AccountManager.get_account
    (TradingEngine.account_manager (System.engine s)) "A".

Definition order_status (s : System.t unit) (id : string)
  : option TradingEngine.Status :=
  TradingEngine.status <$> Py.od_get (TradingEngine.orders (System.engine s)) id.

(** The ledger, had it been told of a position through
    [update_account_positions]. *)
Definition ledger_told (positions_data : gmap string Q) (s : System.t unit)
  : AccountManager.t :=
  AccountManager.update_account_positions "A" positions_data
    (TradingEngine.account_manager (System.engine s)).

(** Two sells of 8 units, each submitted and then reconciled. *)
Definition two_sells : list System.Action :=
  [ System.Submit (at_time "id-1" 1) (intent "sell" 8);
    System.Reconcile (at_time "" 2);
    System.Submit (at_time "id-2" 3) (intent "sell" 8);
    System.Reconcile (at_time "" 4) ].

(** An emergency stop, then a buy of one unit, submitted and reconciled. *)
Definition stop_then_buy : list System.Action :=
  [ System.EmergencyStop;
    System.Submit (at_time "id-1" 1) (intent "buy" 1);
    System.Reconcile (at_time "" 2) ].

(** *** Instances the properties are run on *)

(** A fresh risk manager after [emergency_stop_all]. *)
Definition stopped_manager : RiskManager.t :=
  snd (RiskManager.emergency_stop_all (RiskManager.init default_risk_config)).

(** A second funded account, for allocation. *)
Definition second_account : AccountManager.AccountConfig :=
  {| AccountManager.cfg_account_id := "B";
     AccountManager.cfg_api_key := "key";
     AccountManager.cfg_api_secret := "secret";
     AccountManager.cfg_balance := Some {[ "USD" := 500%Q ]};
     AccountManager.cfg_available_balance := None;
     AccountManager.cfg_positions := None;
     AccountManager.cfg_risk_limit := Some 0.05%Q;
     AccountManager.cfg_max_position_size := None |}.

(** A started grid of ten levels, 0.5% apart, centered at 100, and a market
    with BTC at 100. *)
Definition grid_at_100 : GridTradingStrategy.t :=
  snd (GridTradingStrategy.start
         (GridTradingStrategy.init
            {| GridTradingStrategy.cfg_grid_count := Some 10%Z;
               GridTradingStrategy.cfg_grid_spacing := Some 0.005%Q;
               GridTradingStrategy.cfg_base_volume := None;
               GridTradingStrategy.cfg_center_price := Some 100%Q;
               GridTradingStrategy.cfg_tickers := Some ["BTC"] |})).

Definition btc_at_100 : GridTradingStrategy.MarketEntry :=
  {| GridTradingStrategy.price := 100%Q;
     GridTradingStrategy.volume := 0%Q;
     GridTradingStrategy.timestamp := 0%Z |}.

(** A sell fill followed by a metrics refresh. *)
Definition sell_then_refresh : list RiskCall :=
  [ UpdatePosition 1 (Some "A") "BTC" "sell" 8 1; UpdateRiskMetrics ].

(** The small system as the engine sees it, after one submission and
    after the reconciliation that follows. *)
Definition engine_start : TradingEngine.t * System.World unit := small_system.

Definition after_submit : TradingEngine.t * System.World unit :=
  engine_step (System.strategy_handlers no_strategy)
              (System.callbacks quiet_monitoring)
              (SubmitOrder (at_time "id-1" 1) (intent "buy" 1)) engine_start.

Definition after_reconcile : TradingEngine.t * System.World unit :=
  engine_step (System.strategy_handlers no_strategy)
              (System.callbacks quiet_monitoring)
              (UpdateOrderStatus (at_time "" 2)) after_submit.

(** *** Calls on the risk manager *)

(** The public methods of the risk manager, as a caller may invoke them in
    any order; a caller that catches an exception goes on with the state
    the call left. *)
Inductive RiskMethod :=
| CallCheckPreTradeRisk (order_data : OrderData)
| CallUpdatePosition (now : Z) (account_id : RiskManager.account_key)
    (ticker side : string) (quantity price : Q)
| CallUpdateRiskMetrics
| CallEmergencyStopAll.

Definition risk_method (m : RiskMethod) (self : RiskManager.t) : RiskManager.t :=
  match m with
  | CallCheckPreTradeRisk order_data =>
      snd (RiskManager.check_pre_trade_risk order_data self)
  | CallUpdatePosition now account_id ticker side quantity price =>
      snd (RiskManager.update_position now account_id ticker side
             quantity price self)
  | CallUpdateRiskMetrics => snd (RiskManager.update_risk_metrics self)
  | CallEmergencyStopAll => snd (RiskManager.emergency_stop_all self)
  end.

Definition risk_methods (ms : list RiskMethod) (self : RiskManager.t)
  : RiskManager.t :=
  fold_left (λ self m, risk_method m self) ms self.

(** The account an intent is checked against, and the position the
    position-limit check computes for it. *)
Definition checked_account (order_data : OrderData) : RiskManager.account_key :=
  Some (default "default" (od_account_id order_data)).

Definition prospective (self : RiskManager.t) (account_id : RiskManager.account_key)
    (ticker side : string) (quantity : Q) : Q :=
  if String.eqb side "buy"
  then (RiskManager.position self account_id ticker + quantity)%Q
  else (RiskManager.position self account_id ticker - quantity)%Q.




(** A trade record whose ['pnl'], when present, is a number. *)
Definition numeric_pnl (trade : Py.dict) : Prop :=
  ∃ q, Py.dict_get trade "pnl" (Py.VNum 0) = Py.VNum q.

(** A fill of non-negative notional. *)
Definition nonneg_fill (c : RiskCall) : Prop :=
  match c with
  | UpdatePosition _ _ _ _ quantity price => (0 <= quantity * price)%Q
  | UpdateRiskMetrics => True
  end.

(** Sizing settings for each method, with no size configured. *)
Definition sizing (method : string) : PositionSizing.Settings :=
  {| PositionSizing.position_size_method := method;
     PositionSizing.risk_per_trade := 0.02%Q;
     PositionSizing.fixed_position_size := None;
     PositionSizing.default_position_size := None |}.

(** The quantities of an order add up. *)
Definition consistent_quantities (o : TradingEngine.Order) : Prop :=
  (TradingEngine.remaining_quantity o
   == TradingEngine.quantity o - TradingEngine.filled_quantity o)%Q.

(** A risk manager configured with [max_leverage = 0]. *)
Definition zero_leverage_manager : RiskManager.t :=
  RiskManager.init
    {| RiskManager.cfg_max_daily_loss := None;
       RiskManager.cfg_max_position_size := None;
       RiskManager.cfg_max_drawdown_limit := None;
       RiskManager.cfg_max_leverage := Some 0%Q |}.

(** *** Quotes of the market maker *)

(** [o] is a quote of the market maker [self] on the market [market_data]:
    a limit order of positive size on a quoted ticker, without an account,
    at the bid price if it buys and at the ask price if it sells. *)
Definition quote_of (self : MarketMakingStrategy.t)
    (market_data : gmap string GridTradingStrategy.MarketEntry)
    (o : OrderData) : Prop :=
  ∃ entry,
    market_data !! od_ticker o = Some entry ∧
    let inventory :=
      default 0%Q (MarketMakingStrategy.current_inventory self !! od_ticker o) in
    let prices :=
      MarketMakingStrategy._calculate_bid_ask_prices self
        (GridTradingStrategy.price entry) inventory in
    (0 < od_quantity o)%Q ∧
    od_account_id o = None ∧
    od_type o = Some "limit" ∧
    od_strategy o = Some (MarketMakingStrategy.name self) ∧
    (od_side o = "buy" ∧ od_price o = fst prices
     ∨ od_side o = "sell" ∧ od_price o = snd prices).

(** The inventory the market maker reads for a ticker, and what one order
    update is worth in it: the order's whole quantity once the order is
    filled, added for a buy and taken off for any other side. *)
Definition inventory (self : MarketMakingStrategy.t) (ticker : string) : Q :=
  default 0%Q (MarketMakingStrategy.current_inventory self !! ticker).

Definition inventory_move (ticker : string) (u : TradingEngine.OrderUpdate) : Q :=
  if bool_decide (TradingEngine.u_status u = TradingEngine.filled
                  ∧ TradingEngine.u_ticker u = ticker)
  then if String.eqb (TradingEngine.u_side u) "buy"
       then TradingEngine.u_quantity u
       else (- TradingEngine.u_quantity u)%Q
  else 0%Q.

(** A market maker with the default parameters, quoting BTC. *)
Definition default_market_maker : MarketMakingStrategy.t :=
  MarketMakingStrategy.init
    {| MarketMakingStrategy.cfg_spread_ratio := None;
       MarketMakingStrategy.cfg_order_size := None;
       MarketMakingStrategy.cfg_max_inventory := None;
       MarketMakingStrategy.cfg_inventory_skew := None;
       MarketMakingStrategy.cfg_tickers := Some ["BTC"] |}.

(** *** Legs of an arbitrage *)

(** Two legs of one arbitrage: the same pair tag, opposite sides, limit
    orders without an account. *)
Definition opposite_legs (a b : ArbitrageStrategy.TaggedOrder) : Prop :=
  ArbitrageStrategy.arbitrage_pair a = ArbitrageStrategy.arbitrage_pair b ∧
  (od_side (ArbitrageStrategy.order a) = "sell"
   ∧ od_side (ArbitrageStrategy.order b) = "buy"
   ∨ od_side (ArbitrageStrategy.order a) = "buy"
     ∧ od_side (ArbitrageStrategy.order b) = "sell") ∧
  od_account_id (ArbitrageStrategy.order a) = None ∧
  od_account_id (ArbitrageStrategy.order b) = None.

(** A list made of couples, one after the other. *)
Fixpoint in_couples {A} (couple : A → A → Prop) (l : list A) : Prop :=
  match l with
  | [] => True
  | a :: b :: rest => couple a b ∧ in_couples couple rest
  | [_] => False
  end.

(** Both tickers of the pair are quoted, the first at [price_a]. *)
Definition quoted_at (market_data : gmap string GridTradingStrategy.MarketEntry)
    (pair : ArbitrageStrategy.ArbPair) (price_a : Q) : Prop :=
  ∃ entry_a,
    market_data !! ArbitrageStrategy.ticker_a pair = Some entry_a ∧
    is_Some (market_data !! ArbitrageStrategy.ticker_b pair) ∧
    GridTradingStrategy.price entry_a = price_a.

(** A running arbitrage between BTC and ETH with the default parameters,
    and ETH quoted at 101. *)
Definition btc_eth : ArbitrageStrategy.ArbPair :=
  {| ArbitrageStrategy.ticker_a := "BTC";
     ArbitrageStrategy.ticker_b := "ETH";
     ArbitrageStrategy.exchange_rate := None |}.

Definition btc_eth_arbitrage : ArbitrageStrategy.t :=
  snd (ArbitrageStrategy.start
         (ArbitrageStrategy.init
            {| ArbitrageStrategy.cfg_arbitrage_pairs := Some [btc_eth];
               ArbitrageStrategy.cfg_min_profit_threshold := None;
               ArbitrageStrategy.cfg_max_volume := None |})).

Definition eth_at_101 : GridTradingStrategy.MarketEntry :=
  {| GridTradingStrategy.price := 101%Q;
     GridTradingStrategy.volume := 1%Q;
     GridTradingStrategy.timestamp := 0%Z |}.

(** *** Couples of the self-hedging strategy *)



(** *** Rungs of a grid *)

(** [o] is a rung of the grid of [self] around [center], for [ticker]
    trading at [current]: an order of [base_volume] at a level other than
    0, priced [center * (1 + level * grid_spacing)], a buy if that price
    is below [current] and a sell if it is above. *)
Definition grid_rung (self : GridTradingStrategy.t) (center : Q)
    (ticker : string) (current : Q) (o : OrderData) : Prop :=
  ∃ i : Z,
    od_grid_level o = Some i ∧ i ≠ 0%Z ∧
    od_ticker o = ticker ∧
    od_quantity o = GridTradingStrategy.base_volume self ∧
    od_account_id o = None ∧
    od_price o
    = (center * (1 + inject_Z i * GridTradingStrategy.grid_spacing self))%Q ∧
    (od_side o = "buy" ∧ (od_price o < current)%Q
     ∨ od_side o = "sell" ∧ (current < od_price o)%Q).

(** The levels a grid of [grid_count] visits, in order; level 0 is
    skipped. *)
Definition grid_levels (self : GridTradingStrategy.t) : list Z :=
  filter (λ i : Z, i ≠ 0%Z)
    (Py.range (- GridTradingStrategy.grid_count self / 2)%Z
              (GridTradingStrategy.grid_count self / 2 + 1)%Z).

(** The price of the first configured ticker that is quoted. *)
Fixpoint first_quoted (market_data : gmap string GridTradingStrategy.MarketEntry)
    (tickers : list string) : option Q :=
  match tickers with
  | [] => None
  | ticker :: rest =>
      match market_data !! ticker with
      | Some entry => Some (GridTradingStrategy.price entry)
      | None => first_quoted market_data rest
      end
  end.

(** A started grid with the default parameters and no center price, on
    BTC and ETH. *)
Definition uncentered_grid : GridTradingStrategy.t :=
  snd (GridTradingStrategy.start
         (GridTradingStrategy.init
            {| GridTradingStrategy.cfg_grid_count := None;
               GridTradingStrategy.cfg_grid_spacing := None;
               GridTradingStrategy.cfg_base_volume := None;
               GridTradingStrategy.cfg_center_price := None;
               GridTradingStrategy.cfg_tickers := Some ["BTC"; "ETH"] |})).

(** * Properties *)

(** ** Running method bodies *)
Section Running.
Context {S : Type}.

Lemma run_bind {A B} (c : Py.M S A) (k : A → Py.M S B) s :
  (c ≫= k) s = match c s with
               | (Py.Ok a, s') => k a s'
               | (Py.Raise e, s') => (Py.Raise e, s')
               end.
Proof. reflexivity. Qed.

Lemma run_gets {A B} (f : S → A) (k : A → Py.M S B) s :
  (Py.gets f ≫= k) s = k (f s) s.
Proof. reflexivity. Qed.

Lemma run_modify {B} (f : S → S) (k : unit → Py.M S B) s :
  (Py.modify f ≫= k) s = k tt (f s).
Proof. reflexivity. Qed.

Lemma run_ret {A B} (a : A) (k : A → Py.M S B) s :
  (mret a ≫= k) s = k a s.
Proof. reflexivity. Qed.

Lemma run_as_num {B} (q : Q) (k : Q → Py.M S B) s :
  (Py.as_num (Py.VNum q) ≫= k) s = k q s.
Proof. reflexivity. Qed.

Lemma run_div {B} (a b : Q) (k : Q → Py.M S B) s :
  Qeq_bool b 0 = false → (Py.div a b ≫= k) s = k (a / b)%Q s.
Proof. intros H. unfold Py.div. rewrite H. reflexivity. Qed.

Lemma run_mret {A} (a : A) (s : S) : (mret a : Py.M S A) s = (Py.Ok a, s).
Proof. reflexivity. Qed.

Lemma run_ok {A B} (c : Py.M S A) (k : A → Py.M S B) s a s' :
  c s = (Py.Ok a, s') → (c ≫= k) s = k a s'.
Proof. intros H. rewrite run_bind, H. reflexivity. Qed.

End Running.

(** ** Comparisons *)

Lemma gt_true_iff a b : Py.gt a b = true ↔ (b < a)%Q.
Proof.
  unfold Py.gt. rewrite (Qgt_alt a b).
  destruct (a ?= b)%Q; split; congruence.
Qed.

Lemma gt_false_iff a b : Py.gt a b = false ↔ (a <= b)%Q.
Proof.
  unfold Py.gt. rewrite Qle_alt. destruct (a ?= b)%Q; split; congruence.
Qed.

Lemma gt_compat a a' b : (a == a')%Q → Py.gt a b = Py.gt a' b.
Proof. intros Heq. unfold Py.gt. rewrite Heq. reflexivity. Qed.

Lemma lt_true_iff a b : Py.lt a b = true ↔ (a < b)%Q.
Proof.
  unfold Py.lt. rewrite Qlt_alt. destruct (a ?= b)%Q; split; congruence.
Qed.

(** ** The risk gate *)
Section RiskGate.
Import RiskManager.

Lemma position_set_positions (self : t) ps a tk :
  position (set_positions ps self) a tk = default 0%Q (default ∅ (ps !! a) !! tk).
Proof. reflexivity. Qed.

(** C2: with the emergency-stop flag set, [check_pre_trade_risk] denies
    every order intent, whatever its account, ticker, side, quantity and
    price, and it does so before any other check runs: the state of the
    risk manager is left as it was. *)
Theorem check_pre_trade_risk_emergency_stop (self : t) (order_data : OrderData) :
  emergency_stop self = true →
  check_pre_trade_risk order_data self = (Py.Ok false, self).
Proof.
  intros Hstop. unfold check_pre_trade_risk.
  rewrite run_gets. unfold id. rewrite Hstop. reflexivity.
Qed.

(** C10: [update_risk_metrics] on an empty trade history returns normally
    and leaves the whole risk manager, risk metrics included, unchanged. *)
Theorem update_risk_metrics_empty_history (self : t) :
  trade_history self = [] →
  update_risk_metrics self = (Py.Ok tt, self).
Proof.
  intros Hempty. unfold update_risk_metrics.
  rewrite run_gets. unfold id. rewrite Hempty. reflexivity.
Qed.

(** *** The position book under the steps of [update_position] *)

Lemma position_ensure_account a (self : t) a' tk' :
  position (ensure_account a self) a' tk' = position self a' tk'.
Proof.
  unfold ensure_account, position.
  destruct (positions self !! a) eqn:Ha; [reflexivity|]. cbn.
  destruct (decide (a = a')) as [<-|Hne].
  - rewrite lookup_insert_eq, Ha. reflexivity.
  - rewrite lookup_insert_ne by assumption. reflexivity.
Qed.

Lemma position_ensure_ticker a tk (self : t) a' tk' :
  position (ensure_ticker a tk self) a' tk' = position self a' tk'.
Proof.
  unfold ensure_ticker, position.
  destruct (default ∅ (positions self !! a) !! tk) eqn:Htk; [reflexivity|]. cbn.
  destruct (decide (a = a')) as [<-|Hne].
  - rewrite lookup_insert_eq. cbn.
    destruct (decide (tk = tk')) as [<-|Hne].
    + rewrite lookup_insert_eq, Htk. reflexivity.
    + rewrite lookup_insert_ne by assumption. reflexivity.
  - rewrite lookup_insert_ne by assumption. reflexivity.
Qed.

Lemma position_move_position a tk side q (self : t) a' tk' :
  position (move_position a tk side q self) a' tk' =
    if decide (a = a' ∧ tk = tk')
    then (if String.eqb side "buy" then position self a tk + q
          else position self a tk - q)%Q
    else position self a' tk'.
Proof.
  unfold move_position, position. cbn.
  destruct (decide (a = a')) as [<-|Hne].
  - rewrite lookup_insert_eq. cbn.
    destruct (decide (tk = tk')) as [<-|Hne].
    + rewrite lookup_insert_eq. rewrite decide_True by auto. reflexivity.
    + rewrite lookup_insert_ne by assumption.
      rewrite decide_False by (intros [_ ?]; contradiction). reflexivity.
  - rewrite lookup_insert_ne by assumption.
    rewrite decide_False by (intros [? _]; contradiction). reflexivity.
Qed.

Lemma recorded_move_position a tk side q (self : t) :
  positions (move_position a tk side q self) !! a ≫= (.!! tk) =
    Some (if String.eqb side "buy" then position self a tk + q
          else position self a tk - q)%Q.
Proof.
  unfold move_position, position. cbn.
  rewrite lookup_insert_eq. cbn. rewrite lookup_insert_eq. reflexivity.
Qed.

Lemma update_position_unfold now a tk side q p (self : t) :
  update_position now a tk side q p self =
    let booked :=
      append_trade (trade_record now a tk side q p)
        (move_position a tk side q
           (ensure_ticker a tk (ensure_account a self))) in
    (Py.Ok tt,
     if String.eqb side "sell"
     then add_metrics_pnl (q * p * 0.001)%Q
            (add_daily_pnl a (q * p * 0.001)%Q (ensure_daily_pnl a booked))
     else booked).
Proof.
  unfold update_position, _update_pnl. rewrite !run_modify.
  destruct (String.eqb side "sell"); reflexivity.
Qed.

Lemma daily_pnl_booked a a' (self : t) pnl :
  daily_pnl (add_daily_pnl a pnl (ensure_daily_pnl a self)) !! a' =
    if decide (a = a')
    then Some (default 0 (daily_pnl self !! a) + pnl)%Q
    else daily_pnl self !! a'.
Proof.
  unfold add_daily_pnl, ensure_daily_pnl.
  destruct (daily_pnl self !! a) eqn:Ha; cbn.
  - destruct (decide (a = a')) as [<-|Hne].
    + rewrite lookup_insert_eq, Ha. reflexivity.
    + rewrite lookup_insert_ne by assumption. reflexivity.
  - destruct (decide (a = a')) as [<-|Hne].
    + rewrite !lookup_insert_eq. reflexivity.
    + rewrite !lookup_insert_ne by assumption. reflexivity.
Qed.

Lemma pnl_steps_frame a x y (self : t) :
  let self' := add_metrics_pnl x (add_daily_pnl a y (ensure_daily_pnl a self)) in
  trade_history self' = trade_history self ∧
  positions self' = positions self ∧
  risk_metrics self' = RiskMetrics.add_pnl x (risk_metrics self).
Proof.
  unfold add_metrics_pnl, add_daily_pnl, ensure_daily_pnl.
  destruct (daily_pnl self !! a); cbn; auto.
Qed.

(** C6: [update_position] returns normally; it moves the signed position of
    the account and ticker by [+quantity] for a buy and by [-quantity] for a
    sell and leaves every other position alone; it appends exactly one trade
    record; on a sell it adds [pnl = quantity * price * 0.001] to
    [daily_pnl[account_id]] and to the daily and total PnL of the risk
    metrics; on a buy the PnL book and the risk metrics are unchanged. *)
Theorem update_position_fill now a tk side q p (self : t) :
  ∃ self',
    update_position now a tk side q p self = (Py.Ok tt, self') ∧
    trade_history self' =
      (trade_history self ++ [trade_record now a tk side q p])%list ∧
    (∀ a' tk', ¬ (a = a' ∧ tk = tk') →
       position self' a' tk' = position self a' tk') ∧
    (side = "buy" →
       position self' a tk = (position self a tk + q)%Q ∧
       positions self' !! a ≫= (.!! tk) = Some (position self a tk + q)%Q ∧
       daily_pnl self' = daily_pnl self ∧
       risk_metrics self' = risk_metrics self) ∧
    (side = "sell" →
       let pnl := (q * p * 0.001)%Q in
       position self' a tk = (position self a tk - q)%Q ∧
       positions self' !! a ≫= (.!! tk) = Some (position self a tk - q)%Q ∧
       daily_pnl self' !! a = Some (default 0 (daily_pnl self !! a) + pnl)%Q ∧
       (∀ a', a ≠ a' → daily_pnl self' !! a' = daily_pnl self !! a') ∧
       risk_metrics self' = RiskMetrics.add_pnl pnl (risk_metrics self) ∧
       RiskMetrics.daily_pnl (risk_metrics self') =
         (RiskMetrics.daily_pnl (risk_metrics self) + pnl)%Q ∧
       RiskMetrics.total_pnl (risk_metrics self') =
         (RiskMetrics.total_pnl (risk_metrics self) + pnl)%Q).
Proof.
  rewrite update_position_unfold. cbv zeta. eexists. split; [reflexivity|].
  assert (Hmoved : ∀ a' tk',
            position (move_position a tk side q
                        (ensure_ticker a tk (ensure_account a self))) a' tk' =
            if decide (a = a' ∧ tk = tk')
            then (if String.eqb side "buy" then position self a tk + q
                  else position self a tk - q)%Q
            else position self a' tk').
  { intros a' tk'. rewrite position_move_position.
    rewrite !position_ensure_ticker, !position_ensure_account. reflexivity. }
  pose proof (recorded_move_position a tk side q
                (ensure_ticker a tk (ensure_account a self))) as Hrec.
  rewrite !position_ensure_ticker, !position_ensure_account in Hrec.
  assert (Hframe :
    let moved := move_position a tk side q
                   (ensure_ticker a tk (ensure_account a self)) in
    daily_pnl moved = daily_pnl self ∧
    risk_metrics moved = risk_metrics self ∧
    trade_history moved = trade_history self).
  { unfold move_position, ensure_ticker, ensure_account.
    repeat case_match; auto. }
  cbv zeta in Hframe.
  remember (move_position a tk side q
              (ensure_ticker a tk (ensure_account a self))) as moved.
  clear Heqmoved.
  destruct Hframe as (Hd & Hm & Hh).
  assert (Hbooked : ∀ trade,
    trade_history (append_trade trade moved) = (trade_history self ++ [trade])%list ∧
    positions (append_trade trade moved) = positions moved ∧
    daily_pnl (append_trade trade moved) = daily_pnl self ∧
    risk_metrics (append_trade trade moved) = risk_metrics self).
  { intros trade. unfold append_trade. cbn. rewrite Hh, Hd, Hm. auto. }
  destruct (Hbooked (trade_record now a tk side q p)) as (Bh & Bp & Bd & Bm).
  remember (append_trade (trade_record now a tk side q p) moved) as booked.
  clear Heqbooked Hbooked.
  destruct (pnl_steps_frame a (q * p * 0.001)%Q (q * p * 0.001)%Q booked)
    as (Fh & Fp & Fm).
  split; [|split; [|split]].
  - destruct (String.eqb side "sell"); [rewrite Fh|]; exact Bh.
  - intros a' tk' Hne. specialize (Hmoved a' tk').
    rewrite decide_False in Hmoved by assumption.
    destruct (String.eqb side "sell"); unfold position in *;
      rewrite ?Fp, Bp; exact Hmoved.
  - intros ->. change (String.eqb "buy" "sell") with false.
    change (String.eqb "buy" "buy") with true in Hmoved, Hrec.
    specialize (Hmoved a tk). rewrite decide_True in Hmoved by auto.
    unfold position in *. rewrite Bp. repeat split; assumption.
  - intros ->. change (String.eqb "sell" "sell") with true.
    change (String.eqb "sell" "buy") with false in Hmoved, Hrec.
    cbv zeta.
    specialize (Hmoved a tk). rewrite decide_True in Hmoved by auto.
    unfold position in *. rewrite Fp, Bp, Fm, Bm.
    split; [exact Hmoved|]. split; [exact Hrec|].
    pose proof (daily_pnl_booked a) as Hb.
    change (daily_pnl (add_metrics_pnl ?x ?s)) with (daily_pnl s).
    split; [|split; [|split; [|split]]]; try reflexivity.
    + specialize (Hb a booked (q * p * 0.001)%Q).
      rewrite decide_True in Hb by reflexivity.
      rewrite Hb, Bd. reflexivity.
    + intros a' Hne.
      specialize (Hb a' booked (q * p * 0.001)%Q).
      rewrite decide_False in Hb by assumption.
      rewrite Hb, Bd. reflexivity.
Qed.

(** *** Metrics computed from trade records that carry no PnL *)

Lemma profitable_no_pnl trades (self : t) :
  Forall no_pnl trades → profitable trades self = (Py.Ok [], self).
Proof.
  induction 1 as [|trade rest Hp _ IH]; [reflexivity|].
  cbn [profitable]. unfold Py.dict_get. rewrite Hp. cbn [default].
  rewrite run_as_num, (run_ok _ _ _ _ _ IH). reflexivity.
Qed.

Lemma last_Forall (P : Q → Prop) l d :
  Forall P l → l ≠ [] → P (List.last l d).
Proof.
  induction 1 as [|x l Hx Hl IH]; [congruence|]. intros _.
  destruct l as [|y l]; [exact Hx|]. apply IH. congruence.
Qed.

Lemma equity_loop_no_pnl trades : ∀ curve (self : t),
  Forall no_pnl trades →
  Forall (λ x, x == 10000)%Q curve → curve ≠ [] →
  ∃ curve', equity_loop trades curve self = (Py.Ok curve', self) ∧
            Forall (λ x, x == 10000)%Q curve' ∧ curve' ≠ [] ∧
            length curve' = (length curve + length trades)%nat.
Proof.
  induction trades as [|trade rest IH]; intros curve self Hp Hc Hne.
  - exists curve. cbn. rewrite Nat.add_0_r. auto.
  - apply Forall_cons in Hp as [Hp Hrest].
    cbn [equity_loop]. unfold Py.dict_get. rewrite Hp. cbn [default].
    rewrite run_as_num.
    destruct (IH (curve ++ [(List.last curve 0 + 0)%Q])%list self Hrest)
      as (curve' & Hrun & Hall & Hne' & Hlen).
    + apply Forall_app_2; [exact Hc|]. apply Forall_singleton.
      rewrite Qplus_0_r. apply (last_Forall (λ x, x == 10000)%Q); assumption.
    + destruct curve; discriminate.
    + exists curve'. rewrite length_app in Hlen. cbn in Hlen |- *.
      repeat split; try assumption. lia.
Qed.

Lemma max_list_const c others : ∀ first,
  (first == c)%Q → Forall (λ x, x == c)%Q others →
  (Py.max_list first others == c)%Q.
Proof.
  unfold Py.max_list.
  induction others as [|x others IH]; intros first Hf Ho; [exact Hf|].
  apply Forall_cons in Ho as [Hx Ho]. cbn [fold_left].
  apply IH; [|exact Ho]. destruct (Py.gt x first); assumption.
Qed.

Lemma flat_metrics_init config : flat_metrics (init config).
Proof. split; [constructor | split; reflexivity]. Qed.

Lemma flat_metrics_update_position now a tk side q p (self : t) :
  flat_metrics self →
  ∃ self', update_position now a tk side q p self = (Py.Ok tt, self') ∧
           flat_metrics self' ∧
           max_drawdown_limit self' = max_drawdown_limit self.
Proof.
  intros (Hh & Hw & Hd). rewrite update_position_unfold. cbv zeta.
  eexists. split; [reflexivity|].
  assert (Hmoved :
    let moved := move_position a tk side q
                   (ensure_ticker a tk (ensure_account a self)) in
    risk_metrics moved = risk_metrics self ∧
    trade_history moved = trade_history self ∧
    max_drawdown_limit moved = max_drawdown_limit self).
  { unfold move_position, ensure_ticker, ensure_account.
    repeat case_match; auto. }
  cbv zeta in Hmoved. destruct Hmoved as (Hm & Ht & Hl).
  remember (move_position a tk side q
              (ensure_ticker a tk (ensure_account a self))) as moved.
  clear Heqmoved.
  assert (Hbooked : flat_metrics (append_trade (trade_record now a tk side q p) moved)).
  { unfold flat_metrics, append_trade. cbn. rewrite Hm, Ht.
    split; [|auto]. apply Forall_app_2; [exact Hh|].
    apply Forall_singleton. reflexivity. }
  destruct (String.eqb side "sell").
  - destruct Hbooked as (Bh & Bw & Bd).
    unfold flat_metrics, add_metrics_pnl, add_daily_pnl, ensure_daily_pnl.
    case_match; cbn in *; rewrite ?Hm, ?Ht in *; auto.
  - split; [exact Hbooked|]. exact Hl.
Qed.

Lemma flat_metrics_update_risk_metrics (self : t) :
  flat_metrics self →
  ∃ self', update_risk_metrics self = (Py.Ok tt, self') ∧
           flat_metrics self' ∧
           max_drawdown_limit self' = max_drawdown_limit self.
Proof.
  intros Hflat. pose proof Hflat as (Hh & Hw & Hd). unfold update_risk_metrics.
  rewrite run_gets. unfold id.
  destruct (trade_history self) as [|trade rest] eqn:Hhist.
  { exists self. auto. }
  rewrite <- Hhist in *. clear Hhist trade rest.
  rewrite (run_ok _ _ _ _ _ (profitable_no_pnl _ self Hh)).
  rewrite run_modify. unfold _calculate_equity_curve.
  rewrite run_bind, run_gets. unfold id.
  set (rated := store_win_rate _ self).
  destruct (equity_loop_no_pnl (trade_history rated) [10000%Q] rated)
    as (curve & Hrun & Hall & Hne & _).
  { exact Hh. } { apply Forall_singleton. reflexivity. } { discriminate. }
  rewrite Hrun.
  destruct curve as [|first others]; [congruence|].
  assert (Hmax : (Py.max_list first others == 10000)%Q).
  { apply Forall_cons in Hall as [? ?]. apply max_list_const; assumption. }
  assert (Hlast : (List.last (first :: others) 0 == 10000)%Q).
  { apply (last_Forall (λ x, x == 10000)%Q); [exact Hall|discriminate]. }
  assert (Hnz : Qeq_bool (Py.max_list first others) 0 = false).
  { destruct (Qeq_bool (Py.max_list first others) 0) eqn:E; [|reflexivity].
    apply Qeq_bool_iff in E. rewrite Hmax in E. discriminate E. }
  rewrite (run_div _ _ _ _ Hnz), !run_modify.
  eexists. split; [reflexivity|].
  split; [|reflexivity]. split; [exact Hh|]. cbn. split.
  - unfold Qdiv. apply Qmult_0_l.
  - rewrite Hmax, Hlast. reflexivity.
Qed.

(** C9: the trade records appended by [update_position] never carry a
    ['pnl'] key.  So, from a fresh risk manager and after any sequence of
    [update_position] and [update_risk_metrics] calls, no call raises, the
    win rate is 0, the equity curve is constant at the starting equity and
    the current drawdown is 0.  [_check_drawdown_limit] therefore answers
    as it does on the fresh risk manager, whatever was recorded; with a
    drawdown limit that is not negative it allows, and does not enter risk
    mode. *)
Theorem recorded_trades_never_move_drawdown config (cs : list RiskCall) :
  ∃ self,
    risk_calls cs (init config) = (Py.Ok tt, self) ∧
    Forall no_pnl (trade_history self) ∧
    (RiskMetrics.win_rate (risk_metrics self) == 0)%Q ∧
    (∃ curve, _calculate_equity_curve self = (Py.Ok curve, self) ∧
              length curve = S (length (trade_history self)) ∧
              Forall (λ equity, equity == 10000)%Q curve) ∧
    (RiskMetrics.current_drawdown (risk_metrics self) == 0)%Q ∧
    max_drawdown_limit self = max_drawdown_limit (init config) ∧
    (∀ account_id,
       fst (_check_drawdown_limit account_id self)
       = fst (_check_drawdown_limit account_id (init config))) ∧
    ((0 <= max_drawdown_limit self)%Q →
       ∀ account_id, _check_drawdown_limit account_id self = (Py.Ok true, self)).
Proof.
  assert (Hrun : ∀ (self : t), flat_metrics self →
            ∃ self', risk_calls cs self = (Py.Ok tt, self') ∧ flat_metrics self' ∧
                     max_drawdown_limit self' = max_drawdown_limit self).
  { unfold risk_calls. induction cs as [|c cs IH]; intros self Hflat.
    - exists self. auto.
    - assert (Hc : ∃ mid, risk_call c self = (Py.Ok tt, mid) ∧ flat_metrics mid ∧
                          max_drawdown_limit mid = max_drawdown_limit self).
      { destruct c as [now a tk side q p|]; cbn [risk_call].
        - apply flat_metrics_update_position, Hflat.
        - apply flat_metrics_update_risk_metrics, Hflat. }
      destruct Hc as (mid & Hc & Hmid & Hlim).
      destruct (IH mid Hmid) as (self' & Hrest & Hflat' & Hlim').
      exists self'. cbn [Py.for_each]. unfold Py.bind. rewrite Hc.
      split; [exact Hrest|]. split; [exact Hflat'|]. congruence. }
  destruct (Hrun (init config) (flat_metrics_init config))
    as (self & Hcalls & (Hh & Hw & Hd) & Hlim).
  exists self. split; [exact Hcalls|]. split; [exact Hh|]. split; [exact Hw|].
  split; [|split; [exact Hd|split; [exact Hlim|split]]].
  - unfold _calculate_equity_curve. rewrite run_gets. unfold id.
    destruct (equity_loop_no_pnl (trade_history self) [10000%Q] self)
      as (curve & Hloop & Hall & _ & Hlen).
    { exact Hh. } { apply Forall_singleton. reflexivity. } { discriminate. }
    exists curve. auto.
  - intros account_id. unfold _check_drawdown_limit.
    rewrite !run_gets. unfold id. rewrite Hlim.
    rewrite (gt_compat _ _ _ Hd).
    change (RiskMetrics.current_drawdown (risk_metrics (init config)))
      with 0%Q.
    destruct (Py.gt 0 (max_drawdown_limit (init config))); reflexivity.
  - intros Hlimit account_id. unfold _check_drawdown_limit.
    rewrite run_gets. unfold id.
    assert (Hgt : Py.gt (RiskMetrics.current_drawdown (risk_metrics self))
                        (max_drawdown_limit self) = false).
    { apply gt_false_iff. rewrite Hd. exact Hlimit. }
    rewrite Hgt. reflexivity.
Qed.

End RiskGate.

(** ** The capital ledger *)
Section CapitalLedger.
Import AccountManager.

Lemma keyed_by_id_init accounts_config : keyed_by_id (init accounts_config).
Proof.
  unfold init, _initialize_accounts, keyed_by_id. cbn.
  assert (H : ∀ m0 : gmap string Account,
            (∀ id account, m0 !! id = Some account → account_id account = id) →
            ∀ id account,
              fold_left (λ accs c, let account := make_account c in
                                   <[account_id account := account]> accs)
                        accounts_config m0 !! id = Some account →
              account_id account = id).
  { induction accounts_config as [|c cs IH]; intros m0 Hm0 id account; cbn.
    - apply Hm0.
    - apply IH. intros id' account'.
      destruct (decide (cfg_account_id c = id')) as [<-|Hne].
      + rewrite lookup_insert_eq. intros [= <-]. reflexivity.
      + rewrite lookup_insert_ne by assumption. apply Hm0. }
  apply H. intros id account. rewrite lookup_empty. discriminate.
Qed.

Lemma risk_ratio_no_value account position_value :
  (account_value account <= 0)%Q → risk_ratio account position_value = 1%Q.
Proof.
  intros Hv. unfold risk_ratio.
  apply gt_false_iff in Hv. rewrite Hv. reflexivity.
Qed.

(** C5, as stated, fails: with no account value and a prospective position
    of zero the risk-ratio test would not fail.  It does: the ratio is 1
    there too, and the bare account's default limit is 0.02. *)
Lemma zero_value_zero_position_is_denied :
  ¬ (∀ self id new_position_size ticker account,
       get_account self id = Some account →
       (account_value account == 0)%Q →
       (total_position account new_position_size ticker == 0)%Q →
       Py.gt (risk_ratio account
                (total_position account new_position_size ticker))
             (risk_limit account) = false).
Proof.
  intros exempt.
  specialize (exempt (init [bare_account]) "A" 0%Q "BTC"
                    (make_account bare_account)).
  assert (H : Py.gt (risk_ratio (make_account bare_account)
                       (total_position (make_account bare_account) 0 "BTC"))
                    (risk_limit (make_account bare_account)) = true)
    by (vm_compute; reflexivity).
  rewrite exempt in H; [discriminate H | | |]; vm_compute; reflexivity.
Qed.

(** C5, amended: when the account value is 0 the risk ratio is 1 whatever
    the prospective position value, zero included; the check then passes
    exactly when the prospective position is within [max_position_size] and
    the account's [risk_limit] is at least 1. *)
Theorem check_risk_limits_no_account_value self id new_position_size ticker account :
  get_account self id = Some account →
  (account_value account == 0)%Q →
  risk_ratio account (total_position account new_position_size ticker) = 1%Q ∧
  (check_risk_limits self id new_position_size ticker = true ↔
     (total_position account new_position_size ticker
        <= max_position_size account)%Q ∧
     (1 <= risk_limit account)%Q).
Proof.
  intros Hacc Hv.
  assert (Hr : ∀ pv, risk_ratio account pv = 1%Q).
  { intros pv. apply risk_ratio_no_value. rewrite Hv. apply Qle_refl. }
  split; [apply Hr|].
  unfold check_risk_limits. rewrite Hacc, Hr.
  destruct (Py.gt (total_position account new_position_size ticker)
                  (max_position_size account)) eqn:Hpos.
  - apply gt_true_iff in Hpos. split; [discriminate|].
    intros [Hle _]. exfalso. apply (Qlt_not_le _ _ Hpos Hle).
  - apply gt_false_iff in Hpos.
    destruct (Py.gt 1 (risk_limit account)) eqn:Hlim.
    + apply gt_true_iff in Hlim. split; [discriminate|].
      intros [_ Hle]. exfalso. apply (Qlt_not_le _ _ Hlim Hle).
    + apply gt_false_iff in Hlim. split; auto.
Qed.

Lemma check_risk_limits_no_account_value_witness :
  risk_ratio (make_account bare_account)
    (total_position (make_account bare_account) 0 "BTC") = 1%Q ∧
  (check_risk_limits (init [bare_account]) "A" 0 "BTC" = true ↔
     (total_position (make_account bare_account) 0 "BTC"
        <= max_position_size (make_account bare_account))%Q ∧
     (1 <= risk_limit (make_account bare_account))%Q).
Proof.
  apply (check_risk_limits_no_account_value (init [bare_account]) "A" 0%Q "BTC"
           (make_account bare_account)); vm_compute; reflexivity.
Defined.

(** *** Equal allocation *)

Lemma active_ids_NoDup (self : t) :
  keyed_by_id self → NoDup (fmap account_id (get_active_accounts self)).
Proof.
  intros Hkeyed. unfold get_active_accounts, values.
  apply (sublist_NoDup _ (fmap account_id (map_to_list (accounts self)).*2)).
  - assert (Heq : fmap account_id (map_to_list (accounts self)).*2
                  = (map_to_list (accounts self)).*1).
    { rewrite <- list_fmap_compose. apply list_fmap_ext.
      intros i [id account] Hin. apply list_elem_of_lookup_2 in Hin.
      apply elem_of_map_to_list in Hin. cbn. apply Hkeyed. exact Hin. }
    rewrite Heq. apply NoDup_fst_map_to_list.
  - apply fmap_sublist, sublist_filter.
Qed.

Lemma equal_shares_lookup amount (l : list Account) : ∀ (m0 : gmap string Q) id,
  fold_left (λ allocation account, <[account_id account := amount]> allocation)
            l m0 !! id
  = if decide (id ∈ fmap account_id l) then Some amount else m0 !! id.
Proof.
  induction l as [|account l IH]; intros m0 id; cbn [fold_left fmap list_fmap].
  - rewrite decide_False by apply not_elem_of_nil. reflexivity.
  - rewrite IH. destruct (decide (id ∈ fmap account_id l)) as [Hin|Hnin].
    + rewrite decide_True by (apply elem_of_cons; auto). reflexivity.
    + destruct (decide (account_id account = id)) as [<-|Hne].
      * rewrite lookup_insert_eq.
        rewrite decide_True by (apply elem_of_cons; auto). reflexivity.
      * rewrite lookup_insert_ne by assumption.
        rewrite decide_False; [reflexivity|].
        intros [?|?]%elem_of_cons; [congruence|contradiction].
Qed.

Lemma equal_shares_size amount (l : list Account) : ∀ (m0 : gmap string Q),
  NoDup (fmap account_id l) →
  (∀ id, id ∈ fmap account_id l → m0 !! id = None) →
  size (fold_left (λ allocation account,
                     <[account_id account := amount]> allocation) l m0)
  = (size m0 + length l)%nat.
Proof.
  induction l as [|account l IH]; intros m0 Hnd Hfresh; cbn [fold_left fmap list_fmap length].
  - lia.
  - cbn [fmap list_fmap] in Hnd. apply NoDup_cons in Hnd as [Hnin Hnd].
    rewrite IH.
    + rewrite map_size_insert_None; [lia|].
      apply Hfresh. apply elem_of_cons. auto.
    + exact Hnd.
    + intros id Hin. rewrite lookup_insert_ne.
      * apply Hfresh. apply elem_of_cons. auto.
      * intros <-. contradiction.
Qed.

Lemma sum_from (l : list Q) : ∀ acc, (fold_left Qplus l acc == acc + Py.sum l)%Q.
Proof.
  unfold Py.sum. induction l as [|x l IH]; intros acc; cbn [fold_left].
  - rewrite Qplus_0_r. reflexivity.
  - rewrite IH, (IH (0 + x)%Q). ring.
Qed.

Lemma sum_const amount (l : list Q) :
  Forall (λ v, v = amount) l → (Py.sum l == Py.len l * amount)%Q.
Proof.
  unfold Py.len. induction 1 as [|x l -> _ IH].
  - reflexivity.
  - unfold Py.sum in *. cbn [fold_left length]. rewrite sum_from.
    unfold Py.sum. rewrite IH, Nat2Z.inj_succ. unfold Z.succ.
    rewrite inject_Z_plus. ring.
Qed.

(** C7: with the "equal" strategy every active account is assigned exactly
    [total_amount / N], [N] the number of active accounts, nobody else is
    assigned anything, and the assigned amounts sum to [total_amount]; with
    no active account the result is the empty mapping, for every strategy,
    and nothing is raised. *)
Theorem allocate_funds_equal (self : t) total_amount :
  keyed_by_id self →
  let active_accounts := get_active_accounts self in
  (active_accounts = [] →
     ∀ strategy, allocate_funds self total_amount strategy = Py.Ok ∅) ∧
  (active_accounts ≠ [] →
     ∃ allocation,
       allocate_funds self total_amount "equal" = Py.Ok allocation ∧
       (∀ account, account ∈ active_accounts →
          allocation !! account_id account
          = Some (total_amount / Py.len active_accounts)%Q) ∧
       (∀ id amount, allocation !! id = Some amount →
          ∃ account, account ∈ active_accounts ∧ account_id account = id) ∧
       size allocation = length active_accounts ∧
       (Py.sum (values allocation) == total_amount)%Q).
Proof.
  intros Hkeyed active_accounts. split.
  - intros Hnone strategy. unfold allocate_funds.
    fold active_accounts. rewrite Hnone. reflexivity.
  - intros Hsome. unfold allocate_funds. fold active_accounts.
    destruct active_accounts as [|first others] eqn:Hactive; [congruence|].
    change (String.eqb "equal" "equal") with true. cbv iota zeta.
    rewrite <- Hactive in *.
    set (amount := (total_amount / Py.len active_accounts)%Q).
    set (allocation := fold_left _ active_accounts ∅).
    assert (Hlookup : ∀ id, allocation !! id =
              if decide (id ∈ fmap account_id active_accounts)
              then Some amount else None).
    { intros id. unfold allocation. rewrite equal_shares_lookup.
      rewrite lookup_empty. reflexivity. }
    assert (Hsize : size allocation = length active_accounts).
    { unfold allocation. rewrite equal_shares_size.
      - rewrite map_size_empty. reflexivity.
      - apply active_ids_NoDup, Hkeyed.
      - intros id _. apply lookup_empty. }
    exists allocation. split; [reflexivity|].
    split; [|split; [|split; [exact Hsize|]]].
    + intros account Hin. rewrite Hlookup.
      rewrite decide_True; [reflexivity|].
      apply list_elem_of_fmap. eauto.
    + intros id amount' Hid. rewrite Hlookup in Hid.
      destruct (decide (id ∈ fmap account_id active_accounts)) as [Hin|];
        [|discriminate].
      apply list_elem_of_fmap in Hin as (account & -> & Hin). eauto.
    + rewrite (sum_const amount).
      * unfold Py.len, values. rewrite length_fmap, length_map_to_list, Hsize.
        unfold amount, Py.len. apply Qmult_div_r.
        rewrite Hactive. cbn [length]. rewrite Nat2Z.inj_succ.
        intros H. unfold Qeq in H. cbn in H. lia.
      * apply Forall_forall. intros v Hv. unfold values in Hv.
        apply list_elem_of_fmap in Hv as ([id v'] & -> & Hin).
        apply elem_of_map_to_list in Hin. rewrite Hlookup in Hin. cbn.
        destruct (decide (id ∈ fmap account_id active_accounts));
          congruence.
Qed.

End CapitalLedger.

(** ** The grid strategy *)
Section Grid.
Import GridTradingStrategy.

Lemma grid_price_below center spacing current (i : Z) :
  (center == current)%Q → (0 < center)%Q → (0 < spacing)%Q → (i < 0)%Z →
  (center * (1 + inject_Z i * spacing) < current)%Q.
Proof.
  intros Heq Hc Hs Hi. rewrite <- Heq.
  assert (Hi' : (inject_Z i < 0)%Q).
  { change 0%Q with (inject_Z 0). rewrite <- Zlt_Qlt. exact Hi. }
  generalize dependent (inject_Z i). intros z Hz.
  pose proof (Qmult_lt_0_compat _ _ Hc Hs) as Hk.
  assert (Hkz : (center * spacing * z < 0)%Q) by nra.
  lra.
Qed.

Lemma grid_price_above center spacing current (i : Z) :
  (center == current)%Q → (0 < center)%Q → (0 < spacing)%Q → (0 < i)%Z →
  (current < center * (1 + inject_Z i * spacing))%Q.
Proof.
  intros Heq Hc Hs Hi. rewrite <- Heq.
  assert (Hi' : (0 < inject_Z i)%Q).
  { change 0%Q with (inject_Z 0). rewrite <- Zlt_Qlt. exact Hi. }
  generalize dependent (inject_Z i). intros z Hz.
  pose proof (Qmult_lt_0_compat _ _ Hc Hs) as Hk.
  assert (Hkz : (0 < center * spacing * z)%Q) by nra.
  lra.
Qed.

Lemma grid_loop_centered (self : t) center ticker current levels :
  center_price self = Some center →
  (center == current)%Q → (0 < center)%Q → (0 < grid_spacing self)%Q →
  ∀ orders,
    grid_loop ticker current levels orders self
    = (Py.Ok (orders ++ ladder self center ticker levels)%list, self).
Proof.
  intros Hcenter Heq Hc Hs.
  induction levels as [|i levels IH]; intros orders; cbn [grid_loop ladder flat_map].
  - rewrite app_nil_r. reflexivity.
  - destruct (Z.eqb_spec i 0) as [->|Hnz]; [apply IH|].
    rewrite run_gets. unfold id. rewrite Hcenter. unfold number.
    rewrite run_ret. fold (ladder self center ticker levels).
    destruct (Z.ltb_spec i 0) as [Hneg|Hpos].
    + pose proof (grid_price_below _ _ _ _ Heq Hc Hs Hneg) as Hlt.
      apply lt_true_iff in Hlt. rewrite Hlt, IH, <- app_assoc. reflexivity.
    + assert (Hi : (0 < i)%Z) by lia.
      pose proof (grid_price_above _ _ _ _ Heq Hc Hs Hi) as Hgt.
      assert (Hlt : Py.lt (center * (1 + inject_Z i * grid_spacing self)) current
                    = false).
      { destruct (Py.lt _ current) eqn:E; [|reflexivity].
        apply lt_true_iff in E. exfalso.
        apply (Qlt_irrefl current). eapply Qlt_trans; eassumption. }
      apply gt_true_iff in Hgt. rewrite Hlt, Hgt, IH, <- app_assoc. reflexivity.
Qed.

(** C8: a running grid strategy with [grid_count = 10], spacing 0.005 and
    center price 100, on a market where its one ticker trades at 100,
    returns exactly ten order intents for that ticker: buys at levels -5
    to -1, priced [100 * (1 + i * 0.005)] below 100, then sells at levels 1
    to 5, priced above 100; level 0 gets no order.  The strategy's state
    is unchanged. *)
Theorem grid_ten_orders_around_100 (self : t) ticker center entry
    (market_data : gmap string MarketEntry) :
  is_running self = true →
  cfg_tickers (config self) = Some [ticker] →
  grid_count self = 10%Z →
  (grid_spacing self == 0.005)%Q →
  center_price self = Some center → (center == 100)%Q →
  market_data !! ticker = Some entry → (price entry == 100)%Q →
  ∃ orders,
    execute market_data self = (Py.Ok orders, self) ∧
    length orders = 10%nat ∧
    od_grid_level <$> orders
      = Some <$> [-5; -4; -3; -2; -1; 1; 2; 3; 4; 5]%Z ∧
    od_side <$> orders
      = ["buy"; "buy"; "buy"; "buy"; "buy";
         "sell"; "sell"; "sell"; "sell"; "sell"] ∧
    Forall (λ order, od_ticker order = ticker ∧
                     od_grid_level order ≠ Some 0%Z) orders ∧
    Forall (λ order,
              ∃ i, od_grid_level order = Some i ∧
                   (od_price order == 100 * (1 + inject_Z i * 0.005))%Q ∧
                   (od_side order = "buy" ∧ (od_price order < 100)%Q ∨
                    od_side order = "sell" ∧ (100 < od_price order)%Q))
           orders.
Proof.
  intros Hrun Htickers Hcount Hspacing Hcenter Hc Hentry Hprice.
  assert (Hcur : (center == price entry)%Q) by (rewrite Hc, Hprice; reflexivity).
  assert (Hc0 : (0 < center)%Q) by (rewrite Hc; reflexivity).
  assert (Hs0 : (0 < grid_spacing self)%Q) by (rewrite Hspacing; reflexivity).
  exists (ladder self center ticker [-5; -4; -3; -2; -1; 0; 1; 2; 3; 4; 5]%Z).
  split.
  { unfold execute. rewrite run_gets. unfold id. rewrite Hrun, Htickers.
    cbn [negb default execute_loop]. rewrite Hentry, run_modify.
    rewrite Hcenter. unfold _generate_grid_orders.
    rewrite run_bind, run_gets. unfold id. rewrite Hcount.
    change (Py.range (-10 / 2) (10 / 2 + 1))
      with [-5; -4; -3; -2; -1; 0; 1; 2; 3; 4; 5]%Z.
    rewrite (grid_loop_centered self center ticker (price entry) _
               Hcenter Hcur Hc0 Hs0).
    reflexivity. }
  cbn [ladder flat_map Z.eqb Z.ltb Z.compare app].
  split; [reflexivity|]. split; [reflexivity|]. split; [reflexivity|].
  split.
  { repeat constructor; discriminate. }
  assert (Hrung : ∀ i : Z, (i ≠ 0)%Z →
    let order := grid_order self ticker
                   (if (i <? 0)%Z then "buy" else "sell")
                   (center * (1 + inject_Z i * grid_spacing self))%Q i in
    ∃ j, od_grid_level order = Some j ∧
         (od_price order == 100 * (1 + inject_Z j * 0.005))%Q ∧
         (od_side order = "buy" ∧ (od_price order < 100)%Q ∨
          od_side order = "sell" ∧ (100 < od_price order)%Q)).
  { intros i Hi. exists i. cbn. split; [reflexivity|].
    split; [rewrite Hc, Hspacing; reflexivity|].
    destruct (Z.ltb_spec i 0) as [Hneg|Hpos].
    - left. split; [reflexivity|].
      apply grid_price_below; auto.
    - right. split; [reflexivity|].
      apply grid_price_above; auto. lia. }
  repeat (apply Forall_cons_2;
    [match goal with
     | |- context [grid_order _ _ _ _ ?i] => exact (Hrung i ltac:(discriminate))
     end|]).
  apply Forall_nil_2.
Qed.

End Grid.

(** ** The order registry *)
Section Registry.
Context {V : Type}.

Lemma od_get_set_eq (d : Py.odict V) k v : Py.od_get (Py.od_set d k v) k = Some v.
Proof.
  induction d as [|[k' v'] d IH]; cbn.
  - rewrite String.eqb_refl. reflexivity.
  - destruct (String.eqb k' k) eqn:E; cbn; rewrite E; [reflexivity|exact IH].
Qed.

Lemma od_get_set_ne (d : Py.odict V) k k' v :
  k ≠ k' → Py.od_get (Py.od_set d k v) k' = Py.od_get d k'.
Proof.
  intros Hne. induction d as [|[k0 v0] d IH]; cbn.
  - apply String.eqb_neq in Hne. rewrite Hne. reflexivity.
  - destruct (String.eqb k0 k) eqn:E; cbn.
    + apply String.eqb_eq in E. subst k0.
      apply String.eqb_neq in Hne. rewrite Hne. reflexivity.
    + rewrite IH. reflexivity.
Qed.

End Registry.

(** ** The orchestrator *)
Section Orchestrator.
Import TradingEngine.
Context {W : Type}.
Variable strategies : string → option (OrderUpdate → Py.M W unit).
Variable order_update_callbacks : Env → list (OrderUpdate → Py.M W unit).

Lemma stable_on_world {A} (c : Py.M W A) : engine_stable (on_world c).
Proof.
  intros s. unfold on_world, Py.zoom. destruct (c (snd s)). reflexivity.
Qed.

Lemma stable_ret {A} (a : A) : engine_stable (mret a : Py.M (t * W) A).
Proof. intros s. reflexivity. Qed.

Lemma stable_bind {A B} (c : Py.M (t * W) A) (k : A → Py.M (t * W) B) :
  engine_stable c → (∀ a, engine_stable (k a)) → engine_stable (c ≫= k).
Proof.
  intros Hc Hk s. rewrite run_bind. specialize (Hc s).
  destruct (c s) as [[a|e] s']; cbn in *; [rewrite Hk|]; exact Hc.
Qed.

Lemma stable_try {A} (c : Py.M (t * W) A) (h : Py.exn → Py.M (t * W) A) :
  engine_stable c → (∀ e, engine_stable (h e)) →
  engine_stable (Py.try_except c h).
Proof.
  intros Hc Hh s. unfold Py.try_except. specialize (Hc s).
  destruct (c s) as [[a|e] s']; cbn in *; [|rewrite Hh]; exact Hc.
Qed.

Lemma stable_for_each {A} (l : list A) (body : A → Py.M (t * W) unit) :
  (∀ x, engine_stable (body x)) → engine_stable (Py.for_each l body).
Proof.
  intros Hbody. induction l as [|x l IH]; cbn [Py.for_each].
  - apply (stable_ret tt).
  - apply (stable_bind (body x)); auto.
Qed.

Lemma stable_notify e order :
  engine_stable (_notify_order_update strategies order_update_callbacks e order).
Proof.
  unfold _notify_order_update. apply stable_bind.
  - destruct (strategies (strategy order));
      [apply stable_on_world | apply (stable_ret tt)].
  - intros _. apply stable_for_each. intros callback.
    apply stable_try; [apply stable_on_world|].
    intros _. apply (stable_ret tt).
Qed.

(** Registering an order, then notifying. *)
Lemma register_then_notify e order id s :
  orders (fst (snd
    ((on_engine (Py.modify (λ self,
        set_orders (Py.od_set (orders self) id order) self));;
      _notify_order_update strategies order_update_callbacks e order) s)))
  = Py.od_set (orders (fst s)) id order.
Proof.
  rewrite run_bind. unfold on_engine at 1, Py.zoom, Py.modify. cbn [fst snd].
  rewrite stable_notify. reflexivity.
Qed.

(** The registry after [_submit_order]: untouched when a check rejects the
    intent, else the new order is in it, submitted, or failed when the
    notification raised. *)
Lemma submit_order_registry e order_data s :
  let before := orders (fst s) in
  let after := orders (fst (snd
    (_submit_order strategies order_update_callbacks e order_data s))) in
  let order := set_status submitted (new_order e order_data) in
  after = before ∨
  after = Py.od_set before (uuid4 e) order ∨
  after = Py.od_set (Py.od_set before (uuid4 e) order) (uuid4 e)
            (set_status failed order).
Proof.
  cbv zeta.
  remember (orders (fst (snd (_submit_order strategies order_update_callbacks
                                e order_data s)))) as after eqn:Hafter.
  unfold _submit_order, Py.try_except in Hafter.
  rewrite run_gets in Hafter.
  change (order_id (set_status submitted (new_order e order_data)))
    with (uuid4 e) in Hafter.
  change (order_id (set_status failed
                      (set_status submitted (new_order e order_data))))
    with (uuid4 e) in Hafter.
  destruct (AccountManager.check_risk_limits _ _ _ _); cbn [negb] in Hafter.
  2: { left. exact Hafter. }
  destruct (clients (fst s) !! _) as [client|]; [|left; exact Hafter].
  pose proof (register_then_notify e
                (set_status submitted (new_order e order_data))
                (uuid4 e) s) as Hreg.
  match type of Hafter with
  | context [match ?c s with _ => _ end] =>
      destruct (c s) as [[[]|exn] s1] eqn:Hrun
  end; cbn [fst snd] in *.
  - right. left. rewrite Hafter. exact Hreg.
  - right. right.
    pose proof (register_then_notify e
                  (set_status failed
                     (set_status submitted (new_order e order_data)))
                  (uuid4 e) s1) as Hfail.
    match type of Hafter with
    | context [match ?c s1 with _ => _ end] =>
        destruct (c s1) as [[[]|exn'] s2] eqn:Hrun'
    end; cbn in Hafter, Hfail; rewrite Hafter, Hfail, Hreg; reflexivity.
Qed.

Lemma reconciled_refl d : reconciled d d.
Proof. intros id. left. reflexivity. Qed.

Lemma reconciled_trans d1 d2 d3 :
  reconciled d1 d2 → reconciled d2 d3 → reconciled d1 d3.
Proof.
  intros H12 H23 id. destruct (H23 id) as [Heq|(o & Ho & Hs & Hfill)].
  - rewrite Heq. apply H12.
  - destruct (H12 id) as [Heq|(o' & _ & _ & Hfill')].
    + right. exists o. rewrite <- Heq. auto.
    + rewrite Hfill' in Ho. injection Ho as <-. discriminate Hs.
Qed.

Lemma update_one_reconciled e id s :
  reconciled (orders (fst s))
    (orders (fst (snd (update_one strategies order_update_callbacks e id s)))).
Proof.
  remember (orders (fst (snd (update_one strategies order_update_callbacks
                                e id s)))) as after eqn:Hafter.
  unfold update_one in Hafter. rewrite run_gets in Hafter.
  destruct (Py.od_get (orders (fst s)) id) as [order|] eqn:Hget.
  2: { rewrite Hafter. apply reconciled_refl. }
  destruct (bool_decide (status order = submitted ∨ status order = partial)).
  2: { rewrite Hafter. apply reconciled_refl. }
  unfold Py.try_except in Hafter.
  destruct (bool_decide (status order = submitted)) eqn:Hsub.
  2: { rewrite Hafter. apply reconciled_refl. }
  apply bool_decide_eq_true in Hsub.
  pose proof (register_then_notify e (fill order) id s) as Hreg.
  match type of Hafter with
  | context [match ?c s with _ => _ end] =>
      destruct (c s) as [[[]|exn] s1] eqn:Hrun
  end; cbn in Hafter, Hreg; rewrite Hafter, Hreg;
  (intros id'; destruct (decide (id = id')) as [<-|Hne];
     [right; exists order; rewrite od_get_set_eq; auto
     |left; apply od_get_set_ne; exact Hne]).
Qed.

Lemma for_each_update_one_reconciled e ids : ∀ s,
  reconciled (orders (fst s))
    (orders (fst (snd
       (Py.for_each ids (update_one strategies order_update_callbacks e) s)))).
Proof.
  induction ids as [|id ids IH]; intros s; cbn [Py.for_each].
  - apply reconciled_refl.
  - unfold Py.bind.
    pose proof (update_one_reconciled e id s) as Hone.
    destruct (update_one strategies order_update_callbacks e id s)
      as [[[]|exn] s1]; cbn [fst snd] in *.
    + eapply reconciled_trans; [exact Hone|apply IH].
    + exact Hone.
Qed.

(** One step of the orchestrator, seen from one identifier. *)
Lemma engine_step_entry step s id :
  fresh_id step s →
  entry_step (registered s id)
             (registered (engine_step strategies order_update_callbacks step s) id).
Proof.
  intros Hfresh. unfold registered in *.
  destruct step as [e order_data|e]; cbn [engine_step fresh_id] in *.
  - pose proof (submit_order_registry e order_data s) as Hsubmit.
    cbv zeta in Hsubmit. unfold registered in Hfresh.
    assert (Hkept : ∀ order, id ≠ uuid4 e →
              Py.od_get (Py.od_set (orders (fst s)) (uuid4 e) order) id
              = Py.od_get (orders (fst s)) id).
    { intros order Hne. apply od_get_set_ne. congruence. }
    destruct Hsubmit as [->|[->| ->]].
    + unfold entry_step. destruct (Py.od_get (orders (fst s)) id); auto.
    + destruct (decide (id = uuid4 e)) as [->|Hne].
      * rewrite Hfresh, od_get_set_eq. right. eexists. split; [reflexivity|].
        left. reflexivity.
      * rewrite Hkept by assumption.
        unfold entry_step. destruct (Py.od_get (orders (fst s)) id); auto.
    + destruct (decide (id = uuid4 e)) as [->|Hne].
      * rewrite Hfresh, od_get_set_eq. right. eexists. split; [reflexivity|].
        right. reflexivity.
      * rewrite od_get_set_ne by congruence. rewrite Hkept by assumption.
        unfold entry_step. destruct (Py.od_get (orders (fst s)) id); auto.
  - unfold _update_order_status. rewrite run_gets.
    destruct (for_each_update_one_reconciled e
                (Py.od_keys (orders (fst s))) s id)
      as [->|(o & -> & Hs & ->)].
    + unfold entry_step. destruct (Py.od_get (orders (fst s)) id); auto.
    + right. auto.
Qed.

Lemma trace_adjacent tr :
  trace strategies order_update_callbacks tr →
  ∀ later s' s earlier, tr = (later ++ s' :: s :: earlier)%list →
  ∃ step, fresh_id step s ∧
          s' = engine_step strategies order_update_callbacks step s.
Proof.
  induction 1 as [s0 Hempty|step s1 er Htr IH Hfresh];
    intros later s' s earlier Heq.
  - destruct later as [|x [|y later]]; discriminate Heq.
  - destruct later as [|x later]; cbn in Heq.
    + injection Heq as <- <- <-. eauto.
    + injection Heq as _ Heq. eapply IH. exact Heq.
Qed.

Lemma filled_was_submitted tr :
  trace strategies order_update_callbacks tr →
  ∀ later s earlier id o, tr = (later ++ s :: earlier)%list →
  registered s id = Some o → status o = filled →
  ∃ s0 o0, s0 ∈ earlier ∧ registered s0 id = Some o0 ∧ status o0 = submitted.
Proof.
  induction 1 as [s0 Hempty|step s1 er Htr IH Hfresh];
    intros later s earlier id o Heq Hreg Hfilled.
  - destruct later as [|x [|y later]]; try discriminate Heq.
    injection Heq as <- <-. unfold registered in Hreg.
    rewrite Hempty in Hreg. discriminate Hreg.
  - destruct later as [|x later]; cbn in Heq.
    + injection Heq as <- <-.
      pose proof (engine_step_entry step s1 id Hfresh) as Hstep.
      rewrite Hreg in Hstep. unfold entry_step in Hstep.
      destruct (registered s1 id) as [o1|] eqn:Hreg1.
      * destruct Hstep as [[= ->]|[Hsub _]].
        -- destruct (IH [] s1 er id o1 eq_refl Hreg1 Hfilled)
             as (s0 & o0 & Hin & Hreg0 & Hs0).
           exists s0, o0. split; [apply elem_of_cons; auto|auto].
        -- exists s1, o1. split; [apply elem_of_cons; auto|auto].
      * destruct Hstep as [[=]|(o' & [= <-] & [Hs|Hs])]; congruence.
    + injection Heq as _ Heq. eapply IH; eassumption.
Qed.

(** C4: along every run of the orchestrator from an empty registry, taking
    fresh order identifiers, a registered order only moves forward.  From
    one state to the next it keeps its status or goes from [submitted] to
    [filled]; once [filled] or [failed] it stays so, in particular it never
    goes back to [submitted].  An order enters the registry as [submitted]
    (or [failed], when its notification raised), never as [filled]; and an
    order found [filled] was [submitted] in an earlier state of the run. *)
Theorem order_lifecycle_forward_only tr :
  trace strategies order_update_callbacks tr →
  (∀ later s' s earlier id o,
     tr = (later ++ s' :: s :: earlier)%list →
     registered s id = Some o →
     ∃ o', registered s' id = Some o' ∧
           forward (status o) (status o') ∧
           (terminal (status o) → status o' = status o)) ∧
  (∀ later s' s earlier id o',
     tr = (later ++ s' :: s :: earlier)%list →
     registered s id = None → registered s' id = Some o' →
     status o' = submitted ∨ status o' = failed) ∧
  (∀ later s earlier id o,
     tr = (later ++ s :: earlier)%list →
     registered s id = Some o → status o = filled →
     ∃ s0 o0, s0 ∈ earlier ∧ registered s0 id = Some o0 ∧
              status o0 = submitted).
Proof.
  intros Htr. split; [|split].
  - intros later s' s earlier id o Heq Hreg.
    destruct (trace_adjacent tr Htr _ _ _ _ Heq) as (step & Hfresh & ->).
    pose proof (engine_step_entry step s id Hfresh) as Hstep.
    rewrite Hreg in Hstep. cbn [entry_step] in Hstep.
    destruct Hstep as [Hsame|[Hsub Hfill]].
    + exists o. split; [exact Hsame|]. split; [left; reflexivity|auto].
    + exists (fill o). split; [exact Hfill|]. cbn [fill status].
      split.
      * right. right. auto.
      * intros [Hterm|Hterm]; congruence.
  - intros later s' s earlier id o' Heq Hnone Hreg.
    destruct (trace_adjacent tr Htr _ _ _ _ Heq) as (step & Hfresh & ->).
    pose proof (engine_step_entry step s id Hfresh) as Hstep.
    rewrite Hnone, Hreg in Hstep. cbn [entry_step] in Hstep.
    destruct Hstep as [[=]|(o & [= <-] & Hs)]. exact Hs.
  - apply filled_was_submitted. exact Htr.
Qed.

End Orchestrator.

(** ** The wired system at work *)
Section Wired.

(** C1: the submission path never reads the risk manager.  After
    [emergency_stop_all] the flag is set and [check_pre_trade_risk] would
    deny the intent, yet [_submit_order] registers the order as submitted,
    the flag still set, and the next reconciliation fills it and books the
    position. *)
Theorem order_submitted_under_emergency_stop :
  let stopped := small_run (firstn 1 stop_then_buy) in
  let submitted := small_run (firstn 2 stop_then_buy) in
  let reconciled := small_run stop_then_buy in
  RiskManager.emergency_stop (System.risk_manager stopped) = true ∧
  fst (RiskManager.check_pre_trade_risk (intent "buy" 1)
         (System.risk_manager stopped)) = Py.Ok false ∧
  order_status stopped "id-1" = None ∧
  order_status submitted "id-1" = Some TradingEngine.submitted ∧
  RiskManager.emergency_stop (System.risk_manager submitted) = true ∧
  order_status reconciled "id-1" = Some TradingEngine.filled ∧
  (RiskManager.position (System.risk_manager reconciled) (Some "A") "BTC"
     == 1)%Q.
Proof. vm_compute. repeat split; reflexivity. Qed.

(** C3: two sells of 8 on an account limited to 10 units.  Each passes
    [check_risk_limits], which adds the unsigned quantity to the ledger's
    position, and the ledger is never told of fills; both orders fill and
    the position booked by [update_position] is -16.  A ledger told of the
    first fill would pass the second sell all the same, since it computes
    [|-8 + 8|]. *)
Theorem gated_fills_exceed_max_position_size :
  let before_second := small_run (firstn 2 two_sells) in
  let final := small_run two_sells in
  AccountManager.max_position_size <$> ledger_of final = Some 10%Q ∧
  AccountManager.check_risk_limits
    (TradingEngine.account_manager (System.engine small_system))
    "A" 8 "BTC" = true ∧
  AccountManager.check_risk_limits
    (TradingEngine.account_manager (System.engine before_second))
    "A" 8 "BTC" = true ∧
  order_status final "id-1" = Some TradingEngine.filled ∧
  order_status final "id-2" = Some TradingEngine.filled ∧
  (RiskManager.position (System.risk_manager before_second) (Some "A") "BTC"
     == -8)%Q ∧
  (RiskManager.position (System.risk_manager final) (Some "A") "BTC"
     == -16)%Q ∧
  Py.gt (Qabs (RiskManager.position (System.risk_manager final)
                 (Some "A") "BTC")) 10 = true ∧
  AccountManager.positions <$> ledger_of final = Some ∅ ∧
  AccountManager.check_risk_limits
    (ledger_told {[ "BTC" := (-8)%Q ]} before_second) "A" 8 "BTC" = true.
Proof. vm_compute. repeat split; reflexivity. Qed.

End Wired.

(** ** The properties at the instances above *)
Section Instances.

Lemma check_pre_trade_risk_emergency_stop_witness :
  RiskManager.check_pre_trade_risk (intent "buy" 1) stopped_manager
  = (Py.Ok false, stopped_manager).
Proof.
  apply (check_pre_trade_risk_emergency_stop stopped_manager (intent "buy" 1)).
  reflexivity.
Defined.

Lemma update_risk_metrics_empty_history_witness :
  RiskManager.update_risk_metrics (RiskManager.init default_risk_config)
  = (Py.Ok tt, RiskManager.init default_risk_config).
Proof.
  apply (update_risk_metrics_empty_history
           (RiskManager.init default_risk_config)).
  reflexivity.
Defined.

Lemma update_position_fill_witness :
  ∃ self',
    RiskManager.update_position 1 (Some "A") "BTC" "sell" 8 1
      (RiskManager.init default_risk_config) = (Py.Ok tt, self') ∧
    RiskManager.position self' (Some "A") "BTC" = (0 - 8)%Q ∧
    RiskManager.daily_pnl self' !! Some "A" = Some (0 + 8 * 1 * 0.001)%Q ∧
    length (RiskManager.trade_history self') = 1%nat.
Proof.
  destruct (update_position_fill 1 (Some "A") "BTC" "sell" 8 1
              (RiskManager.init default_risk_config))
    as (self' & Hrun & Hhistory & _ & _ & Hsell).
  destruct (Hsell eq_refl) as (Hposition & _ & Hpnl & _).
  exists self'. split; [exact Hrun|]. split; [exact Hposition|].
  split; [exact Hpnl|]. rewrite Hhistory. reflexivity.
Defined.

Lemma recorded_trades_never_move_drawdown_witness :
  ∃ self,
    risk_calls sell_then_refresh (RiskManager.init default_risk_config)
    = (Py.Ok tt, self) ∧
    RiskManager._check_drawdown_limit (Some "A") self = (Py.Ok true, self).
Proof.
  destruct (recorded_trades_never_move_drawdown default_risk_config
              sell_then_refresh)
    as (self & Hrun & _ & _ & _ & _ & Hlimit & _ & Hcheck).
  exists self. split; [exact Hrun|]. apply Hcheck.
  rewrite Hlimit. vm_compute. discriminate.
Defined.

Lemma allocate_funds_equal_witness :
  ∃ allocation,
    AccountManager.allocate_funds
      (AccountManager.init [funded_account; second_account]) 100 "equal"
    = Py.Ok allocation ∧
    size allocation = 2%nat ∧
    (Py.sum (AccountManager.values allocation) == 100)%Q.
Proof.
  destruct (allocate_funds_equal
              (AccountManager.init [funded_account; second_account]) 100
              (keyed_by_id_init [funded_account; second_account]))
    as [_ Hsome].
  destruct Hsome as (allocation & Hrun & _ & _ & Hsize & Hsum).
  { vm_compute. discriminate. }
  exists allocation. split; [exact Hrun|]. split; [|exact Hsum].
  rewrite Hsize. vm_compute. reflexivity.
Defined.

Lemma grid_ten_orders_around_100_witness :
  ∃ orders,
    GridTradingStrategy.execute {[ "BTC" := btc_at_100 ]} grid_at_100
    = (Py.Ok orders, grid_at_100) ∧
    length orders = 10%nat.
Proof.
  destruct (grid_ten_orders_around_100 grid_at_100 "BTC" 100 btc_at_100
              {[ "BTC" := btc_at_100 ]})
    as (orders & Hrun & Hlength & _); try reflexivity.
  exists orders. split; [exact Hrun|exact Hlength].
Defined.

Lemma order_lifecycle_forward_only_witness :
  ∃ s0 o0,
    s0 ∈ [after_submit; engine_start] ∧
    registered s0 "id-1" = Some o0 ∧
    TradingEngine.status o0 = TradingEngine.submitted.
Proof.
  assert (Htrace : trace (System.strategy_handlers no_strategy)
                         (System.callbacks quiet_monitoring)
                         [after_reconcile; after_submit; engine_start]).
  { apply trace_step; [apply trace_step; [apply trace_start|]|];
      reflexivity. }
  destruct (order_lifecycle_forward_only _ _ _ Htrace) as (_ & _ & Hfilled).
  destruct (registered after_reconcile "id-1") as [o|] eqn:Horder;
    [|vm_compute in Horder; discriminate Horder].
  apply (Hfilled [] after_reconcile [after_submit; engine_start] "id-1" o);
    [reflexivity|exact Horder|].
  vm_compute in Horder. injection Horder as <-. reflexivity.
Defined.

End Instances.

(** ** The pre-trade chain *)
Section PreTrade.
Import RiskManager.

Lemma ge_true_iff a b : Builtin.ge a b = true ↔ (b <= a)%Q.
Proof.
  unfold Builtin.ge. rewrite negb_true_iff. split.
  - intros H. apply Qnot_lt_le. intros Hlt.
    apply lt_true_iff in Hlt. congruence.
  - intros Hle. destruct (Py.lt a b) eqn:E; [|reflexivity].
    apply lt_true_iff in E. exfalso. apply (Qlt_not_le _ _ E Hle).
Qed.

Lemma le_true_iff a b : Builtin.le a b = true ↔ (a <= b)%Q.
Proof. unfold Builtin.le. rewrite negb_true_iff. apply gt_false_iff. Qed.

Lemma run_check_position_limits a tk q side (self : t) :
  _check_position_limits a tk q side self
  = (Py.Ok (Builtin.le (Qabs (prospective self a tk side q))
                       (max_position_size self)),
     ensure_account a self).
Proof.
  unfold _check_position_limits. rewrite run_modify, run_gets. unfold id.
  rewrite position_ensure_account.
  assert (Hmax : max_position_size (ensure_account a self)
                 = max_position_size self).
  { unfold ensure_account. destruct (positions self !! a); reflexivity. }
  rewrite Hmax. unfold Builtin.le, prospective.
  destruct (String.eqb side "buy"); destruct (Py.gt _ _); reflexivity.
Qed.

Lemma run_check_daily_loss_limit a (self : t) :
  _check_daily_loss_limit a self
  = let ok := Builtin.ge (default 0%Q (daily_pnl self !! a))
                         (- max_daily_loss self)%Q in
    (Py.Ok ok, if ok then self else set_is_risk_mode true self).
Proof.
  unfold _check_daily_loss_limit. rewrite run_gets. unfold id, Builtin.ge.
  destruct (Py.lt _ _); reflexivity.
Qed.

Lemma run_check_margin_requirements a q p (self : t) :
  _check_margin_requirements a q p self
  = if Qeq_bool (max_leverage self) 0
    then (Py.Raise Py.ZeroDivisionError, self)
    else (Py.Ok true, self).
Proof.
  unfold _check_margin_requirements. rewrite run_gets. unfold id, Py.div.
  destruct (Qeq_bool (max_leverage self) 0); reflexivity.
Qed.

Lemma run_check_drawdown_limit a (self : t) :
  _check_drawdown_limit a self
  = let ok := Builtin.le (RiskMetrics.current_drawdown (risk_metrics self))
                         (max_drawdown_limit self) in
    (Py.Ok ok, if ok then self else set_is_risk_mode true self).
Proof.
  unfold _check_drawdown_limit. rewrite run_gets. unfold id, Builtin.le.
  destruct (Py.gt _ _); reflexivity.
Qed.

Lemma ensure_account_frame a (self : t) :
  let self' := ensure_account a self in
  (max_daily_loss self', max_position_size self', max_drawdown_limit self',
   max_leverage self', daily_pnl self', trade_history self',
   risk_metrics self', is_risk_mode self', emergency_stop self')
  = (max_daily_loss self, max_position_size self, max_drawdown_limit self,
     max_leverage self, daily_pnl self, trade_history self,
     risk_metrics self, is_risk_mode self, emergency_stop self).
Proof.
  unfold ensure_account. destruct (positions self !! a); reflexivity.
Qed.

(** The whole chain, for a manager that is not stopped. *)
Lemma run_check_pre_trade_risk (self : t) order_data :
  emergency_stop self = false →
  let account := checked_account order_data in
  let position_ok :=
    Builtin.le (Qabs (prospective self account (od_ticker order_data)
                        (od_side order_data) (od_quantity order_data)))
               (max_position_size self) in
  let loss_ok :=
    Builtin.ge (default 0%Q (daily_pnl self !! account))
               (- max_daily_loss self)%Q in
  let drawdown_ok :=
    Builtin.le (RiskMetrics.current_drawdown (risk_metrics self))
               (max_drawdown_limit self) in
  let checked := ensure_account account self in
  check_pre_trade_risk order_data self
  = if negb position_ok then (Py.Ok false, checked)
    else if negb loss_ok then (Py.Ok false, set_is_risk_mode true checked)
    else if Qeq_bool (max_leverage self) 0
         then (Py.Raise Py.ZeroDivisionError, checked)
    else if negb drawdown_ok then (Py.Ok false, set_is_risk_mode true checked)
    else (Py.Ok true, checked).
Proof.
  intros Hrun. cbv zeta. unfold check_pre_trade_risk, checked_account.
  rewrite run_gets. change (id self) with self. cbv beta. rewrite Hrun.
  set (account := Some (default "default" (od_account_id order_data))).
  rewrite run_bind, run_check_position_limits.
  destruct (Builtin.le _ (max_position_size self)); cbn [negb];
    [|reflexivity].
  pose proof (ensure_account_frame account self) as Hf.
  cbv zeta in Hf. injection Hf as Hl Hp Hd Hlev Hpnl Hh Hm Hr He.
  rewrite run_bind, run_check_daily_loss_limit. cbv zeta.
  rewrite Hpnl, Hl.
  destruct (Builtin.ge _ (- max_daily_loss self)%Q); cbn [negb];
    [|reflexivity].
  rewrite run_bind, run_check_margin_requirements, Hlev.
  destruct (Qeq_bool (max_leverage self) 0); [reflexivity|].
  cbn [negb]. rewrite run_bind, run_check_drawdown_limit. cbv zeta.
  rewrite Hm, Hd.
  destruct (Builtin.le _ (max_drawdown_limit self)); reflexivity.
Qed.

(** X1: with the emergency stop clear and a non-zero [max_leverage],
    [check_pre_trade_risk] returns without raising and allows exactly when
    the prospective position is within [max_position_size], the account's
    daily PnL is not below [-max_daily_loss] and the current drawdown is not
    above [max_drawdown_limit].  It enters risk mode exactly when the
    position check passed and the daily-loss or the drawdown check failed,
    and it changes nothing else that can be read back: positions read the
    same, and the PnL book, the trade history, the metrics and the stop
    flag are as before. *)
Theorem check_pre_trade_risk_chain (self : t) order_data :
  emergency_stop self = false →
  ¬ (max_leverage self == 0)%Q →
  let account := checked_account order_data in
  let position_ok :=
    Builtin.le (Qabs (prospective self account (od_ticker order_data)
                        (od_side order_data) (od_quantity order_data)))
               (max_position_size self) in
  let loss_ok :=
    Builtin.ge (default 0%Q (daily_pnl self !! account))
               (- max_daily_loss self)%Q in
  let drawdown_ok :=
    Builtin.le (RiskMetrics.current_drawdown (risk_metrics self))
               (max_drawdown_limit self) in
  ∃ self',
    check_pre_trade_risk order_data self
    = (Py.Ok (position_ok && loss_ok && drawdown_ok), self') ∧
    is_risk_mode self'
    = (is_risk_mode self || position_ok && negb (loss_ok && drawdown_ok)) ∧
    emergency_stop self' = false ∧
    (∀ a tk, position self' a tk = position self a tk) ∧
    daily_pnl self' = daily_pnl self ∧
    trade_history self' = trade_history self ∧
    risk_metrics self' = risk_metrics self.
Proof.
  intros Hrun Hlev. cbv zeta.
  rewrite (run_check_pre_trade_risk self order_data Hrun). cbv zeta.
  assert (Hz : Qeq_bool (max_leverage self) 0 = false).
  { destruct (Qeq_bool (max_leverage self) 0) eqn:E; [|reflexivity].
    apply Qeq_bool_iff in E. contradiction. }
  rewrite Hz.
  pose proof (ensure_account_frame (checked_account order_data) self) as Hf.
  cbv zeta in Hf. injection Hf as Hl Hp Hd Hlv Hpnl Hh Hm Hr He.
  pose proof (position_ensure_account (checked_account order_data) self)
    as Hpos.
  destruct (Builtin.le _ (max_position_size self));
    destruct (Builtin.ge _ (- max_daily_loss self)%Q);
    destruct (Builtin.le _ (max_drawdown_limit self)); cbn [negb andb];
    eexists; (split; [reflexivity|]); cbn;
    rewrite ?Hr, ?He, ?Hpnl, ?Hh, ?Hm, ?orb_true_r, ?orb_false_r;
    repeat split; auto.
Qed.

(** X2: the margin check divides by [max_leverage] although it keeps
    nothing of the quotient.  With [max_leverage] equal to 0, an intent
    that passes the position and daily-loss checks makes
    [check_pre_trade_risk] raise [ZeroDivisionError] instead of returning a
    decision; risk mode is not entered. *)
Theorem check_pre_trade_risk_zero_leverage (self : t) order_data :
  emergency_stop self = false →
  (max_leverage self == 0)%Q →
  (Qabs (prospective self (checked_account order_data) (od_ticker order_data)
           (od_side order_data) (od_quantity order_data))
     <= max_position_size self)%Q →
  (- max_daily_loss self
     <= default 0 (daily_pnl self !! checked_account order_data))%Q →
  ∃ self',
    check_pre_trade_risk order_data self
    = (Py.Raise Py.ZeroDivisionError, self') ∧
    is_risk_mode self' = is_risk_mode self.
Proof.
  intros Hrun Hlev Hpos Hloss.
  rewrite (run_check_pre_trade_risk self order_data Hrun). cbv zeta.
  apply le_true_iff in Hpos. apply ge_true_iff in Hloss.
  apply Qeq_bool_iff in Hlev. rewrite Hpos, Hloss, Hlev. cbn [negb].
  eexists. split; [reflexivity|].
  pose proof (ensure_account_frame (checked_account order_data) self) as Hf.
  cbv zeta in Hf. injection Hf as _ _ _ _ _ _ _ Hr _. exact Hr.
Qed.

End PreTrade.

(** ** The risk manager's books *)
Section RiskBooks.
Import RiskManager.

(** *** What each method leaves alone *)

Lemma update_position_position now a tk side q p (self : t) a' tk' :
  position (snd (update_position now a tk side q p self)) a' tk'
  = if decide (a = a' ∧ tk = tk') then prospective self a tk side q
    else position self a' tk'.
Proof.
  rewrite update_position_unfold. cbv zeta. cbn [snd].
  assert (Hbooked :
    position (append_trade (trade_record now a tk side q p)
                (move_position a tk side q
                   (ensure_ticker a tk (ensure_account a self)))) a' tk'
    = if decide (a = a' ∧ tk = tk') then prospective self a tk side q
      else position self a' tk').
  { change (position (append_trade ?r ?s)) with (position s).
    rewrite position_move_position, !position_ensure_ticker,
      !position_ensure_account. reflexivity. }
  destruct (String.eqb side "sell"); [|exact Hbooked].
  destruct (pnl_steps_frame a (q * p * 0.001)%Q (q * p * 0.001)%Q
              (append_trade (trade_record now a tk side q p)
                 (move_position a tk side q
                    (ensure_ticker a tk (ensure_account a self)))))
    as (_ & Fp & _).
  unfold position in *. rewrite Fp. exact Hbooked.
Qed.

Lemma update_position_frame now a tk side q p (self : t) :
  let self' := snd (update_position now a tk side q p self) in
  (max_daily_loss self', max_position_size self', max_drawdown_limit self',
   max_leverage self', is_risk_mode self', emergency_stop self')
  = (max_daily_loss self, max_position_size self, max_drawdown_limit self,
     max_leverage self, is_risk_mode self, emergency_stop self).
Proof.
  rewrite update_position_unfold. cbv zeta. cbn [snd].
  unfold add_metrics_pnl, add_daily_pnl, ensure_daily_pnl, append_trade,
    move_position, ensure_ticker, ensure_account.
  repeat case_match; reflexivity.
Qed.

Lemma profitable_state trades (self : t) : snd (profitable trades self) = self.
Proof.
  induction trades as [|trade rest IH]; [reflexivity|].
  cbn [profitable]. rewrite run_bind.
  destruct (Py.dict_get trade "pnl" (Py.VNum 0)); try reflexivity.
  cbn [Py.as_num]. change (Py.ret q self) with (Py.Ok q, self). cbv iota beta.
  rewrite run_bind.
  destruct (profitable rest self) as [[kept|e] s'] eqn:E; cbn in IH |- *;
    subst s'; reflexivity.
Qed.

Lemma equity_loop_state trades : ∀ curve (self : t),
  snd (equity_loop trades curve self) = self.
Proof.
  induction trades as [|trade rest IH]; intros curve self; [reflexivity|].
  cbn [equity_loop]. rewrite run_bind.
  destruct (Py.dict_get trade "pnl" (Py.VNum 0)); try reflexivity.
  cbn [Py.as_num]. change (Py.ret q self) with (Py.Ok q, self). cbv iota beta.
  apply IH.
Qed.

(** [update_risk_metrics] writes the risk metrics and nothing else, also
    when it raises on the way. *)
Lemma update_risk_metrics_writes_metrics (self : t) :
  ∃ m, snd (update_risk_metrics self) = set_risk_metrics m self.
Proof.
  assert (Hself : self = set_risk_metrics (risk_metrics self) self)
    by (destruct self; reflexivity).
  unfold update_risk_metrics. rewrite run_gets. change (id self) with self.
  cbv beta.
  destruct (trade_history self) as [|trade rest] eqn:Hhist.
  { exists (risk_metrics self). exact Hself. }
  rewrite <- Hhist. rewrite run_bind.
  pose proof (profitable_state (trade_history self) self) as Hp.
  destruct (profitable (trade_history self) self) as [[kept|e] s1];
    cbn [snd] in Hp; subst s1.
  2: { exists (risk_metrics self). exact Hself. }
  rewrite run_modify. unfold _calculate_equity_curve.
  rewrite run_bind, run_gets.
  set (rated := store_win_rate _ self). change (id rated) with rated. cbv beta.
  pose proof (equity_loop_state (trade_history rated) [10000%Q] rated) as He.
  destruct (equity_loop (trade_history rated) [10000%Q] rated)
    as [[curve|e] s2]; cbn [snd] in He; subst s2.
  2: { eexists. reflexivity. }
  destruct curve as [|first others]; [eexists; reflexivity|].
  rewrite run_bind. unfold Py.div.
  destruct (Qeq_bool (Py.max_list first others) 0);
    [eexists; reflexivity|].
  change (Py.ret ?x rated) with (Py.Ok x, rated). cbv iota beta.
  rewrite !run_modify. eexists. reflexivity.
Qed.

Lemma emergency_stop_all_run (self : t) :
  emergency_stop_all self
  = (Py.Ok tt, flatten_positions (set_emergency_stop true self)).
Proof. reflexivity. Qed.

(** The stop flag and risk mode after one call. *)
Lemma risk_method_flags m (self : t) :
  emergency_stop (risk_method m self)
  = (emergency_stop self
     || match m with CallEmergencyStopAll => true | _ => false end) ∧
  (is_risk_mode self = true → is_risk_mode (risk_method m self) = true).
Proof.
  destruct m as [order_data|now a tk side q p| |]; cbn [risk_method].
  - destruct (emergency_stop self) eqn:Hstop.
    + unfold check_pre_trade_risk. rewrite run_gets.
      change (id self) with self. cbv beta. rewrite Hstop. cbn. auto.
    + rewrite (run_check_pre_trade_risk self order_data Hstop). cbv zeta.
      pose proof (ensure_account_frame (checked_account order_data) self)
        as Hf.
      cbv zeta in Hf. injection Hf as _ _ _ _ _ _ _ Hr He.
      repeat case_match; cbn; rewrite ?He, ?Hr, ?Hstop; auto.
  - pose proof (update_position_frame now a tk side q p self) as Hf.
    cbv zeta in Hf. injection Hf as _ _ _ _ Hr He.
    rewrite He, Hr, orb_false_r. auto.
  - destruct (update_risk_metrics_writes_metrics self) as [m ->].
    cbn. rewrite orb_false_r. auto.
  - rewrite emergency_stop_all_run. cbn. rewrite orb_true_r. auto.
Qed.

(** X3: no method of the risk manager clears a flag.  Over any sequence of
    [check_pre_trade_risk], [update_position], [update_risk_metrics] and
    [emergency_stop_all] calls, whether they return or raise, a set
    emergency stop stays set and a manager in risk mode stays in risk
    mode; and the emergency stop is set at the end only if it was set at
    the start or [emergency_stop_all] was among the calls. *)
Theorem risk_flags_are_sticky (ms : list RiskMethod) (self : t) :
  (emergency_stop self = true →
   emergency_stop (risk_methods ms self) = true) ∧
  (is_risk_mode self = true → is_risk_mode (risk_methods ms self) = true) ∧
  (emergency_stop (risk_methods ms self) = true →
   emergency_stop self = true ∨ CallEmergencyStopAll ∈ ms).
Proof.
  revert self. unfold risk_methods.
  induction ms as [|m ms IH]; intros self; cbn [fold_left].
  - repeat split; auto.
  - destruct (IH (risk_method m self)) as (IHstop & IHmode & IHonly).
    destruct (risk_method_flags m self) as (Hstop & Hmode).
    split; [|split].
    + intros H. apply IHstop. rewrite Hstop, H. reflexivity.
    + intros H. apply IHmode, Hmode, H.
    + intros H. destruct (IHonly H) as [Hmid|Hin].
      * rewrite Hstop in Hmid. apply orb_true_iff in Hmid as [Hmid|Hmid];
          [left; exact Hmid|].
        right. destruct m; try discriminate Hmid. apply elem_of_cons; auto.
      * right. apply elem_of_cons; auto.
Qed.

Lemma risk_flags_are_sticky_witness :
  emergency_stop
    (risk_methods [CallCheckPreTradeRisk (intent "buy" 1);
                   CallUpdatePosition 1 (Some "A") "BTC" "sell" 8 1;
                   CallUpdateRiskMetrics]
                  stopped_manager) = true.
Proof.
  apply (risk_flags_are_sticky
           [CallCheckPreTradeRisk (intent "buy" 1);
            CallUpdatePosition 1 (Some "A") "BTC" "sell" 8 1;
            CallUpdateRiskMetrics] stopped_manager).
  reflexivity.
Defined.

(** X4: [emergency_stop_all] returns normally with the stop flag set; every
    position then reads 0, the accounts and tickers that were booked are
    still booked, and the PnL book, the trade history, the metrics and the
    limits are untouched.  Nothing is cancelled or traded: the result is a
    bookkeeping reset. *)
Theorem emergency_stop_all_flattens (self : t) :
  ∃ self',
    emergency_stop_all self = (Py.Ok tt, self') ∧
    emergency_stop self' = true ∧
    (∀ a tk, position self' a tk = 0%Q) ∧
    (∀ a tk, is_Some (positions self' !! a ≫= (.!! tk))
             ↔ is_Some (positions self !! a ≫= (.!! tk))) ∧
    (∀ a tk, is_Some (positions self !! a ≫= (.!! tk)) →
             positions self' !! a ≫= (.!! tk) = Some 0%Q) ∧
    daily_pnl self' = daily_pnl self ∧
    trade_history self' = trade_history self ∧
    risk_metrics self' = risk_metrics self ∧
    is_risk_mode self' = is_risk_mode self ∧
    max_position_size self' = max_position_size self.
Proof.
  rewrite emergency_stop_all_run. eexists. split; [reflexivity|].
  split; [reflexivity|].
  assert (Hlookup : ∀ a tk,
    positions (flatten_positions (set_emergency_stop true self)) !! a
      ≫= (.!! tk)
    = (λ _, 0%Q) <$> (positions self !! a ≫= (.!! tk))).
  { intros a tk. unfold flatten_positions. cbn. rewrite lookup_fmap.
    destruct (positions self !! a) as [of_account|]; cbn; [|reflexivity].
    rewrite lookup_fmap. reflexivity. }
  split; [|split; [|split]].
  - intros a tk. pose proof (Hlookup a tk) as H. unfold position.
    destruct (positions (flatten_positions _) !! a) as [m'|] eqn:E;
      cbn in H |- *; [|reflexivity].
    rewrite H. destruct (positions self !! a ≫= lookup tk); reflexivity.
  - intros a tk. rewrite Hlookup. rewrite fmap_is_Some. reflexivity.
  - intros a tk [v Hv]. rewrite Hlookup, Hv. reflexivity.
  - repeat split; reflexivity.
Qed.

End RiskBooks.

(** ** Fills behind the risk manager's own gate *)
Section GatedFills.
Import RiskManager.






Lemma update_position_books now a tk side q p (self : t) :
  let self' := snd (update_position now a tk side q p self) in
  let pnl := (q * p * 0.001)%Q in
  trade_history self'
  = (trade_history self ++ [trade_record now a tk side q p])%list ∧
  (∀ a', daily_pnl self' !! a'
         = if String.eqb side "sell" && bool_decide (a = a')
           then Some (default 0 (daily_pnl self !! a) + pnl)%Q
           else daily_pnl self !! a') ∧
  risk_metrics self'
  = if String.eqb side "sell"
    then RiskMetrics.add_pnl pnl (risk_metrics self)
    else risk_metrics self.
Proof.
  cbv zeta. rewrite update_position_unfold. cbv zeta. cbn [snd].
  assert (Hmoved :
    let moved := move_position a tk side q
                   (ensure_ticker a tk (ensure_account a self)) in
    daily_pnl moved = daily_pnl self ∧
    risk_metrics moved = risk_metrics self ∧
    trade_history moved = trade_history self).
  { unfold move_position, ensure_ticker, ensure_account.
    repeat case_match; auto. }
  cbv zeta in Hmoved. destruct Hmoved as (Hd & Hm & Hh).
  remember (move_position a tk side q
              (ensure_ticker a tk (ensure_account a self))) as moved.
  clear Heqmoved.
  remember (append_trade (trade_record now a tk side q p) moved) as booked.
  assert (Hb : trade_history booked
               = (trade_history self ++ [trade_record now a tk side q p])%list ∧
               daily_pnl booked = daily_pnl self ∧
               risk_metrics booked = risk_metrics self).
  { subst booked. unfold append_trade. cbn. rewrite Hh, Hd, Hm. auto. }
  clear Heqbooked. destruct Hb as (Bh & Bd & Bm).
  destruct (String.eqb side "sell"); cbn [andb].
  - destruct (pnl_steps_frame a (q * p * 0.001)%Q (q * p * 0.001)%Q booked)
      as (Fh & _ & Fm).
    rewrite Fh, Fm, Bm. split; [exact Bh|]. split; [|reflexivity].
    intros a'.
    change (daily_pnl (add_metrics_pnl ?x ?s)) with (daily_pnl s).
    rewrite daily_pnl_booked, Bd.
    destruct (decide (a = a')) as [Heq|Hne].
    + rewrite bool_decide_eq_true_2 by exact Heq. reflexivity.
    + rewrite bool_decide_eq_false_2 by exact Hne. reflexivity.
  - split; [exact Bh|]. split; [|exact Bm]. intros a'. rewrite Bd. reflexivity.
Qed.


End GatedFills.

(** ** What recorded fills can and cannot do to the risk state *)
Section RecordedFills.
Import RiskManager.

(** Running a list of calls under an invariant that each call keeps. *)
Lemma risk_calls_invariant (allowed : RiskCall → Prop) (I : t → Prop) :
  (∀ c self, allowed c → I self →
     ∃ self', risk_call c self = (Py.Ok tt, self') ∧ I self') →
  ∀ cs self, Forall allowed cs → I self →
    ∃ self', risk_calls cs self = (Py.Ok tt, self') ∧ I self'.
Proof.
  intros Hstep cs. unfold risk_calls.
  induction cs as [|c cs IH]; intros self Hall HI.
  - exists self. auto.
  - apply Forall_cons in Hall as [Hc Hall].
    destruct (Hstep c self Hc HI) as (mid & Hrun & Hmid).
    destruct (IH mid Hall Hmid) as (self' & Hrest & HI').
    exists self'. cbn [Py.for_each]. unfold Py.bind. rewrite Hrun. auto.
Qed.

Lemma risk_call_flat c (self : t) :
  flat_metrics self →
  ∃ self', risk_call c self = (Py.Ok tt, self') ∧ flat_metrics self'.
Proof.
  intros Hflat. destruct c as [now a tk side q p|]; cbn [risk_call].
  - destruct (flat_metrics_update_position now a tk side q p self Hflat)
      as (self' & ? & ? & _); eauto.
  - destruct (flat_metrics_update_risk_metrics self Hflat)
      as (self' & ? & ? & _); eauto.
Qed.

(** X7: the PnL model only ever adds [quantity * price * 0.001] on a sell.
    From a fresh risk manager, after any sequence of metrics refreshes and
    fills of non-negative notional, no call has raised, no account's daily
    PnL is negative, and so, for a [max_daily_loss] that is not negative,
    [_check_daily_loss_limit] allows every account and leaves risk mode
    alone: recorded fills can never trip the daily-loss check. *)
Theorem recorded_fills_never_trip_daily_loss config (cs : list RiskCall) :
  Forall nonneg_fill cs →
  (0 <= max_daily_loss (init config))%Q →
  ∃ self,
    risk_calls cs (init config) = (Py.Ok tt, self) ∧
    (∀ a, (0 <= default 0 (daily_pnl self !! a))%Q) ∧
    (∀ a, _check_daily_loss_limit a self = (Py.Ok true, self)).
Proof.
  intros Hfills Hlimit.
  set (I := λ self : t,
         flat_metrics self ∧
         (∀ a, (0 <= default 0 (daily_pnl self !! a))%Q) ∧
         max_daily_loss self = max_daily_loss (init config)).
  destruct (risk_calls_invariant nonneg_fill I) with (cs := cs)
    (self := init config) as (self & Hrun & Hflat & Hpnl & Hmax).
  - intros c self Hc (Hflat & Hpnl & Hmax).
    destruct (risk_call_flat c self Hflat) as (self' & Hrun & Hflat').
    exists self'. split; [exact Hrun|]. split; [exact Hflat'|].
    assert (Hself' : self' = snd (risk_call c self)) by (rewrite Hrun; reflexivity).
    destruct c as [now a tk side q p|]; cbn [risk_call nonneg_fill] in *.
    + destruct (update_position_books now a tk side q p self)
        as (_ & Hbook & _).
      pose proof (update_position_frame now a tk side q p self) as Hf.
      cbv zeta in Hf. injection Hf as Hl _ _ _ _ _.
      rewrite <- Hself' in Hbook, Hl. split; [|congruence].
      intros a'. rewrite Hbook.
      destruct (String.eqb side "sell" && bool_decide (a = a'));
        [|apply Hpnl].
      specialize (Hpnl a).
      set (booked := default 0%Q (daily_pnl self !! a)) in *.
      cbn [default from_option]. unfold id.
      assert (0 <= q * p * 0.001)%Q
        by (apply Qmult_le_0_compat; [exact Hc|discriminate]).
      lra.
    + destruct (update_risk_metrics_writes_metrics self) as [m Hm].
      rewrite <- Hself' in Hm. rewrite Hm. cbn. auto.
  - exact Hfills.
  - split; [apply flat_metrics_init|]. split; [|reflexivity].
    intros a. cbn. rewrite lookup_empty. cbn. apply Qle_refl.
  - exists self. split; [exact Hrun|]. split; [exact Hpnl|].
    intros a. rewrite run_check_daily_loss_limit. cbv zeta.
    assert (Hge : Builtin.ge (default 0%Q (daily_pnl self !! a))
                             (- max_daily_loss self)%Q = true).
    { apply ge_true_iff. rewrite Hmax. specialize (Hpnl a). lra. }
    rewrite Hge. reflexivity.
Qed.

Lemma recorded_fills_never_trip_daily_loss_witness :
  ∃ self,
    risk_calls sell_then_refresh (init default_risk_config) = (Py.Ok tt, self) ∧
    _check_daily_loss_limit (Some "A") self = (Py.Ok true, self).
Proof.
  destruct (recorded_fills_never_trip_daily_loss default_risk_config
              sell_then_refresh) as (self & Hrun & _ & Hcheck).
  - repeat constructor. vm_compute. discriminate.
  - vm_compute. discriminate.
  - exists self. auto.
Defined.

(** *** Metrics of an arbitrary history *)

Lemma profitable_numeric trades (self : t) :
  Forall numeric_pnl trades →
  ∃ kept, profitable trades self = (Py.Ok kept, self) ∧
          (length kept <= length trades)%nat.
Proof.
  induction 1 as [|trade rest [q Hq] _ (kept & IH & Hlen)].
  - exists []. auto.
  - cbn [profitable]. rewrite Hq, run_as_num, (run_ok _ _ _ _ _ IH).
    eexists. split; [reflexivity|].
    destruct (Py.gt q 0); cbn [length]; lia.
Qed.

Lemma equity_loop_numeric trades : ∀ curve (self : t),
  Forall numeric_pnl trades →
  ∃ grown, equity_loop trades curve self = (Py.Ok (curve ++ grown)%list, self).
Proof.
  induction trades as [|trade rest IH]; intros curve self Hall.
  - exists []. rewrite app_nil_r. reflexivity.
  - apply Forall_cons in Hall as [[q Hq] Hall].
    cbn [equity_loop]. rewrite Hq, run_as_num.
    destruct (IH (curve ++ [(List.last curve 0 + q)%Q])%list self Hall)
      as (grown & ->).
    eexists. rewrite <- app_assoc. reflexivity.
Qed.

Lemma max_list_upper others : ∀ first,
  (first <= Py.max_list first others)%Q ∧
  Forall (λ x, x <= Py.max_list first others)%Q others.
Proof.
  unfold Py.max_list.
  induction others as [|x others IH]; intros first; cbn [fold_left].
  - split; [apply Qle_refl|constructor].
  - destruct (IH (if Py.gt x first then x else first)) as (Hacc & Hrest).
    destruct (Py.gt x first) eqn:Hgt.
    + apply gt_true_iff in Hgt. split; [lra|].
      constructor; assumption.
    + apply gt_false_iff in Hgt. split; [exact Hacc|].
      constructor; [lra|assumption].
Qed.

Lemma last_in_curve (first : Q) others d :
  List.last (first :: others) d = first ∨
  List.last (first :: others) d ∈ others.
Proof.
  revert first. induction others as [|x others IH]; intros first.
  - left. reflexivity.
  - right. change (List.last (first :: x :: others) d)
             with (List.last (x :: others) d).
    destruct (IH x) as [->|Hin]; apply elem_of_cons; auto.
Qed.

(** X8: on a non-empty history whose ['pnl'] entries, where present, are
    numbers, [update_risk_metrics] returns without raising: the peak of
    the equity curve is at least the starting equity of 10000, so the
    drawdown division never sees a zero.  Afterwards the win rate lies
    between 0 and 1, the current drawdown is not negative, the maximum
    drawdown is at least its old value and at least the current drawdown,
    and nothing but the risk metrics has changed. *)
Theorem update_risk_metrics_bounds (self : t) :
  trade_history self ≠ [] →
  Forall numeric_pnl (trade_history self) →
  ∃ self',
    update_risk_metrics self = (Py.Ok tt, self') ∧
    (0 <= RiskMetrics.win_rate (risk_metrics self') <= 1)%Q ∧
    (0 <= RiskMetrics.current_drawdown (risk_metrics self'))%Q ∧
    (RiskMetrics.max_drawdown (risk_metrics self)
       <= RiskMetrics.max_drawdown (risk_metrics self'))%Q ∧
    (RiskMetrics.current_drawdown (risk_metrics self')
       <= RiskMetrics.max_drawdown (risk_metrics self'))%Q ∧
    self' = set_risk_metrics (risk_metrics self') self.
Proof.
  intros Hne Hall. unfold update_risk_metrics.
  rewrite run_gets. change (id self) with self. cbv beta.
  destruct (trade_history self) as [|trade rest] eqn:Hhist; [congruence|].
  rewrite <- Hhist in *. clear Hhist trade rest.
  destruct (profitable_numeric _ self Hall) as (kept & Hkept & Hlen).
  rewrite (run_ok _ _ _ _ _ Hkept), run_modify.
  unfold _calculate_equity_curve. rewrite run_bind, run_gets.
  set (rated := store_win_rate _ self). change (id rated) with rated. cbv beta.
  destruct (equity_loop_numeric (trade_history rated) [10000%Q] rated Hall)
    as (grown & ->).
  cbn [app].
  destruct (max_list_upper grown 10000%Q) as (Hfirst & Hothers).
  set (peak := Py.max_list 10000 grown) in *.
  assert (Hlast : (List.last (10000%Q :: grown) 0 <= peak)%Q).
  { destruct (last_in_curve 10000%Q grown 0%Q) as [->|Hin]; [exact Hfirst|].
    rewrite Forall_forall in Hothers. apply Hothers, Hin. }
  set (latest := List.last (10000%Q :: grown) 0%Q) in *. clearbody latest.
  assert (Hpos : (0 < peak)%Q) by lra.
  assert (Hnz : Qeq_bool peak 0 = false).
  { destruct (Qeq_bool peak 0) eqn:E; [|reflexivity].
    apply Qeq_bool_iff in E. lra. }
  rewrite (run_div _ _ _ _ Hnz), !run_modify.
  eexists. split; [reflexivity|]. cbn.
  assert (Hhistory : (0 < Py.len (trade_history self))%Q).
  { unfold Py.len. change 0%Q with (inject_Z 0). rewrite <- Zlt_Qlt.
    destruct (trade_history self); [congruence|]. cbn [length]. lia. }
  assert (Hk : (0 <= Py.len kept <= Py.len (trade_history self))%Q).
  { unfold Py.len. split.
    - change 0%Q with (inject_Z 0). rewrite <- Zle_Qle. lia.
    - rewrite <- Zle_Qle. lia. }
  unfold Py.len in *.
  set (n := inject_Z (Z.of_nat (length (trade_history self)))) in *.
  set (k := inject_Z (Z.of_nat (length kept))) in *.
  destruct Hk as [Hk0 Hkn]. clearbody peak.
  split; [|split; [|split; [|split]]].
  - split.
    + apply Qle_shift_div_l; [exact Hhistory|].
      rewrite Qmult_0_l. exact Hk0.
    + apply Qle_shift_div_r; [exact Hhistory|].
      rewrite Qmult_1_l. exact Hkn.
  - apply Qle_shift_div_l; [exact Hpos|].
    rewrite Qmult_0_l. clear - Hlast. lra.
  - unfold Py.max2. destruct (Py.gt _ _) eqn:Hgt; [|apply Qle_refl].
    apply gt_true_iff in Hgt. lra.
  - unfold Py.max2. destruct (Py.gt _ _) eqn:Hgt; [apply Qle_refl|].
    apply gt_false_iff in Hgt. exact Hgt.
  - destruct self; reflexivity.
Qed.

Lemma update_risk_metrics_bounds_witness :
  ∃ self',
    update_risk_metrics
      (snd (update_position 1 (Some "A") "BTC" "sell" 8 1
              (init default_risk_config)))
    = (Py.Ok tt, self') ∧
    (0 <= RiskMetrics.current_drawdown (risk_metrics self'))%Q.
Proof.
  destruct (update_risk_metrics_bounds
              (snd (update_position 1 (Some "A") "BTC" "sell" 8 1
                      (init default_risk_config))))
    as (self' & Hrun & _ & Hdrawdown & _).
  - vm_compute. discriminate.
  - repeat constructor. exists 0%Q. reflexivity.
  - exists self'. auto.
Defined.

End RecordedFills.

(** ** Position sizing *)
Section Sizing.
Import RiskManager PositionSizing.

Lemma min2_spec a b :
  (Builtin.min2 a b = a ∨ Builtin.min2 a b = b) ∧
  (Builtin.min2 a b <= a)%Q ∧ (Builtin.min2 a b <= b)%Q.
Proof.
  unfold Builtin.min2. destruct (Py.lt b a) eqn:Hlt.
  - apply lt_true_iff in Hlt. repeat split; auto; lra.
  - assert (a <= b)%Q.
    { apply Qnot_lt_le. intros H. apply lt_true_iff in H. congruence. }
    repeat split; auto; lra.
Qed.

(** X9: the Kelly policy needs a positive win rate and a positive profit
    factor.  No method of the risk manager ever writes the profit factor,
    and recorded fills leave the win rate at 0; so after any sequence of
    fills and metrics refreshes on a fresh risk manager, sizing by "kelly"
    returns the configured default size (100 when none is configured),
    whatever the balance and the prices, and never divides by the entry
    price. *)
Theorem kelly_sizing_falls_back settings config (cs : list RiskCall)
    account_balance entry_price stop_loss_price :
  position_size_method settings = "kelly" →
  calculate_position_size settings (snd (risk_calls cs (init config)))
    account_balance entry_price stop_loss_price
  = Py.Ok (default 100%Q (default_position_size settings)).
Proof.
  intros Hmethod.
  destruct (risk_calls_invariant (λ _, True) flat_metrics) with (cs := cs)
    (self := init config) as (self & Hrun & _ & Hwin & _).
  - intros c self _ Hflat. apply risk_call_flat, Hflat.
  - apply Forall_forall. auto.
  - apply flat_metrics_init.
  - rewrite Hrun. cbn [snd]. unfold calculate_position_size.
    rewrite Hmethod.
    change (String.eqb "kelly" "fixed") with false.
    change (String.eqb "kelly" "risk_based") with false.
    change (String.eqb "kelly" "kelly") with true. cbv iota.
    assert (Hgt : Py.gt (RiskMetrics.win_rate (risk_metrics self)) 0 = false).
    { apply gt_false_iff. rewrite Hwin. apply Qle_refl. }
    rewrite Hgt, andb_false_r. reflexivity.
Qed.

Lemma kelly_sizing_falls_back_witness :
  calculate_position_size (sizing "kelly")
    (snd (risk_calls sell_then_refresh (init default_risk_config)))
    1000 50 45
  = Py.Ok 100%Q.
Proof.
  apply (kelly_sizing_falls_back (sizing "kelly") default_risk_config
           sell_then_refresh 1000 50 45).
  reflexivity.
Defined.

(** X10: sizing by "risk_based" never raises.  With distinct entry and
    stop prices it returns the smaller of [account_balance * risk_per_trade
    / |entry_price - stop_loss_price|] and the risk manager's
    [max_position_size]; with equal ones the price risk is 0 and it
    returns the configured default size instead of dividing. *)
Theorem risk_based_sizing_is_capped settings (self : t)
    account_balance entry_price stop_loss_price :
  position_size_method settings = "risk_based" →
  let by_risk :=
    (account_balance * risk_per_trade settings
       / Qabs (entry_price - stop_loss_price))%Q in
  ∃ size,
    calculate_position_size settings self account_balance entry_price
      stop_loss_price = Py.Ok size ∧
    ((entry_price == stop_loss_price)%Q →
       size = default 100%Q (default_position_size settings)) ∧
    (¬ (entry_price == stop_loss_price)%Q →
       (size = by_risk ∨ size = max_position_size self) ∧
       (size <= by_risk)%Q ∧ (size <= max_position_size self)%Q).
Proof.
  intros Hmethod by_risk. unfold calculate_position_size.
  rewrite Hmethod.
  change (String.eqb "risk_based" "fixed") with false.
  change (String.eqb "risk_based" "risk_based") with true. cbv iota zeta.
  pose proof (Qabs_nonneg (entry_price - stop_loss_price)) as Hnonneg.
  destruct (Py.gt (Qabs (entry_price - stop_loss_price)) 0) eqn:Hgt.
  - apply gt_true_iff in Hgt. eexists. split; [reflexivity|]. split.
    + intros Heq. exfalso.
      assert (H0 : (entry_price - stop_loss_price == 0)%Q) by lra.
      rewrite H0 in Hgt. discriminate Hgt.
    + intros _. apply min2_spec.
  - apply gt_false_iff in Hgt. eexists. split; [reflexivity|]. split.
    + reflexivity.
    + intros Hne. exfalso. apply Hne.
      apply Qabs_Qle_condition in Hgt as [Hlo Hhi]. lra.
Qed.

Lemma risk_based_sizing_is_capped_witness :
  ∃ size,
    calculate_position_size (sizing "risk_based") (init default_risk_config)
      1000 50 45 = Py.Ok size ∧
    (size <= 10000)%Q.
Proof.
  destruct (risk_based_sizing_is_capped (sizing "risk_based")
              (init default_risk_config) 1000 50 45 eq_refl)
    as (size & Hrun & _ & Hcap).
  exists size. split; [exact Hrun|].
  apply Hcap. vm_compute. discriminate.
Defined.

End Sizing.

(** ** The ledger's limits and allocations *)
Section Ledger.
Import AccountManager.

Lemma ratio_le (a b c : Q) : (0 < c)%Q → (a / c <= b)%Q ↔ (a <= b * c)%Q.
Proof.
  intros Hc. split.
  - intros H. apply (Qmult_le_compat_r _ _ c) in H; [|lra].
    unfold Qdiv in H. rewrite <- Qmult_assoc, (Qmult_comm (/ c)) in H.
    rewrite Qmult_inv_r, Qmult_1_r in H by lra. exact H.
  - intros H. apply Qle_shift_div_r; assumption.
Qed.

(** X11: [check_risk_limits] allows exactly when the account exists, the
    prospective position [|position + delta|] is within its
    [max_position_size], and either the account value (the sum of its
    balances) is positive and the prospective position is at most
    [risk_limit * account_value], or the account value is not positive and
    [risk_limit] is at least 1.  An unknown account is denied; nothing is
    raised, not even on an account without balance. *)
Theorem check_risk_limits_allows_iff (self : t) id new_position_size ticker :
  check_risk_limits self id new_position_size ticker = true ↔
  ∃ account,
    get_account self id = Some account ∧
    (total_position account new_position_size ticker
       <= max_position_size account)%Q ∧
    ((0 < account_value account)%Q ∧
     (total_position account new_position_size ticker
        <= risk_limit account * account_value account)%Q
     ∨ (account_value account <= 0)%Q ∧ (1 <= risk_limit account)%Q).
Proof.
  unfold check_risk_limits.
  destruct (get_account self id) as [account|]; cycle 1.
  { split; [discriminate|]. intros (account & [=] & _). }
  set (tp := total_position account new_position_size ticker).
  assert (Hratio :
    Py.gt (risk_ratio account tp) (risk_limit account) = false ↔
    ((0 < account_value account)%Q ∧
     (tp <= risk_limit account * account_value account)%Q
     ∨ (account_value account <= 0)%Q ∧ (1 <= risk_limit account)%Q)).
  { rewrite gt_false_iff. unfold risk_ratio.
    destruct (Py.gt (account_value account) 0) eqn:Hv.
    - apply gt_true_iff in Hv. rewrite (ratio_le _ _ _ Hv).
      split; [auto|]. intros [[_ H]|[H _]]; [exact H|lra].
    - apply gt_false_iff in Hv.
      split; [auto|]. intros [[H _]|[_ H]]; [lra|exact H]. }
  destruct (Py.gt tp (max_position_size account)) eqn:Hpos.
  - apply gt_true_iff in Hpos. split; [discriminate|].
    intros (account' & [= <-] & Hle & _). subst tp. lra.
  - apply gt_false_iff in Hpos.
    destruct (Py.gt (risk_ratio account tp) (risk_limit account)) eqn:Hr.
    + split; [discriminate|].
      intros (account' & [= <-] & _ & H). apply Hratio in H. discriminate H.
    + split; [|reflexivity]. intros _. exists account.
      split; [reflexivity|]. split; [exact Hpos|]. apply Hratio. reflexivity.
Qed.

(** *** Weighted allocation *)

Lemma sum_cons x (l : list Q) : (Py.sum (x :: l) == x + Py.sum l)%Q.
Proof.
  unfold Py.sum at 1. cbn [fold_left]. rewrite sum_from. ring.
Qed.

Lemma sum_perm (l l' : list Q) : l ≡ₚ l' → (Py.sum l == Py.sum l')%Q.
Proof.
  induction 1 as [|x l l' _ IH|x y l|l l' l'' _ IH1 _ IH2].
  - reflexivity.
  - rewrite !sum_cons, IH. reflexivity.
  - rewrite !sum_cons. ring.
  - rewrite IH1. exact IH2.
Qed.

(** The loop [for account in active: allocation[account_id] = share]. *)
Lemma shares_sum (share : Account → Q) (l : list Account) :
  ∀ m0 : gmap string Q,
    NoDup (account_id <$> l) →
    (∀ id, id ∈ account_id <$> l → m0 !! id = None) →
    let m := fold_left (λ allocation account,
                          <[account_id account := share account]> allocation)
                       l m0 in
    (Py.sum (values m) == Py.sum (values m0) + Py.sum (share <$> l))%Q ∧
    (∀ account, account ∈ l → m !! account_id account = Some (share account)) ∧
    (∀ id, id ∉ account_id <$> l → m !! id = m0 !! id).
Proof.
  induction l as [|account l IH]; intros m0 Hnd Hfresh;
    cbn [fold_left fmap list_fmap].
  - cbv zeta. split; [|split].
    + change (Py.sum []) with 0%Q. ring.
    + intros account Hin. apply elem_of_nil in Hin. contradiction.
    + reflexivity.
  - cbn [fmap list_fmap] in Hnd, Hfresh.
    apply NoDup_cons in Hnd as [Hnin Hnd].
    assert (Hnone : m0 !! account_id account = None)
      by (apply Hfresh, elem_of_cons; auto).
    destruct (IH (<[account_id account := share account]> m0) Hnd)
      as (Hsum & Hin & Hout).
    { intros id Hid. rewrite lookup_insert_ne.
      - apply Hfresh, elem_of_cons. auto.
      - intros <-. contradiction. }
    cbv zeta in *. split; [|split].
    + rewrite Hsum, sum_cons.
      assert (Hvals : (Py.sum (values (<[account_id account := share account]> m0))
                       == share account + Py.sum (values m0))%Q).
      { unfold values.
        rewrite (sum_perm _ (share account :: (map_to_list m0).*2)).
        - apply sum_cons.
        - rewrite (map_to_list_insert _ _ _ Hnone). reflexivity. }
      rewrite Hvals. ring.
    + intros account' [->|Hin']%elem_of_cons.
      * rewrite Hout by exact Hnin. apply lookup_insert_eq.
      * apply Hin, Hin'.
    + intros id Hid. rewrite Hout.
      * apply lookup_insert_ne. intros <-. apply Hid, elem_of_cons. auto.
      * intros H. apply Hid, elem_of_cons. auto.
Qed.

Lemma weighted_sum (weight : Account → Q) total capacity (l : list Account) :
  (Py.sum ((λ account, total * (weight account / capacity))%Q <$> l)
   == total * (Py.sum (weight <$> l) / capacity))%Q.
Proof.
  induction l as [|account l IH]; cbn [fmap list_fmap].
  - change (Py.sum []) with 0%Q. unfold Qdiv. ring.
  - rewrite !sum_cons. cbn [fmap list_fmap] in IH. rewrite IH.
    unfold Qdiv. ring.
Qed.

(** X12: with the "risk_weighted" strategy and a ledger keyed by account
    id, every active account is assigned [total_amount * risk_limit /
    capacity], [capacity] being the sum of the active accounts' risk
    limits, and the assigned amounts sum to [total_amount].  When the
    risk limits of the active accounts sum to 0 the call raises
    [ZeroDivisionError]. *)
Theorem allocate_funds_risk_weighted (self : t) total_amount :
  keyed_by_id self →
  get_active_accounts self ≠ [] →
  let active_accounts := get_active_accounts self in
  let capacity := Py.sum (risk_limit <$> active_accounts) in
  ((capacity == 0)%Q →
     allocate_funds self total_amount "risk_weighted"
     = Py.Raise Py.ZeroDivisionError) ∧
  (¬ (capacity == 0)%Q →
     ∃ allocation,
       allocate_funds self total_amount "risk_weighted" = Py.Ok allocation ∧
       (∀ account, account ∈ active_accounts →
          allocation !! account_id account
          = Some (total_amount * (risk_limit account / capacity))%Q) ∧
       (∀ id, id ∉ account_id <$> active_accounts → allocation !! id = None) ∧
       (Py.sum (values allocation) == total_amount)%Q).
Proof.
  intros Hkeyed Hsome. cbv zeta. unfold allocate_funds.
  pose proof (active_ids_NoDup self Hkeyed) as Hnd.
  remember (get_active_accounts self) as active_accounts eqn:Hactive.
  clear Hactive.
  destruct active_accounts as [|first others]; [congruence|].
  change (String.eqb "risk_weighted" "equal") with false.
  change (String.eqb "risk_weighted" "risk_weighted") with true.
  cbv iota zeta.
  set (active_accounts := first :: others) in *.
  change (map risk_limit active_accounts) with (risk_limit <$> active_accounts).
  set (capacity := Py.sum (risk_limit <$> active_accounts)).
  split.
  - intros Hzero. apply Qeq_bool_iff in Hzero. rewrite Hzero. reflexivity.
  - intros Hnz.
    assert (Hz : Qeq_bool capacity 0 = false).
    { destruct (Qeq_bool capacity 0) eqn:E; [|reflexivity].
      apply Qeq_bool_iff in E. contradiction. }
    rewrite Hz.
    destruct (shares_sum
                (λ account, (total_amount * (risk_limit account / capacity))%Q)
                active_accounts ∅) as (Hsum & Hin & Hout).
    { exact Hnd. }
    { intros id _. apply lookup_empty. }
    cbv zeta in *. eexists. split; [reflexivity|].
    split; [exact Hin|]. split.
    + intros id Hid. rewrite Hout by exact Hid. apply lookup_empty.
    + rewrite Hsum, weighted_sum. fold capacity.
      unfold values. rewrite map_to_list_empty.
      change (Py.sum ([] : list (string * Q)).*2) with 0%Q.
      field. exact Hnz.
Qed.

Lemma allocate_funds_risk_weighted_witness :
  ∃ allocation,
    allocate_funds (init [funded_account; second_account]) 100 "risk_weighted"
    = Py.Ok allocation ∧
    (Py.sum (values allocation) == 100)%Q.
Proof.
  destruct (allocate_funds_risk_weighted
              (init [funded_account; second_account]) 100
              (keyed_by_id_init [funded_account; second_account]))
    as [_ Hsome].
  { vm_compute. discriminate. }
  destruct Hsome as (allocation & Hrun & _ & _ & Hsum).
  { vm_compute. discriminate. }
  exists allocation. auto.
Defined.

(** X13: with the "balance_weighted" strategy and a ledger keyed by
    account id, when the active accounts' balances sum to a positive
    total, every active account is assigned [total_amount] in proportion
    to its own balance and the assigned amounts sum to [total_amount];
    when they do not, the result is the empty mapping, with no division
    attempted.  A strategy name the method does not know also yields the
    empty mapping, not an error. *)
Theorem allocate_funds_balance_weighted (self : t) total_amount :
  keyed_by_id self →
  get_active_accounts self ≠ [] →
  let active_accounts := get_active_accounts self in
  let total_balance := Py.sum (account_value <$> active_accounts) in
  ((total_balance <= 0)%Q →
     allocate_funds self total_amount "balance_weighted" = Py.Ok ∅) ∧
  ((0 < total_balance)%Q →
     ∃ allocation,
       allocate_funds self total_amount "balance_weighted" = Py.Ok allocation ∧
       (∀ account, account ∈ active_accounts →
          allocation !! account_id account
          = Some (total_amount * (account_value account / total_balance))%Q) ∧
       (∀ id, id ∉ account_id <$> active_accounts → allocation !! id = None) ∧
       (Py.sum (values allocation) == total_amount)%Q) ∧
  (∀ strategy,
     strategy ≠ "equal" → strategy ≠ "risk_weighted" →
     strategy ≠ "balance_weighted" →
     allocate_funds self total_amount strategy = Py.Ok ∅).
Proof.
  intros Hkeyed Hsome. cbv zeta. unfold allocate_funds.
  pose proof (active_ids_NoDup self Hkeyed) as Hnd.
  remember (get_active_accounts self) as active_accounts eqn:Hactive.
  clear Hactive.
  destruct active_accounts as [|first others]; [congruence|].
  change (String.eqb "balance_weighted" "equal") with false.
  change (String.eqb "balance_weighted" "risk_weighted") with false.
  change (String.eqb "balance_weighted" "balance_weighted") with true.
  cbv iota zeta.
  set (active_accounts := first :: others) in *.
  change (map account_value active_accounts)
    with (account_value <$> active_accounts).
  set (total_balance := Py.sum (account_value <$> active_accounts)).
  split; [|split].
  - intros Hle. apply gt_false_iff in Hle. rewrite Hle. reflexivity.
  - intros Hpos. pose proof Hpos as Hgt. apply gt_true_iff in Hgt.
    destruct (shares_sum
                (λ account,
                   (total_amount * (account_value account / total_balance))%Q)
                active_accounts ∅) as (Hsum & Hin & Hout).
    { exact Hnd. }
    { intros id _. apply lookup_empty. }
    cbv zeta in *. rewrite Hgt.
    eexists. split; [reflexivity|].
    split; [exact Hin|]. split.
    + intros id Hid. rewrite Hout by exact Hid. apply lookup_empty.
    + rewrite Hsum, weighted_sum. fold total_balance.
      unfold values. rewrite map_to_list_empty.
      change (Py.sum ([] : list (string * Q)).*2) with 0%Q.
      field. lra.
  - intros strategy H1 H2 H3.
    apply String.eqb_neq in H1, H2, H3. rewrite H1, H2, H3. reflexivity.
Qed.

Lemma allocate_funds_balance_weighted_witness :
  ∃ allocation,
    allocate_funds (init [funded_account; second_account]) 100
      "balance_weighted" = Py.Ok allocation ∧
    (Py.sum (values allocation) == 100)%Q.
Proof.
  destruct (allocate_funds_balance_weighted
              (init [funded_account; second_account]) 100
              (keyed_by_id_init [funded_account; second_account]))
    as (_ & Hsome & _).
  { vm_compute. discriminate. }
  destruct Hsome as (allocation & Hrun & _ & _ & Hsum).
  { vm_compute. reflexivity. }
  exists allocation. auto.
Defined.

End Ledger.

(** ** Updating and building the ledger *)
Section LedgerUpdates.
Import AccountManager.

(** X14: [update_account_positions] merges, it does not replace.  For an
    unknown account nothing changes and no account is created.  For a
    known one, every ticker of the update reads its new value, every other
    ticker keeps its old one, the account's balances, limits and identity
    are untouched, the other accounts are untouched, and the ledger is
    still keyed by account id. *)
Theorem update_account_positions_merges (self : t) id positions_data :
  let self' := update_account_positions id positions_data self in
  (get_account self id = None → self' = self) ∧
  (∀ account, get_account self id = Some account →
     ∃ account',
       get_account self' id = Some account' ∧
       (∀ ticker,
          positions account' !! ticker
          = match positions_data !! ticker with
            | Some v => Some v
            | None => positions account !! ticker
            end) ∧
       (account_id account', balance account', available_balance account',
        risk_limit account', max_position_size account', is_active account')
       = (account_id account, balance account, available_balance account,
          risk_limit account, max_position_size account, is_active account)) ∧
  (∀ other, other ≠ id → get_account self' other = get_account self other) ∧
  (keyed_by_id self → keyed_by_id self').
Proof.
  cbv zeta. unfold update_account_positions, get_account.
  destruct (accounts self !! id) as [account|] eqn:Hacc.
  - split; [discriminate|]. split; [|split].
    + intros account0 [= <-]. eexists. cbn.
      split; [apply lookup_insert_eq|]. split; [|reflexivity].
      intros ticker. cbn. rewrite lookup_union.
      destruct (positions_data !! ticker), (positions account !! ticker);
        reflexivity.
    + intros other Hne. cbn. apply lookup_insert_ne. congruence.
    + intros Hkeyed other account0. cbn.
      destruct (decide (id = other)) as [<-|Hne].
      * rewrite lookup_insert_eq. intros [= <-]. cbn. apply Hkeyed, Hacc.
      * rewrite lookup_insert_ne by exact Hne. apply Hkeyed.
  - split; [reflexivity|]. split; [discriminate|]. auto.
Qed.

(** X15: [update_account_balance] merges in the same way, and what it
    writes is what [check_risk_limits] then reads: the account value is
    the sum over the merged balances.  For an unknown account nothing
    changes. *)
Theorem update_account_balance_merges (self : t) id balance_data :
  let self' := update_account_balance id balance_data self in
  (get_account self id = None → self' = self) ∧
  (∀ account, get_account self id = Some account →
     ∃ account',
       get_account self' id = Some account' ∧
       (∀ asset,
          balance account' !! asset
          = match balance_data !! asset with
            | Some v => Some v
            | None => balance account !! asset
            end) ∧
       account_value account'
       = Py.sum (values (balance_data ∪ balance account)) ∧
       (account_id account', positions account', available_balance account',
        risk_limit account', max_position_size account', is_active account')
       = (account_id account, positions account, available_balance account,
          risk_limit account, max_position_size account, is_active account)) ∧
  (∀ other, other ≠ id → get_account self' other = get_account self other).
Proof.
  cbv zeta. unfold update_account_balance, get_account.
  destruct (accounts self !! id) as [account|] eqn:Hacc.
  - split; [discriminate|]. split.
    + intros account0 [= <-]. eexists. cbn.
      split; [apply lookup_insert_eq|]. split; [|split; reflexivity].
      intros asset. cbn. rewrite lookup_union.
      destruct (balance_data !! asset), (balance account !! asset);
        reflexivity.
    + intros other Hne. cbn. apply lookup_insert_ne. congruence.
  - split; [reflexivity|]. split; [discriminate|]. auto.
Qed.

(** *** Construction *)

Lemma initialize_accounts_lookup cfgs : ∀ (m0 : gmap string Account) id,
  fold_left (λ accs c, let account := make_account c in
                       <[account_id account := account]> accs) cfgs m0 !! id
  = match List.find (λ c, String.eqb (cfg_account_id c) id) (rev cfgs) with
    | Some c => Some (make_account c)
    | None => m0 !! id
    end.
Proof.
  induction cfgs as [|c cfgs IH]; intros m0 id; cbn [fold_left rev].
  - reflexivity.
  - rewrite IH. cbv zeta.
    assert (Hfind : List.find (λ c0, String.eqb (cfg_account_id c0) id)
                      (rev cfgs ++ [c])
                    = match List.find (λ c0, String.eqb (cfg_account_id c0) id)
                              (rev cfgs) with
                      | Some c' => Some c'
                      | None => if String.eqb (cfg_account_id c) id
                                then Some c else None
                      end).
    { generalize (rev cfgs). intros l. induction l as [|x l IHl]; cbn.
      - reflexivity.
      - destruct (String.eqb (cfg_account_id x) id); [reflexivity|exact IHl]. }
    rewrite Hfind.
    destruct (List.find _ (rev cfgs)); [reflexivity|].
    destruct (String.eqb (cfg_account_id c) id) eqn:E.
    + apply String.eqb_eq in E. subst id. apply lookup_insert_eq.
    + apply String.eqb_neq in E. apply lookup_insert_ne. exact E.
Qed.

Lemma initialize_accounts_active cfgs id account :
  accounts (init cfgs) !! id = Some account → is_active account = true.
Proof.
  unfold init, _initialize_accounts. cbn. rewrite initialize_accounts_lookup.
  destruct (List.find _ (rev cfgs)); [|rewrite lookup_empty; discriminate].
  intros [= <-]. reflexivity.
Qed.

Lemma clients_lookup (l : list Account) : ∀ (m0 : gmap string TradingEngine.Client) id,
  is_Some
    (fold_left (λ clients account,
        <[account_id account :=
            {| TradingEngine.base_url := "https://api.etherealtest.net";
               TradingEngine.client_key := api_key account;
               TradingEngine.client_secret := api_secret account |}]> clients)
       l m0 !! id)
  ↔ id ∈ account_id <$> l ∨ is_Some (m0 !! id).
Proof.
  induction l as [|account l IH]; intros m0 id; cbn [fold_left fmap list_fmap].
  - split; [auto|]. intros [H|H]; [apply elem_of_nil in H; contradiction|auto].
  - rewrite IH. rewrite elem_of_cons.
    destruct (decide (account_id account = id)) as [<-|Hne].
    + rewrite lookup_insert_eq. split; [auto|]. intros _. right. eauto.
    + rewrite lookup_insert_ne by exact Hne. split.
      * intros [H|H]; auto.
      * intros [[H|H]|H]; auto. congruence.
Qed.

(** X16: the ledger built from the configuration holds, under each
    configured account id, the account made from the last configuration
    entry with that id: a repeated id overwrites.  Every account starts
    active, and the engine built from the same configuration holds a
    client for exactly the ids of the ledger.  Hence an intent that passes
    [check_risk_limits] in such an engine always finds its client: the
    missing-client branch of [_submit_order] cannot be taken. *)
Theorem engine_has_a_client_per_account cfgs :
  let engine := TradingEngine.init cfgs in
  let ledger := TradingEngine.account_manager engine in
  (∀ id,
     get_account ledger id
     = make_account
         <$> List.find (λ c, String.eqb (cfg_account_id c) id) (rev cfgs)) ∧
  (∀ id account, get_account ledger id = Some account →
                 is_active account = true) ∧
  (∀ id, is_Some (TradingEngine.clients engine !! id)
         ↔ is_Some (get_account ledger id)) ∧
  (∀ id quantity ticker,
     check_risk_limits ledger id quantity ticker = true →
     is_Some (TradingEngine.clients engine !! id)).
Proof.
  cbv zeta.
  assert (Hlookup : ∀ id,
    get_account (TradingEngine.account_manager (TradingEngine.init cfgs)) id
    = make_account
        <$> List.find (λ c, String.eqb (cfg_account_id c) id) (rev cfgs)).
  { intros id. unfold get_account. cbn. unfold _initialize_accounts.
    rewrite initialize_accounts_lookup.
    destruct (List.find _ (rev cfgs)); [reflexivity|apply lookup_empty]. }
  assert (Hclients : ∀ id,
    is_Some (TradingEngine.clients (TradingEngine.init cfgs) !! id)
    ↔ is_Some (get_account
                 (TradingEngine.account_manager (TradingEngine.init cfgs)) id)).
  { intros id. cbn [TradingEngine.init TradingEngine.clients
                    TradingEngine.account_manager].
    unfold TradingEngine._initialize_clients. rewrite clients_lookup.
    rewrite lookup_empty, is_Some_alt. unfold get_account.
    pose proof (keyed_by_id_init cfgs) as Hkeyed.
    unfold get_active_accounts, values. split.
    - intros [Hin|[]].
      apply list_elem_of_fmap in Hin as (account & -> & Hin).
      apply list_elem_of_filter in Hin as [_ Hin].
      apply list_elem_of_fmap in Hin as ([id' account'] & -> & Hin).
      apply elem_of_map_to_list in Hin. cbn.
      rewrite (Hkeyed _ _ Hin). exists account'. exact Hin.
    - intros [account Hacc]. left.
      apply list_elem_of_fmap. exists account.
      split; [symmetry; apply Hkeyed, Hacc|].
      apply list_elem_of_filter.
      split; [apply (initialize_accounts_active cfgs id), Hacc|].
      apply list_elem_of_fmap. exists (id, account).
      split; [reflexivity|]. apply elem_of_map_to_list, Hacc. }
  split; [exact Hlookup|]. split; [|split; [exact Hclients|]].
  - intros id account. apply initialize_accounts_active.
  - intros id quantity ticker Hcheck. apply Hclients.
    unfold check_risk_limits in Hcheck.
    destruct (get_account _ id); [eauto|discriminate].
Qed.

End LedgerUpdates.

(** ** More on the orchestrator *)
Section Reconciliation.
Import TradingEngine.
Context {W : Type}.
Variable strategies : string → option (OrderUpdate → Py.M W unit).
Variable order_update_callbacks : Env → list (OrderUpdate → Py.M W unit).

Lemma od_get_keys {V} (d : Py.odict V) id v :
  Py.od_get d id = Some v → id ∈ Py.od_keys d.
Proof.
  induction d as [|[k v'] d IH]; cbn; [discriminate|].
  destruct (String.eqb k id) eqn:E.
  - apply String.eqb_eq in E. subst k. intros _. apply elem_of_cons. auto.
  - intros H. apply elem_of_cons. right. apply IH, H.
Qed.

(** The notification of an order: the strategy's handler first, and only
    if it returns, every callback in registration order, each behind its
    own [try]. *)
Lemma notify_run e order (s : t * W) :
  _notify_order_update strategies order_update_callbacks e order s
  = let u := order_update_of e order in
    let '(outcome, w1) :=
      match strategies (strategy order) with
      | Some on_order_update => on_order_update u (snd s)
      | None => (Py.Ok tt, snd s)
      end in
    match outcome with
    | Py.Ok _ =>
        (Py.Ok tt,
         (fst s, fold_left (λ w callback, snd (callback u w))
                           (order_update_callbacks e) w1))
    | Py.Raise exn => (Py.Raise exn, (fst s, w1))
    end.
Proof.
  unfold _notify_order_update. cbv zeta. rewrite run_bind.
  assert (Hcallbacks : ∀ callbacks (s1 : t * W),
    Py.for_each callbacks (λ callback,
      Py.try_except (on_world (callback (order_update_of e order)))
                    (λ _, mret tt)) s1
    = (Py.Ok tt,
       (fst s1, fold_left (λ w callback,
                             snd (callback (order_update_of e order) w))
                          callbacks (snd s1)))).
  { induction callbacks as [|callback callbacks IH]; intros s1;
      cbn [Py.for_each fold_left].
    - destruct s1; reflexivity.
    - unfold Py.bind, Py.try_except at 1, on_world at 1, Py.zoom.
      destruct (callback (order_update_of e order) (snd s1)) as [[[]|exn] w'];
        cbn [fst snd].
      + rewrite IH. reflexivity.
      + change ((mret tt : Py.M (t * W) unit) (fst s1, w'))
          with (Py.Ok tt, (fst s1, w')).
        cbv iota beta. rewrite IH. reflexivity. }
  destruct (strategies (strategy order)) as [handler|].
  - unfold on_world at 1, Py.zoom.
    destruct (handler (order_update_of e order) (snd s)) as [[[]|exn] w1];
      cbn [fst snd]; [|reflexivity].
    rewrite Hcallbacks. reflexivity.
  - change ((mret tt : Py.M (t * W) unit) s) with (Py.Ok tt, s).
    cbv iota beta. rewrite Hcallbacks. reflexivity.
Qed.

(** X17: a failing callback never reaches the engine, and a failing
    strategy silences the callbacks.  [_notify_order_update] first runs
    the handler of the strategy named by the order, if one is registered.
    If that raises, the exception leaves [_notify_order_update] and no
    callback has run.  Otherwise every registered callback runs exactly
    once, in registration order, each on the state the previous one left,
    whether the previous ones raised or not, and the notification returns
    normally.  The engine's own state is never touched. *)
Theorem notification_isolates_callbacks e order (s : t * W) :
  let u := order_update_of e order in
  let '(outcome, w1) :=
    match strategies (strategy order) with
    | Some on_order_update => on_order_update u (snd s)
    | None => (Py.Ok tt, snd s)
    end in
  _notify_order_update strategies order_update_callbacks e order s
  = match outcome with
    | Py.Ok _ =>
        (Py.Ok tt,
         (fst s, fold_left (λ w callback, snd (callback u w))
                           (order_update_callbacks e) w1))
    | Py.Raise exn => (Py.Raise exn, (fst s, w1))
    end.
Proof.
  cbv zeta. rewrite notify_run. cbv zeta.
  destruct (match strategies (strategy order) with
            | Some on_order_update =>
                on_order_update (order_update_of e order) (snd s)
            | None => (Py.Ok tt, snd s)
            end) as [[[]|exn] w1]; reflexivity.
Qed.

(** What [update_one] does, case by case. *)
Lemma update_one_run e id (s : t * W) :
  match Py.od_get (orders (fst s)) id with
  | Some order =>
      if bool_decide (status order = submitted) then
        ∃ w', update_one strategies order_update_callbacks e id s
              = (Py.Ok tt,
                 (set_orders (Py.od_set (orders (fst s)) id (fill order))
                             (fst s), w'))
      else update_one strategies order_update_callbacks e id s = (Py.Ok tt, s)
  | None => update_one strategies order_update_callbacks e id s = (Py.Ok tt, s)
  end.
Proof.
  unfold update_one. rewrite run_gets.
  destruct (Py.od_get (orders (fst s)) id) as [order|]; [|reflexivity].
  destruct (bool_decide (status order = submitted)) eqn:Hsub.
  - apply bool_decide_eq_true in Hsub.
    rewrite bool_decide_eq_true_2 by auto.
    unfold Py.try_except. rewrite run_bind.
    unfold on_engine at 1, Py.zoom, Py.modify. cbn [fst snd].
    rewrite notify_run. cbv zeta.
    destruct (strategies (strategy (fill order))) as [handler|].
    + destruct (handler _ _) as [[[]|exn] w1]; cbn [fst snd]; eauto.
    + cbn [fst snd]. eauto.
  - apply bool_decide_eq_false in Hsub.
    destruct (bool_decide (status order = submitted ∨ status order = partial));
      reflexivity.
Qed.

Lemma reconciled_keeps_settled d d' id o :
  reconciled d d' → Py.od_get d id = Some o → status o ≠ submitted →
  Py.od_get d' id = Some o.
Proof.
  intros Hrec Hget Hstatus.
  destruct (Hrec id) as [->|(o' & Ho' & Hsub & _)]; [exact Hget|].
  rewrite Hget in Ho'. injection Ho' as <-. contradiction.
Qed.

Lemma for_each_update_one_settles e ids : ∀ (s : t * W) id o',
  id ∈ ids →
  Py.od_get (orders (fst (snd
     (Py.for_each ids (update_one strategies order_update_callbacks e) s)))) id
  = Some o' →
  status o' ≠ submitted.
Proof.
  induction ids as [|x ids IH]; intros s id o' Hin Hget.
  - apply elem_of_nil in Hin. contradiction.
  - cbn [Py.for_each] in Hget. unfold Py.bind in Hget.
    pose proof (update_one_run e x s) as Hone.
    destruct (decide (id ∈ ids)) as [Hrest|Hnot].
    + destruct (update_one strategies order_update_callbacks e x s)
        as [[[]|exn] s1] eqn:Hrun.
      * eapply IH; eassumption.
      * exfalso. destruct (Py.od_get (orders (fst s)) x);
          [destruct (bool_decide _); [destruct Hone as [w' Hone]|]|];
          discriminate Hone.
    + apply elem_of_cons in Hin as [->|Hin]; [|contradiction].
      destruct (Py.od_get (orders (fst s)) x) as [order|] eqn:Hx.
      * destruct (bool_decide (status order = submitted)) eqn:Hsub.
        -- destruct Hone as [w' Hone]. rewrite Hone in Hget.
           pose proof (for_each_update_one_reconciled strategies
                         order_update_callbacks e ids
                         (set_orders (Py.od_set (orders (fst s)) x (fill order))
                                     (fst s), w')) as Hrec.
           cbn [fst snd] in Hrec, Hget.
           rewrite (reconciled_keeps_settled _ _ x (fill order) Hrec) in Hget.
           ++ injection Hget as <-. discriminate.
           ++ cbn. apply od_get_set_eq.
           ++ discriminate.
        -- apply bool_decide_eq_false in Hsub. rewrite Hone in Hget.
           pose proof (for_each_update_one_reconciled strategies
                         order_update_callbacks e ids s) as Hrec.
           rewrite (reconciled_keeps_settled _ _ x order Hrec Hx Hsub) in Hget.
           injection Hget as <-. exact Hsub.
      * rewrite Hone in Hget.
        pose proof (for_each_update_one_reconciled strategies
                      order_update_callbacks e ids s x) as Hrec.
        destruct Hrec as [Hsame|(o & Ho & _)]; congruence.
Qed.

Lemma for_each_update_one_idle e ids : ∀ (s : t * W),
  (∀ id o, Py.od_get (orders (fst s)) id = Some o → status o ≠ submitted) →
  Py.for_each ids (update_one strategies order_update_callbacks e) s
  = (Py.Ok tt, s).
Proof.
  induction ids as [|x ids IH]; intros s Hsettled; [reflexivity|].
  cbn [Py.for_each]. unfold Py.bind.
  pose proof (update_one_run e x s) as Hone.
  destruct (Py.od_get (orders (fst s)) x) as [order|] eqn:Hx.
  - rewrite bool_decide_eq_false_2 in Hone by (eapply Hsettled; eassumption).
    rewrite Hone. apply IH, Hsettled.
  - rewrite Hone. apply IH, Hsettled.
Qed.

(** X18: one reconciliation pass settles every submitted order.  After
    [_update_order_status], whatever the notifications did, each order
    that was submitted is filled, with [filled_quantity = quantity] and
    nothing remaining, every other order, a partial one included, is
    exactly as it was, and no registered order is left submitted.  A
    second pass right after it therefore returns normally and changes
    nothing at all, neither the registry nor the notified objects. *)
Theorem reconciliation_settles_and_is_idempotent e e' (s : t * W) :
  let s' := snd (_update_order_status strategies order_update_callbacks e s) in
  (∀ id o, Py.od_get (orders (fst s)) id = Some o →
     Py.od_get (orders (fst s')) id
     = Some (if bool_decide (status o = submitted) then fill o else o)) ∧
  (∀ id, Py.od_get (orders (fst s)) id = None →
         Py.od_get (orders (fst s')) id = None) ∧
  (∀ id o', Py.od_get (orders (fst s')) id = Some o' →
            status o' ≠ submitted) ∧
  _update_order_status strategies order_update_callbacks e' s' = (Py.Ok tt, s').
Proof.
  cbv zeta. unfold _update_order_status at 1 2 3. rewrite !run_gets.
  set (s' := snd (Py.for_each (Py.od_keys (orders (fst s)))
                    (update_one strategies order_update_callbacks e) s)).
  pose proof (for_each_update_one_reconciled strategies order_update_callbacks
                e (Py.od_keys (orders (fst s))) s) as Hrec.
  fold s' in Hrec.
  assert (Hsettled : ∀ id o', Py.od_get (orders (fst s')) id = Some o' →
                              status o' ≠ submitted).
  { intros id o' Hget.
    destruct (Hrec id) as [Hsame|(o & Ho & _ & Hfill)].
    - rewrite Hsame in Hget.
      eapply (for_each_update_one_settles e _ s id o').
      + eapply od_get_keys. exact Hget.
      + fold s'. rewrite Hsame. exact Hget.
    - rewrite Hfill in Hget. injection Hget as <-. discriminate. }
  split; [|split; [|split; [exact Hsettled|]]].
  - intros id o Hget. destruct (Hrec id) as [Hsame|(o1 & Ho1 & Hsub & Hfill)].
    + rewrite Hsame, Hget. f_equal.
      rewrite bool_decide_eq_false_2; [reflexivity|].
      apply (Hsettled id). rewrite Hsame. exact Hget.
    + rewrite Hget in Ho1. injection Ho1 as <-.
      rewrite Hfill, bool_decide_eq_true_2 by exact Hsub. reflexivity.
  - intros id Hnone. destruct (Hrec id) as [Hsame|(o1 & Ho1 & _)]; congruence.
  - unfold _update_order_status. rewrite run_gets.
    apply for_each_update_one_idle. exact Hsettled.
Qed.

(** The engine state after [_submit_order]: the three outcomes, and the
    state in each. *)
Lemma submit_order_rejected e order_data (s : t * W) :
  let account_id := or_default (od_account_id order_data) in
  AccountManager.check_risk_limits (account_manager (fst s)) account_id
    (od_quantity order_data) (od_ticker order_data) = false
  ∨ clients (fst s) !! account_id = None →
  _submit_order strategies order_update_callbacks e order_data s = (Py.Ok tt, s).
Proof.
  cbv zeta. intros Hrejected. unfold _submit_order, Py.try_except at 1.
  rewrite run_gets.
  change (account_id (new_order e order_data)) with (od_account_id order_data).
  change (quantity (new_order e order_data)) with (od_quantity order_data).
  change (ticker (new_order e order_data)) with (od_ticker order_data).
  destruct (AccountManager.check_risk_limits _ _ _ _); cbn [negb];
    [|reflexivity].
  destruct Hrejected as [Hcheck|Hclient]; [discriminate|].
  rewrite Hclient. reflexivity.
Qed.

(** X19: a rejected intent leaves no trace.  When [check_risk_limits]
    denies the intent, or its account has no client, [_submit_order]
    returns normally with the registry and every notified object exactly
    as they were: no order is created and nobody is told.  An intent
    without an account hint, or with an empty one, is checked against the
    account named "default"; in an engine that has no such account it is
    always dropped this way. *)
Theorem rejected_intent_leaves_no_trace e order_data (s : t * W) :
  (AccountManager.check_risk_limits (account_manager (fst s))
     (or_default (od_account_id order_data))
     (od_quantity order_data) (od_ticker order_data) = false
   ∨ clients (fst s) !! or_default (od_account_id order_data) = None →
   _submit_order strategies order_update_callbacks e order_data s
   = (Py.Ok tt, s)) ∧
  (AccountManager.get_account (account_manager (fst s)) "default" = None →
   od_account_id order_data = None ∨ od_account_id order_data = Some "" →
   _submit_order strategies order_update_callbacks e order_data s
   = (Py.Ok tt, s)).
Proof.
  split; [apply submit_order_rejected|].
  intros Hnone Hhint. apply submit_order_rejected. left.
  assert (Hdefault : or_default (od_account_id order_data) = "default")
    by (destruct Hhint as [-> | ->]; reflexivity).
  rewrite Hdefault. unfold AccountManager.check_risk_limits.
  rewrite Hnone. reflexivity.
Qed.

(** An order keeps consistent quantities through one step. *)
Lemma engine_step_quantities step (s : t * W) :
  (∀ id o, registered s id = Some o → consistent_quantities o) →
  ∀ id o, registered (engine_step strategies order_update_callbacks step s) id
          = Some o →
          consistent_quantities o.
Proof.
  intros Hbefore id o. unfold registered in *.
  assert (Hnew : ∀ e order_data st,
            consistent_quantities (set_status st (new_order e order_data))).
  { intros e order_data st. unfold consistent_quantities. cbn. ring. }
  assert (Hset : ∀ d k (v : Order),
            (∀ id o, Py.od_get d id = Some o → consistent_quantities o) →
            consistent_quantities v →
            ∀ id o, Py.od_get (Py.od_set d k v) id = Some o →
                    consistent_quantities o).
  { intros d k v Hd Hv id' o'. destruct (decide (k = id')) as [<-|Hne].
    - rewrite od_get_set_eq. intros [= <-]. exact Hv.
    - rewrite od_get_set_ne by exact Hne. apply Hd. }
  destruct step as [e order_data|e]; cbn [engine_step].
  - destruct (submit_order_registry strategies order_update_callbacks
                e order_data s) as [->|[->| ->]].
    + apply Hbefore.
    + apply Hset; [exact Hbefore|apply Hnew].
    + apply Hset; [apply Hset; [exact Hbefore|apply Hnew]|apply (Hnew _ _ failed)].
  - unfold _update_order_status. rewrite run_gets.
    destruct (for_each_update_one_reconciled strategies order_update_callbacks
                e (Py.od_keys (orders (fst s))) s id)
      as [->|(o1 & Ho1 & _ & ->)].
    + apply Hbefore.
    + intros [= <-]. unfold consistent_quantities. cbn. ring.
Qed.

(** X20: [remaining_quantity = quantity - filled_quantity] holds for every
    registered order, always.  Over any sequence of submissions and
    reconciliation passes, from any registry where it holds, and so from
    the empty one, it holds for every order of the resulting registry,
    whether or not identifiers repeat and whatever the notifications
    do. *)
Theorem registered_quantities_add_up (steps : list EngineStep) (s : t * W) :
  (∀ id o, registered s id = Some o → consistent_quantities o) →
  ∀ id o,
    registered
      (fold_left (λ s step,
                    engine_step strategies order_update_callbacks step s)
                 steps s) id = Some o →
    consistent_quantities o.
Proof.
  revert s. induction steps as [|step steps IH]; intros s Hbefore;
    cbn [fold_left]; [exact Hbefore|].
  apply IH. apply engine_step_quantities. exact Hbefore.
Qed.

End Reconciliation.

(** ** More properties at the instances *)
Section MoreInstances.

Lemma check_pre_trade_risk_chain_witness :
  ∃ self',
    RiskManager.check_pre_trade_risk (intent "buy" 1)
      (RiskManager.init default_risk_config)
    = (Py.Ok true, self').
Proof.
  destruct (check_pre_trade_risk_chain (RiskManager.init default_risk_config)
              (intent "buy" 1)) as (self' & Hrun & _).
  - reflexivity.
  - vm_compute. discriminate.
  - exists self'. exact Hrun.
Defined.

Lemma check_pre_trade_risk_zero_leverage_witness :
  ∃ self',
    RiskManager.check_pre_trade_risk (intent "buy" 1) zero_leverage_manager
    = (Py.Raise Py.ZeroDivisionError, self').
Proof.
  destruct (check_pre_trade_risk_zero_leverage zero_leverage_manager
              (intent "buy" 1)) as (self' & Hrun & _).
  - reflexivity.
  - reflexivity.
  - vm_compute. discriminate.
  - vm_compute. discriminate.
  - exists self'. exact Hrun.
Defined.

Lemma registered_quantities_add_up_witness :
  ∃ o, registered after_reconcile "id-1" = Some o ∧ consistent_quantities o.
Proof.
  destruct (registered after_reconcile "id-1") as [o|] eqn:Horder;
    [|vm_compute in Horder; discriminate Horder].
  exists o. split; [reflexivity|].
  apply (registered_quantities_add_up
           (System.strategy_handlers no_strategy)
           (System.callbacks quiet_monitoring)
           [SubmitOrder (at_time "id-1" 1) (intent "buy" 1);
            UpdateOrderStatus (at_time "" 2)]
           engine_start) with (id := "id-1").
  - intros id o' Hget. vm_compute in Hget. discriminate Hget.
  - exact Horder.
Defined.

End MoreInstances.

(** ** Market making *)
Section MarketMaking.
Import MarketMakingStrategy.

Lemma ge_false_iff a b : Builtin.ge a b = false ↔ (a < b)%Q.
Proof.
  unfold Builtin.ge. rewrite negb_false_iff. apply lt_true_iff.
Qed.

Lemma max2_0_spec x :
  (0 <= Py.max2 0 x)%Q ∧
  ((0 < x)%Q → Py.max2 0 x = x) ∧
  ((x <= 0)%Q → Py.max2 0 x = 0%Q).
Proof.
  unfold Py.max2. destruct (Py.gt x 0) eqn:E.
  - apply gt_true_iff in E. split; [lra|split; [auto|intros; lra]].
  - apply gt_false_iff in E. split; [lra|split; [intros; lra|auto]].
Qed.

Lemma ratio_bounds (a c : Q) :
  (0 < c)%Q →
  (a / c * c == a)%Q ∧
  ((0 < a)%Q → (0 < a / c)%Q) ∧
  ((a <= 0)%Q → (a / c <= 0)%Q) ∧
  ((a < c)%Q → (a / c < 1)%Q) ∧
  ((c <= a)%Q → (1 <= a / c)%Q) ∧
  ((- c < a)%Q → (- (1) < a / c)%Q) ∧
  ((a <= - c)%Q → (a / c <= - (1))%Q).
Proof.
  intros Hc. split; [field; lra|].
  split; [|split; [|split; [|split; [|split]]]]; intros H.
  - apply Qlt_shift_div_l; lra.
  - apply Qle_shift_div_r; lra.
  - apply Qlt_shift_div_r; lra.
  - apply Qle_shift_div_l; lra.
  - apply Qlt_shift_div_l; lra.
  - apply Qle_shift_div_r; lra.
Qed.

(** X21: the sizes quoted by [_calculate_order_sizes] follow the inventory.
    With a positive [max_inventory] and a positive [order_size] the method
    returns two sizes that are never negative; the bid size is 0 exactly
    when the inventory has reached [max_inventory], the ask size is 0
    exactly when it has reached [-max_inventory], and strictly between the
    two limits both sizes are positive and add up to twice
    [order_size]. *)
Theorem order_sizes_follow_inventory (self : t) (inventory : Q) :
  (0 < max_inventory self)%Q →
  (0 < order_size self)%Q →
  ∃ bid_size ask_size,
    _calculate_order_sizes self inventory = Py.Ok (bid_size, ask_size) ∧
    (0 <= bid_size)%Q ∧ (0 <= ask_size)%Q ∧
    ((bid_size == 0)%Q ↔ (max_inventory self <= inventory)%Q) ∧
    ((ask_size == 0)%Q ↔ (inventory <= - max_inventory self)%Q) ∧
    ((Qabs inventory < max_inventory self)%Q →
     (bid_size + ask_size == 2 * order_size self)%Q).
Proof.
  intros Hmax Hsize. unfold _calculate_order_sizes, Builtin.div.
  assert (Hz : Qeq_bool (max_inventory self) 0 = false).
  { destruct (Qeq_bool (max_inventory self) 0) eqn:E; [|reflexivity].
    apply Qeq_bool_iff in E. lra. }
  rewrite Hz.
  destruct (ratio_bounds inventory (max_inventory self) Hmax)
    as (_ & Hpos & Hneg & Hlt1 & Hge1 & Hgtm1 & Hlem1).
  set (r := (inventory / max_inventory self)%Q) in *.
  set (size := order_size self) in *.
  set (limit := max_inventory self) in *.
  destruct (Py.gt inventory 0) eqn:Hsign;
    [apply gt_true_iff in Hsign|apply gt_false_iff in Hsign].
  - assert (Habs : (Qabs inventory == inventory)%Q) by (apply Qabs_pos; lra).
    destruct (Builtin.ge (Qabs inventory) limit) eqn:Hfull;
      [apply ge_true_iff in Hfull|apply ge_false_iff in Hfull].
    + destruct (max2_0_spec 0) as (_ & _ & H0).
      destruct (max2_0_spec (size * (1 + r))) as (_ & Hask & _).
      assert (0 < size * (1 + r))%Q by (specialize (Hpos Hsign); nra).
      rewrite H0, Hask by lra.
      eexists _, _. split; [reflexivity|].
      split; [lra|split; [lra|]].
      split; [split; intros; lra|].
      split; [split; intros; lra|].
      intros; lra.
    + destruct (max2_0_spec (size * (1 - r))) as (_ & Hbid & _).
      destruct (max2_0_spec (size * (1 + r))) as (_ & Hask & _).
      assert (r < 1)%Q by (apply Hlt1; lra).
      assert (0 < r)%Q by (apply Hpos; lra).
      assert (0 < size * (1 - r))%Q by nra.
      assert (0 < size * (1 + r))%Q by nra.
      rewrite Hbid, Hask by lra.
      eexists _, _. split; [reflexivity|].
      split; [lra|split; [lra|]].
      split; [split; intros; lra|].
      split; [split; intros; lra|].
      intros; lra.
  - assert (Habs : (Qabs inventory == - inventory)%Q) by (apply Qabs_neg; lra).
    assert (Hr : (r <= 0)%Q) by (apply Hneg; lra).
    assert (Habsr : (Qabs r == - r)%Q) by (apply Qabs_neg; lra).
    destruct (Builtin.ge (Qabs inventory) limit) eqn:Hfull;
      [apply ge_true_iff in Hfull|apply ge_false_iff in Hfull].
    + destruct (max2_0_spec 0) as (_ & _ & H0).
      destruct (max2_0_spec (size * (1 + Qabs r))) as (_ & Hbid & _).
      assert (0 < size * (1 + Qabs r))%Q by nra.
      rewrite H0, Hbid by lra.
      eexists _, _. split; [reflexivity|].
      split; [lra|split; [lra|]].
      split; [split; intros; lra|].
      split; [split; intros; lra|].
      intros; lra.
    + destruct (max2_0_spec (size * (1 + Qabs r))) as (_ & Hbid & _).
      destruct (max2_0_spec (size * (1 - Qabs r))) as (_ & Hask & _).
      assert (- (1) < r)%Q by (apply Hgtm1; lra).
      assert (0 < size * (1 + Qabs r))%Q by nra.
      assert (0 < size * (1 - Qabs r))%Q by nra.
      rewrite Hbid, Hask by lra.
      eexists _, _. split; [reflexivity|].
      split; [lra|split; [lra|]].
      split; [split; intros; lra|].
      split; [split; intros; lra|].
      intros; lra.
Qed.

Lemma order_sizes_total (self : t) inventory :
  ¬ (max_inventory self == 0)%Q →
  ∃ sizes, _calculate_order_sizes self inventory = Py.Ok sizes.
Proof.
  intros Hmax. unfold _calculate_order_sizes, Builtin.div.
  destruct (Qeq_bool (max_inventory self) 0) eqn:E.
  - apply Qeq_bool_iff in E. contradiction.
  - destruct (Py.gt inventory 0), (Builtin.ge (Qabs inventory) _);
      eexists; reflexivity.
Qed.

Lemma order_sizes_zero_limit (self : t) inventory :
  (max_inventory self == 0)%Q →
  _calculate_order_sizes self inventory = Py.Raise Py.ZeroDivisionError.
Proof.
  intros Hmax. unfold _calculate_order_sizes, Builtin.div.
  apply Qeq_bool_iff in Hmax. rewrite Hmax. reflexivity.
Qed.

Lemma execute_loop_quotes market_data (self : t) tickers :
  ¬ (max_inventory self == 0)%Q →
  ∀ orders, ∃ quotes,
    execute_loop market_data tickers orders self
    = (Py.Ok (orders ++ quotes)%list, self) ∧
    Forall (quote_of self market_data) quotes ∧
    Forall (λ o, od_ticker o ∈ tickers) quotes ∧
    (length quotes ≤ 2 * length tickers)%nat.
Proof.
  intros Hmax. induction tickers as [|ticker rest IH]; intros orders.
  - exists []. cbn [execute_loop]. rewrite app_nil_r.
    split; [reflexivity|]. split; [constructor|]. split; [constructor|].
    cbn. lia.
  - cbn [execute_loop].
    assert (Hrest : ∀ quotes : list OrderData,
              Forall (λ o, od_ticker o ∈ rest) quotes →
              Forall (λ o, od_ticker o ∈ ticker :: rest) quotes).
    { intros quotes Hquotes. eapply Forall_impl; [exact Hquotes|].
      intros o Ho. apply elem_of_cons. right. exact Ho. }
    destruct (market_data !! ticker) as [entry|] eqn:Hentry.
    + rewrite run_gets. change (id self) with self. cbv beta.
      destruct (order_sizes_total self
                  (default 0%Q (current_inventory self !! ticker)) Hmax)
        as ([bid_size ask_size] & Hsizes).
      unfold _calculate_bid_ask_prices at 1. cbv zeta.
      rewrite run_bind. unfold Builtin.lift at 1. rewrite Hsizes.
      set (bid := quote self ticker "buy" bid_size _).
      set (ask := quote self ticker "sell" ask_size _).
      assert (Hbid : (0 < bid_size)%Q → quote_of self market_data bid).
      { intros Hpositive. exists entry. cbn. split; [exact Hentry|].
        split; [exact Hpositive|]. auto 6. }
      assert (Hask : (0 < ask_size)%Q → quote_of self market_data ask).
      { intros Hpositive. exists entry. cbn. split; [exact Hentry|].
        split; [exact Hpositive|]. auto 6. }
      assert (Hhere : ∀ o, o = bid ∨ o = ask → od_ticker o ∈ ticker :: rest).
      { intros o [-> | ->]; apply elem_of_cons; left; reflexivity. }
      destruct (Py.gt bid_size 0) eqn:Hb; destruct (Py.gt ask_size 0) eqn:Ha;
        rewrite ?gt_true_iff in *.
      * destruct (IH ((orders ++ [bid]) ++ [ask])%list)
          as (quotes & Hrun & Hquotes & Htickers & Hlength).
        exists (bid :: ask :: quotes). rewrite Hrun.
        split; [rewrite <- !app_assoc; reflexivity|].
        split; [auto using Forall_cons_2|].
        split; [auto using Forall_cons_2|]. cbn [length]. lia.
      * destruct (IH (orders ++ [bid])%list)
          as (quotes & Hrun & Hquotes & Htickers & Hlength).
        exists (bid :: quotes). rewrite Hrun.
        split; [rewrite <- !app_assoc; reflexivity|].
        split; [auto using Forall_cons_2|].
        split; [auto using Forall_cons_2|]. cbn [length]. lia.
      * destruct (IH (orders ++ [ask])%list)
          as (quotes & Hrun & Hquotes & Htickers & Hlength).
        exists (ask :: quotes). rewrite Hrun.
        split; [rewrite <- !app_assoc; reflexivity|].
        split; [auto using Forall_cons_2|].
        split; [auto using Forall_cons_2|]. cbn [length]. lia.
      * destruct (IH orders)
          as (quotes & Hrun & Hquotes & Htickers & Hlength).
        exists quotes. rewrite Hrun.
        split; [reflexivity|]. split; [exact Hquotes|].
        split; [auto|]. cbn [length]. lia.
    + destruct (IH orders) as (quotes & Hrun & Hquotes & Htickers & Hlength).
      exists quotes. rewrite Hrun.
      split; [reflexivity|]. split; [exact Hquotes|].
      split; [auto|]. cbn [length]. lia.
Qed.

Lemma execute_loop_zero_limit market_data (self : t) tickers :
  (max_inventory self == 0)%Q →
  (∃ ticker, ticker ∈ tickers ∧ is_Some (market_data !! ticker)) →
  ∀ orders,
    execute_loop market_data tickers orders self
    = (Py.Raise Py.ZeroDivisionError, self).
Proof.
  intros Hmax. induction tickers as [|ticker rest IH];
    intros (quoted & Hin & Hquoted) orders.
  - apply elem_of_nil in Hin. contradiction.
  - cbn [execute_loop].
    destruct (market_data !! ticker) as [entry|] eqn:Hentry.
    + rewrite run_gets. change (id self) with self. cbv beta.
      unfold _calculate_bid_ask_prices at 1. cbv zeta.
      rewrite run_bind. unfold Builtin.lift at 1.
      rewrite order_sizes_zero_limit by exact Hmax. reflexivity.
    + apply IH. exists quoted. split; [|exact Hquoted].
      apply elem_of_cons in Hin as [->|Hin]; [|exact Hin].
      rewrite Hentry in Hquoted. destruct Hquoted as [? [=]].
Qed.

(** X22: what a round of market making emits.  A stopped strategy emits
    nothing.  A running one with a non-zero [max_inventory] returns, its
    state unchanged, at most two orders per configured ticker, each of
    them a limit order of strictly positive size on a configured and
    quoted ticker, without an account, priced at the bid computed by
    [_calculate_bid_ask_prices] if it buys and at the ask if it sells: a
    side whose size is 0 is left out rather than sent as an empty order.
    With [max_inventory] equal to 0, a running strategy with at least one
    configured ticker quoted raises [ZeroDivisionError] and emits
    nothing. *)
Theorem market_making_round (self : t) market_data :
  let tickers := default [] (cfg_tickers (config self)) in
  (is_running self = false → execute market_data self = (Py.Ok [], self)) ∧
  (is_running self = true → ¬ (max_inventory self == 0)%Q →
   ∃ orders,
     execute market_data self = (Py.Ok orders, self) ∧
     Forall (quote_of self market_data) orders ∧
     Forall (λ o, od_ticker o ∈ tickers) orders ∧
     (length orders ≤ 2 * length tickers)%nat) ∧
  (is_running self = true → (max_inventory self == 0)%Q →
   (∃ ticker, ticker ∈ tickers ∧ is_Some (market_data !! ticker)) →
   execute market_data self = (Py.Raise Py.ZeroDivisionError, self)).
Proof.
  cbv zeta. unfold execute. rewrite run_gets. change (id self) with self.
  cbv beta. split; [|split].
  - intros ->. reflexivity.
  - intros -> Hmax. cbn [negb].
    destruct (execute_loop_quotes market_data self
                (default [] (cfg_tickers (config self))) Hmax [])
      as (quotes & Hrun & Hquotes & Htickers & Hlength).
    exists quotes. rewrite Hrun. auto.
  - intros -> Hmax Hquoted. cbn [negb].
    apply execute_loop_zero_limit; assumption.
Qed.

Lemma on_order_update_inventory (u : TradingEngine.OrderUpdate) (self : t)
    ticker :
  fst (on_order_update u self) = Py.Ok tt ∧
  (inventory (snd (on_order_update u self)) ticker
   == inventory self ticker + inventory_move ticker u)%Q.
Proof.
  unfold on_order_update, inventory_move, inventory.
  destruct (bool_decide (TradingEngine.u_status u = TradingEngine.filled))
    eqn:Hfilled.
  - apply bool_decide_eq_true in Hfilled. cbv zeta.
    rewrite run_modify. unfold Py.modify. cbn [fst snd].
    split; [reflexivity|].
    assert (Hensured : ∀ tk,
      default 0%Q (current_inventory (ensure_ticker (TradingEngine.u_ticker u)
                                        self) !! tk)
      = default 0%Q (current_inventory self !! tk)).
    { intros tk. unfold ensure_ticker.
      destruct (current_inventory self !! TradingEngine.u_ticker u) eqn:Hhere;
        [reflexivity|].
      cbn. destruct (decide (TradingEngine.u_ticker u = tk)) as [<-|Hne].
      - rewrite lookup_insert_eq, Hhere. reflexivity.
      - rewrite lookup_insert_ne by exact Hne. reflexivity. }
    unfold move_inventory at 1. cbn [current_inventory set_current_inventory].
    destruct (decide (TradingEngine.u_ticker u = ticker)) as [<-|Hne].
    + rewrite lookup_insert_eq, bool_decide_eq_true_2 by auto.
      cbn [default from_option]. rewrite Hensured.
      destruct (String.eqb (TradingEngine.u_side u) "buy");
        unfold id; ring.
    + rewrite lookup_insert_ne by exact Hne.
      rewrite Hensured, bool_decide_eq_false_2 by (intros [_ ?]; auto).
      ring.
  - apply bool_decide_eq_false in Hfilled.
    rewrite bool_decide_eq_false_2 by (intros [? _]; auto).
    split; [reflexivity|]. cbn. ring.
Qed.

(** X23: the market maker's inventory is the running total of the filled
    updates it was shown.  [on_order_update] never raises.  Over any
    sequence of updates, the inventory read for a ticker ends as what it
    was plus, for each update with status filled on that ticker, the
    order's whole [quantity], not its [filled_quantity], added when the
    side is "buy" and subtracted for any other side; updates with another
    status or on another ticker do not move it. *)
Theorem inventory_is_running_total (updates : list TradingEngine.OrderUpdate)
    (self : t) ticker :
  let self' := fold_left (λ s u, snd (on_order_update u s)) updates self in
  Forall (λ u, ∀ s, fst (on_order_update u s) = Py.Ok tt) updates ∧
  (inventory self' ticker
   == inventory self ticker + Py.sum (inventory_move ticker <$> updates))%Q.
Proof.
  cbv zeta. split.
  - apply Forall_forall. intros u _ s.
    apply (on_order_update_inventory u s ticker).
  - revert self. induction updates as [|u updates IH]; intros self.
    + cbn. ring.
    + cbn [fold_left fmap list_fmap]. rewrite IH, sum_cons.
      destruct (on_order_update_inventory u self ticker) as [_ ->]. ring.
Qed.

End MarketMaking.

Lemma order_sizes_follow_inventory_witness :
  ∃ bid_size ask_size,
    MarketMakingStrategy._calculate_order_sizes default_market_maker 0.5
    = Py.Ok (bid_size, ask_size) ∧
    (bid_size + ask_size == 0.2)%Q.
Proof.
  destruct (order_sizes_follow_inventory default_market_maker 0.5)
    as (bid_size & ask_size & Hrun & _ & _ & _ & _ & Hsum).
  - reflexivity.
  - reflexivity.
  - exists bid_size, ask_size. split; [exact Hrun|].
    rewrite Hsum by reflexivity. reflexivity.
Defined.

(** ** Lists of couples *)
Lemma in_couples_app {A} (couple : A → A → Prop) (l1 l2 : list A) :
  in_couples couple l1 → in_couples couple l2 →
  in_couples couple (l1 ++ l2)%list.
Proof.
  intros H1 H2. revert H1.
  assert (Hgen : ∀ l : list A,
            (in_couples couple l → in_couples couple (l ++ l2)%list) ∧
            (∀ a, in_couples couple (a :: l) →
                  in_couples couple ((a :: l) ++ l2)%list)).
  { induction l as [|b l [IHeven IHodd]].
    - split; [intros _; exact H2|]. intros a [].
    - split; [apply IHodd|].
      intros a [Hab Hrest]. cbn. split; [exact Hab|].
      apply IHeven, Hrest. }
  apply Hgen.
Qed.

(** ** Arbitrage *)
Section Arbitrage.
Import ArbitrageStrategy.

Lemma ratio_lt (a b c : Q) : (0 < c)%Q → (a / c < b)%Q ↔ (a < b * c)%Q.
Proof.
  intros Hc. split.
  - intros H. apply Qnot_le_lt. intros Hle.
    apply (Qle_shift_div_l _ _ _ Hc) in Hle. lra.
  - intros H. apply Qlt_shift_div_r; assumption.
Qed.

Lemma max2_spec a b :
  (Py.max2 a b = a ∨ Py.max2 a b = b) ∧
  (a <= Py.max2 a b)%Q ∧ (b <= Py.max2 a b)%Q.
Proof.
  unfold Py.max2. destruct (Py.gt b a) eqn:E.
  - apply gt_true_iff in E. split; [auto|]. split; lra.
  - apply gt_false_iff in E. split; [auto|]. split; lra.
Qed.

Lemma div_nonzero a b : ¬ (b == 0)%Q → Builtin.div a b = Py.Ok (a / b)%Q.
Proof.
  intros Hb. unfold Builtin.div.
  destruct (Qeq_bool b 0) eqn:E; [|reflexivity].
  apply Qeq_bool_iff in E. contradiction.
Qed.

Lemma div_zero a b : (b == 0)%Q → Builtin.div a b = Py.Raise Py.ZeroDivisionError.
Proof.
  intros Hb. unfold Builtin.div. apply Qeq_bool_iff in Hb. rewrite Hb.
  reflexivity.
Qed.

(** X24: what one pair yields when its first ticker has a positive price.
    With both tickers quoted and [price_a > 0],
    [_check_arbitrage_opportunity] never raises.  It returns no order when
    [|price_a - price_b * exchange_rate|] is below
    [min_profit_threshold * price_a]; otherwise it returns exactly two
    orders, the first on [ticker_a] and the second on [ticker_b]: sell A
    and buy B when the difference is positive, buy A and sell B when it is
    zero or negative.  The volume of the first is at most [max_volume] and
    worth at most 100 at the higher of the two prices, one of the two
    bounds being reached, and the second has that volume times the
    exchange rate. *)
Theorem arbitrage_opportunity_legs (self : t) (arb_pair : ArbPair) market_data
    entry_a entry_b :
  market_data !! ticker_a arb_pair = Some entry_a →
  market_data !! ticker_b arb_pair = Some entry_b →
  (0 < GridTradingStrategy.price entry_a)%Q →
  let price_a := GridTradingStrategy.price entry_a in
  let price_b := GridTradingStrategy.price entry_b in
  let rate := default 1.0%Q (exchange_rate arb_pair) in
  let price_diff := (price_a - price_b * rate)%Q in
  ((Qabs price_diff < min_profit_threshold self * price_a)%Q →
   _check_arbitrage_opportunity self arb_pair market_data = Py.Ok []) ∧
  ((min_profit_threshold self * price_a <= Qabs price_diff)%Q →
   ∃ volume,
     (volume <= max_volume self)%Q ∧
     (volume * Py.max2 price_a price_b <= 100)%Q ∧
     (volume = max_volume self ∨ (volume * Py.max2 price_a price_b == 100)%Q) ∧
     _check_arbitrage_opportunity self arb_pair market_data
     = Py.Ok
         (if Py.gt price_diff 0 then
            [leg self arb_pair (ticker_a arb_pair) "sell" volume
               (price_a * 0.999)%Q;
             leg self arb_pair (ticker_b arb_pair) "buy" (volume * rate)%Q
               (price_b * 1.001)%Q]
          else
            [leg self arb_pair (ticker_a arb_pair) "buy" volume
               (price_a * 1.001)%Q;
             leg self arb_pair (ticker_b arb_pair) "sell" (volume * rate)%Q
               (price_b * 0.999)%Q])).
Proof.
  intros Ha Hb Hprice. cbv zeta.
  unfold _check_arbitrage_opportunity. rewrite Ha, Hb. cbv zeta.
  set (price_a := GridTradingStrategy.price entry_a) in *.
  set (price_b := GridTradingStrategy.price entry_b) in *.
  set (price_diff := (price_a - price_b * default 1.0%Q (exchange_rate arb_pair))%Q).
  rewrite div_nonzero by lra.
  split.
  - intros Hbelow. apply (ratio_lt _ _ _ Hprice), lt_true_iff in Hbelow.
    rewrite Hbelow. reflexivity.
  - intros Habove.
    destruct (Py.lt (Qabs price_diff / price_a) (min_profit_threshold self))
      eqn:Hlt.
    { apply lt_true_iff, (ratio_lt _ _ _ Hprice) in Hlt. lra. }
    unfold _calculate_optimal_volume.
    destruct (max2_spec price_a price_b) as (_ & Hhigh & _).
    set (high := Py.max2 price_a price_b) in *.
    rewrite div_nonzero by lra.
    destruct (min2_spec (max_volume self) (100 / high)) as (Hinner & Hi1 & Hi2).
    set (optimal := Builtin.min2 (max_volume self) (100 / high)) in *.
    destruct (min2_spec (max_volume self) optimal) as (Houter & Ho1 & Ho2).
    set (volume := Builtin.min2 (max_volume self) optimal) in *.
    assert (Hcap : (100 / high * high == 100)%Q) by (field; lra).
    exists volume. split; [exact Ho1|]. split; [|split].
    + assert (volume <= 100 / high)%Q by lra. nra.
    + destruct Houter as [->|Hv]; [left; reflexivity|].
      destruct Hinner as [Hm|Hq].
      * left. rewrite Hv. exact Hm.
      * right. rewrite Hv, Hq. exact Hcap.
    + destruct (Py.gt price_diff 0); reflexivity.
Qed.

(** One pair either yields a couple of opposite legs or nothing, or fails
    on a division by zero. *)
Lemma check_arbitrage_opportunity_cases (self : t) arb_pair market_data :
  (∃ legs, _check_arbitrage_opportunity self arb_pair market_data = Py.Ok legs
           ∧ in_couples opposite_legs legs) ∨
  _check_arbitrage_opportunity self arb_pair market_data
  = Py.Raise Py.ZeroDivisionError ∧
  ∃ entry_a entry_b,
    market_data !! ticker_a arb_pair = Some entry_a ∧
    market_data !! ticker_b arb_pair = Some entry_b ∧
    ((GridTradingStrategy.price entry_a == 0)%Q ∨
     (Py.max2 (GridTradingStrategy.price entry_a)
              (GridTradingStrategy.price entry_b) == 0)%Q).
Proof.
  unfold _check_arbitrage_opportunity.
  destruct (market_data !! ticker_a arb_pair) as [entry_a|];
    [|left; exists []; cbn; auto].
  destruct (market_data !! ticker_b arb_pair) as [entry_b|];
    [|left; exists []; cbn; auto].
  cbv zeta. unfold Builtin.div.
  destruct (Qeq_bool (GridTradingStrategy.price entry_a) 0) eqn:Ea.
  { right. apply Qeq_bool_iff in Ea. split; [reflexivity|]. eauto 6. }
  destruct (Py.lt _ (min_profit_threshold self));
    [left; exists []; cbn; auto|].
  unfold _calculate_optimal_volume, Builtin.div.
  destruct (Qeq_bool (Py.max2 _ _) 0) eqn:Em.
  { right. apply Qeq_bool_iff in Em. split; [reflexivity|]. eauto 6. }
  left. destruct (Py.gt _ 0); eexists; (split; [reflexivity|]);
    cbn; unfold opposite_legs; cbn; auto 8.
Qed.

Lemma execute_loop_couples (self : t) market_data pairs :
  (∀ pair price_a, pair ∈ pairs → quoted_at market_data pair price_a →
                   (0 < price_a)%Q) →
  ∀ orders, in_couples opposite_legs orders →
    ∃ orders', execute_loop self market_data pairs orders = Py.Ok orders' ∧
               in_couples opposite_legs orders'.
Proof.
  induction pairs as [|arb_pair rest IH]; intros Hquoted orders Horders.
  - exists orders. auto.
  - cbn [execute_loop].
    destruct (check_arbitrage_opportunity_cases self arb_pair market_data)
      as [(legs & -> & Hlegs)|(_ & entry_a & entry_b & Ha & Hb & Hzero)].
    + apply IH.
      * intros pair price_a Hin. apply Hquoted, elem_of_cons. auto.
      * apply in_couples_app; assumption.
    + exfalso.
      assert (Hpositive : (0 < GridTradingStrategy.price entry_a)%Q).
      { apply (Hquoted arb_pair); [apply elem_of_cons; auto|].
        exists entry_a. rewrite Hb. eauto. }
      destruct (max2_spec (GridTradingStrategy.price entry_a)
                          (GridTradingStrategy.price entry_b)) as (_ & Hhigh & _).
      destruct Hzero; lra.
Qed.

Lemma execute_loop_zero_price (self : t) market_data pairs :
  (∃ pair price_a, pair ∈ pairs ∧ quoted_at market_data pair price_a ∧
                   (price_a == 0)%Q) →
  ∀ orders,
    execute_loop self market_data pairs orders = Py.Raise Py.ZeroDivisionError.
Proof.
  induction pairs as [|arb_pair rest IH];
    intros (pair & price_a & Hin & Hquoted & Hzero) orders.
  - apply elem_of_nil in Hin. contradiction.
  - cbn [execute_loop].
    destruct (check_arbitrage_opportunity_cases self arb_pair market_data)
      as [(legs & Hrun & _)|(-> & _)]; [|reflexivity].
    rewrite Hrun. apply IH. exists pair, price_a.
    split; [|auto]. apply elem_of_cons in Hin as [->|Hin]; [|exact Hin].
    exfalso. destruct Hquoted as (entry_a & Ha & [entry_b Hb] & <-).
    unfold _check_arbitrage_opportunity in Hrun. rewrite Ha, Hb in Hrun.
    cbv zeta in Hrun. rewrite (div_zero _ _ Hzero) in Hrun. discriminate Hrun.
Qed.

(** X25: a round of arbitrage is all or nothing.  A stopped strategy
    returns no order.  A running one, when every pair with both tickers
    quoted has a positive price for its first ticker, returns without
    raising, and its orders come in couples of opposite legs with the same
    pair tag and no account, in the order of the configured pairs.  But
    one pair with both tickers quoted and its first ticker at price 0
    makes the whole round raise [ZeroDivisionError]: the orders found for
    the pairs before it are lost with it. *)
Theorem arbitrage_round_all_or_nothing (self : t) market_data :
  (is_running self = false → execute self market_data = Py.Ok []) ∧
  (is_running self = true →
   (∀ pair price_a, pair ∈ arbitrage_pairs self →
                    quoted_at market_data pair price_a → (0 < price_a)%Q) →
   ∃ orders, execute self market_data = Py.Ok orders ∧
             in_couples opposite_legs orders) ∧
  (is_running self = true →
   (∃ pair price_a, pair ∈ arbitrage_pairs self ∧
                    quoted_at market_data pair price_a ∧ (price_a == 0)%Q) →
   execute self market_data = Py.Raise Py.ZeroDivisionError).
Proof.
  unfold execute. split; [|split].
  - intros ->. reflexivity.
  - intros -> Hquoted. cbn [negb].
    apply execute_loop_couples; [exact Hquoted|exact I].
  - intros -> Hzero. cbn [negb]. apply execute_loop_zero_price, Hzero.
Qed.

End Arbitrage.

Lemma arbitrage_opportunity_legs_witness :
  ∃ volume,
    ArbitrageStrategy._check_arbitrage_opportunity btc_eth_arbitrage
      btc_eth {[ "BTC" := btc_at_100; "ETH" := eth_at_101 ]}
    = Py.Ok [ArbitrageStrategy.leg btc_eth_arbitrage btc_eth "BTC" "buy"
               volume (100 * 1.001)%Q;
             ArbitrageStrategy.leg btc_eth_arbitrage btc_eth "ETH" "sell"
               (volume * 1.0)%Q (101 * 0.999)%Q].
Proof.
  destruct (arbitrage_opportunity_legs btc_eth_arbitrage btc_eth
              {[ "BTC" := btc_at_100; "ETH" := eth_at_101 ]}
              btc_at_100 eth_at_101) as [_ Hlegs].
  - reflexivity.
  - reflexivity.
  - reflexivity.
  - destruct Hlegs as (volume & _ & _ & _ & Hrun).
    + vm_compute. discriminate.
    + exists volume. exact Hrun.
Defined.

(** ** Self hedging *)
Section SelfHedging.
Import SelfHedgingStrategy.






End SelfHedging.

(** ** The grid in general *)
Section Grid.
Import GridTradingStrategy.

Lemma grid_loop_rungs (self : t) center ticker current :
  center_price self = Some center →
  ∀ levels orders, ∃ rungs,
    grid_loop ticker current levels orders self
    = (Py.Ok (orders ++ rungs)%list, self) ∧
    Forall (grid_rung self center ticker current) rungs ∧
    sublist (od_grid_level <$> rungs)
            (Some <$> filter (λ i : Z, i ≠ 0%Z) levels).
Proof.
  intros Hcenter. induction levels as [|i levels IH]; intros orders.
  - exists []. rewrite app_nil_r. split; [reflexivity|].
    split; [constructor|]. constructor.
  - cbn [grid_loop]. rewrite filter_cons.
    destruct (Z.eqb_spec i 0) as [->|Hnz].
    + rewrite decide_False by (intros H; apply H; reflexivity). apply IH.
    + rewrite decide_True by exact Hnz.
      rewrite run_gets. change (id self) with self. cbv beta.
      rewrite Hcenter. unfold number. rewrite run_ret.
      set (grid_price := (center * (1 + inject_Z i * grid_spacing self))%Q).
      destruct (Py.lt grid_price current) eqn:Hlt;
        [|destruct (Py.gt grid_price current) eqn:Hgt].
      * apply lt_true_iff in Hlt.
        destruct (IH (orders ++ [grid_order self ticker "buy" grid_price i])%list)
          as (rungs & -> & Hrungs & Hlevels).
        exists (grid_order self ticker "buy" grid_price i :: rungs).
        split; [rewrite <- app_assoc; reflexivity|]. split.
        -- apply Forall_cons_2; [|exact Hrungs].
           exists i. cbn. auto 10.
        -- cbn. apply sublist_skip, Hlevels.
      * apply gt_true_iff in Hgt.
        destruct (IH (orders ++ [grid_order self ticker "sell" grid_price i])%list)
          as (rungs & -> & Hrungs & Hlevels).
        exists (grid_order self ticker "sell" grid_price i :: rungs).
        split; [rewrite <- app_assoc; reflexivity|]. split.
        -- apply Forall_cons_2; [|exact Hrungs].
           exists i. cbn. auto 10.
        -- cbn. apply sublist_skip, Hlevels.
      * destruct (IH orders) as (rungs & -> & Hrungs & Hlevels).
        exists rungs. split; [reflexivity|]. split; [exact Hrungs|].
        cbn. apply sublist_cons, Hlevels.
Qed.

Lemma generate_grid_orders_rungs (self : t) center ticker current :
  center_price self = Some center →
  ∃ orders,
    _generate_grid_orders ticker current self = (Py.Ok orders, self) ∧
    Forall (grid_rung self center ticker current) orders ∧
    sublist (od_grid_level <$> orders) (Some <$> grid_levels self).
Proof.
  intros Hcenter. unfold _generate_grid_orders. rewrite run_gets.
  change (id self) with self. cbv beta.
  destruct (grid_loop_rungs self center ticker current Hcenter
              (Py.range (- grid_count self / 2) (grid_count self / 2 + 1)) [])
    as (rungs & Hrun & H).
  exists rungs. rewrite Hrun. exact (conj eq_refl H).
Qed.

(** X27: the grid never quotes through the market.  With a center price
    set, [_generate_grid_orders] returns, for any current price and any
    [grid_count], a list of orders and leaves the strategy as it was.
    Each order sits at a level other than 0 and is priced
    [center * (1 + level * grid_spacing)]; it is a buy only if that price
    is strictly below the current price and a sell only if it is strictly
    above, whatever the sign of its level, and a level priced exactly at
    the current price gets no order.  The levels of the orders are taken
    in increasing order, each at most once, from
    [-grid_count // 2 .. grid_count // 2] with 0 left out. *)
Theorem grid_orders_never_cross (self : t) center ticker current :
  center_price self = Some center →
  ∃ orders,
    _generate_grid_orders ticker current self = (Py.Ok orders, self) ∧
    Forall (grid_rung self center ticker current) orders ∧
    sublist (od_grid_level <$> orders) (Some <$> grid_levels self) ∧
    (length orders ≤ length (grid_levels self))%nat.
Proof.
  intros Hcenter.
  destruct (generate_grid_orders_rungs self center ticker current Hcenter)
    as (orders & Hrun & Hrungs & Hlevels).
  exists orders. split; [exact Hrun|]. split; [exact Hrungs|].
  split; [exact Hlevels|].
  apply sublist_length in Hlevels. rewrite !length_fmap in Hlevels.
  exact Hlevels.
Qed.

Lemma execute_loop_centered (self : t) center market_data :
  center_price self = Some center →
  ∀ tickers orders, ∃ rungs,
    execute_loop market_data tickers orders self
    = (Py.Ok (orders ++ rungs)%list, self) ∧
    Forall (λ o, ∃ entry, market_data !! od_ticker o = Some entry ∧
                          grid_rung self center (od_ticker o) (price entry) o)
           rungs.
Proof.
  intros Hcenter. induction tickers as [|ticker rest IH]; intros orders.
  - exists []. rewrite app_nil_r. split; [reflexivity|constructor].
  - cbn [execute_loop].
    destruct (market_data !! ticker) as [entry|] eqn:Hentry; [|apply IH].
    rewrite run_modify, Hcenter.
    destruct (generate_grid_orders_rungs self center ticker (price entry)
                Hcenter) as (grid_orders & Hrun & Hrungs & _).
    rewrite (run_ok _ _ _ _ _ Hrun).
    destruct (IH (orders ++ grid_orders)%list) as (rungs & -> & Hrest).
    exists (grid_orders ++ rungs)%list.
    split; [rewrite app_assoc; reflexivity|].
    apply Forall_app_2; [|exact Hrest].
    eapply Forall_impl; [exact Hrungs|].
    intros o Ho. exists entry.
    assert (Hticker : od_ticker o = ticker)
      by (destruct Ho as (i & _ & _ & Hticker & _); exact Hticker).
    rewrite Hticker. auto.
Qed.

Lemma execute_loop_uncentered (self : t) market_data :
  center_price self = None →
  ∀ tickers orders,
    match first_quoted market_data tickers with
    | None => execute_loop market_data tickers orders self = (Py.Ok orders, self)
    | Some center =>
        ∃ rungs,
          execute_loop market_data tickers orders self
          = (Py.Ok (orders ++ rungs)%list,
             set_center_price (Some center) self) ∧
          Forall (λ o, ∃ entry,
                    market_data !! od_ticker o = Some entry ∧
                    grid_rung self center (od_ticker o) (price entry) o)
                 rungs
    end.
Proof.
  intros Hcenter. induction tickers as [|ticker rest IH]; intros orders;
    cbn [first_quoted execute_loop]; [reflexivity|].
  destruct (market_data !! ticker) as [entry|] eqn:Hentry; [|apply IH].
  rewrite run_modify, Hcenter.
  set (self' := set_center_price (Some (price entry)) self).
  assert (Hcenter' : center_price self' = Some (price entry)) by reflexivity.
  destruct (generate_grid_orders_rungs self' (price entry) ticker (price entry)
              Hcenter') as (grid_orders & Hrun & Hrungs & _).
  rewrite (run_ok _ _ _ _ _ Hrun).
  destruct (execute_loop_centered self' (price entry) market_data Hcenter'
              rest (orders ++ grid_orders)%list) as (rungs & -> & Hrest).
  exists (grid_orders ++ rungs)%list.
  split; [rewrite app_assoc; reflexivity|].
  apply Forall_app_2; [|exact Hrest].
  eapply Forall_impl; [exact Hrungs|].
  intros o Ho. exists entry.
  assert (Hticker : od_ticker o = ticker)
    by (destruct Ho as (i & _ & _ & Hticker & _); exact Hticker).
  rewrite Hticker. auto.
Qed.

(** X28: the center price is set once and shared by every ticker.  A
    running grid without a center price takes the price of the first
    configured ticker that is quoted, keeps it as [center_price], and
    prices the orders of every ticker of the round, and of later rounds,
    off that one value; a grid that has a center price is not changed by
    [execute].  In both cases [execute] returns without raising, and each
    order is a rung around the one center for its own ticker: priced
    [center * (1 + level * grid_spacing)], a buy strictly below that
    ticker's price or a sell strictly above it.  With no center and no
    quoted ticker there is no order and no change. *)
Theorem grid_center_is_set_once (self : t) market_data :
  is_running self = true →
  let tickers := default [] (cfg_tickers (config self)) in
  let center :=
    match center_price self with
    | Some center => Some center
    | None => first_quoted market_data tickers
    end in
  ∃ orders,
    execute market_data self
    = (Py.Ok orders,
       match center_price self, center with
       | None, Some _ => set_center_price center self
       | _, _ => self
       end) ∧
    match center with
    | Some center =>
        Forall (λ o, ∃ entry,
                  market_data !! od_ticker o = Some entry ∧
                  grid_rung self center (od_ticker o) (price entry) o)
               orders
    | None => orders = []
    end.
Proof.
  intros Hrun. cbv zeta. unfold execute. rewrite run_gets.
  change (id self) with self. cbv beta. rewrite Hrun. cbn [negb].
  destruct (center_price self) as [center|] eqn:Hcenter.
  - destruct (execute_loop_centered self center market_data Hcenter
                (default [] (cfg_tickers (config self))) [])
      as (rungs & Hloop & Hrungs).
    exists rungs. split; [exact Hloop|exact Hrungs].
  - pose proof (execute_loop_uncentered self market_data Hcenter
                  (default [] (cfg_tickers (config self))) []) as Hloop.
    destruct (first_quoted market_data _) as [center|].
    + destruct Hloop as (rungs & Hloop & Hrungs).
      exists rungs. split; [exact Hloop|exact Hrungs].
    + exists []. split; [exact Hloop|reflexivity].
Qed.

End Grid.

Lemma grid_orders_never_cross_witness :
  ∃ orders,
    GridTradingStrategy._generate_grid_orders "BTC" 100 grid_at_100
    = (Py.Ok orders, grid_at_100) ∧
    (length orders ≤ 10)%nat.
Proof.
  destruct (grid_orders_never_cross grid_at_100 100 "BTC" 100)
    as (orders & Hrun & _ & _ & Hlength).
  - reflexivity.
  - exists orders. split; [exact Hrun|exact Hlength].
Defined.

Lemma grid_center_is_set_once_witness :
  ∃ orders self',
    GridTradingStrategy.execute
      {[ "BTC" := btc_at_100; "ETH" := eth_at_101 ]} uncentered_grid
    = (Py.Ok orders, self') ∧
    GridTradingStrategy.center_price self' = Some 100%Q.
Proof.
  destruct (grid_center_is_set_once uncentered_grid
              {[ "BTC" := btc_at_100; "ETH" := eth_at_101 ]})
    as (orders & Hrun & _).
  - reflexivity.
  - eexists orders, _. split; [exact Hrun|reflexivity].
Defined.

(** ** Statistics *)
Section Statistics.
Import TradingEngine OrderStatistics.

Lemma filter_length_all {A} (P : A → Prop) `{∀ x, Decision (P x)} (l : list A) :
  length (filter P l) = length l ↔ Forall P l.
Proof.
  induction l as [|x l IH]; [cbn; split; [constructor|reflexivity]|].
  rewrite filter_cons. pose proof (length_filter P l) as Hle.
  destruct (decide (P x)) as [Hx|Hx]; cbn [length].
  - split.
    + intros Hlen. apply Forall_cons_2; [exact Hx|]. apply IH. lia.
    + intros Hall. apply Forall_cons_1 in Hall as [_ Hall].
      apply IH in Hall. lia.
  - split; [lia|]. intros Hall. apply Forall_cons_1 in Hall as [? _].
    contradiction.
Qed.

(** X29: the fill rate is a fraction, and the breakdowns are never filled
    in.  [get_order_statistics] counts at most as many filled orders as
    there are orders, reports a [fill_rate] between 0 and 1, which is 0
    for an empty registry, where nothing is divided, and 1 exactly when
    the registry is not empty and every order in it is filled.
    [orders_by_strategy] and [orders_by_status] are empty whatever the
    registry holds. *)
Theorem fill_rate_is_a_fraction (self : TradingEngine.t) :
  let stats := get_order_statistics self in
  (filled_orders stats ≤ total_orders stats)%nat ∧
  (0 <= fill_rate stats)%Q ∧ (fill_rate stats <= 1)%Q ∧
  (orders self = [] → fill_rate stats = 0%Q) ∧
  ((fill_rate stats == 1)%Q ↔
   orders self ≠ [] ∧ Forall (λ kv, status (snd kv) = filled) (orders self)) ∧
  orders_by_strategy stats = ∅ ∧ orders_by_status stats = ∅.
Proof.
  cbv zeta. unfold get_order_statistics.
  cbn [total_orders filled_orders fill_rate orders_by_strategy
       orders_by_status].
  set (l := orders self).
  set (P := λ kv : string * Order, is_filled kv.2 = true).
  pose proof (length_filter P l) as Hle.
  pose proof (filter_length_all P l) as Hall.
  assert (HP : Forall P l ↔ Forall (λ kv, status (snd kv) = filled) l).
  { apply Forall_proper; [|reflexivity]. intros kv. unfold P, is_filled.
    rewrite bool_decide_eq_true. reflexivity. }
  split; [exact Hle|].
  destruct (Nat.ltb_spec 0 (length l)) as [Hpos|Hzero].
  - assert (Htotal : (0 < inject_Z (Z.of_nat (length l)))%Q).
    { change 0%Q with (inject_Z 0). rewrite <- Zlt_Qlt. lia. }
    assert (Hfilled : (0 <= inject_Z (Z.of_nat (length (filter P l))))%Q).
    { change 0%Q with (inject_Z 0). rewrite <- Zle_Qle.
      apply Nat2Z.is_nonneg. }
    assert (Hratio : (inject_Z (Z.of_nat (length (filter P l)))
                      <= inject_Z (Z.of_nat (length l)))%Q).
    { rewrite <- Zle_Qle. apply Nat2Z.inj_le, Hle. }
    split; [apply Qle_shift_div_l; lra|].
    split; [apply Qle_shift_div_r; lra|].
    split; [intros Hnil; rewrite Hnil in Hpos; cbn in Hpos; lia|].
    split; [|auto].
    split.
    + intros Hone. split; [intros Hnil; rewrite Hnil in Hpos; cbn in Hpos; lia|].
      apply HP, Hall.
      assert (Heq : (inject_Z (Z.of_nat (length (filter P l)))
                     == inject_Z (Z.of_nat (length l)))%Q).
      { assert (Hback : (inject_Z (Z.of_nat (length (filter P l)))
                         == inject_Z (Z.of_nat (length (filter P l)))
                            / inject_Z (Z.of_nat (length l))
                            * inject_Z (Z.of_nat (length l)))%Q)
          by (field; lra).
        rewrite Hone in Hback. rewrite Hback. ring. }
      apply inject_Z_injective, Nat2Z.inj in Heq. exact Heq.
    + intros [_ Hfull]. apply HP, Hall in Hfull.
      assert (Heq : (inject_Z (Z.of_nat (length (filter P l)))
                     == inject_Z (Z.of_nat (length l)))%Q).
      { apply inject_Z_injective. f_equal. exact Hfull. }
      rewrite Heq. field. lra.
  - assert (Hnil : l = []) by (destruct l; [reflexivity|cbn in Hzero; lia]).
    split; [lra|]. split; [lra|]. split; [reflexivity|]. split; [|auto].
    split; [intros Hone; discriminate Hone|].
    intros [Hne _]. contradiction.
Qed.

End Statistics.

(** ** From the engine to the risk manager *)
Section Booking.
Import TradingEngine.
Context {Obs : Type}.
Variable strategies : string → option (OrderUpdate → Py.M Obs unit).
Variable monitoring_on_order_update : OrderUpdate → Py.M Obs unit.

(** The risk manager after the callbacks of one notification have run:
    monitoring does not reach it, and the second callback applies
    [update_position] whatever monitoring did. *)
Lemma callbacks_reach_risk_manager e (u : OrderUpdate) (w : System.World Obs) :
  snd (fold_left (λ w callback, snd (callback u w))
                 (System.callbacks monitoring_on_order_update e) w)
  = snd (System.risk_callback e u (snd w)).
Proof.
  unfold System.callbacks. cbn [fold_left].
  unfold System.on_obs, System.on_risk, Py.zoom.
  destruct (monitoring_on_order_update u (fst w)) as [r obs'].
  cbn [fst snd].
  destruct (System.risk_callback e u (snd w)) as [r' risk']. reflexivity.
Qed.

Lemma submit_order_accepted e order_data (s : System.t Obs) client :
  AccountManager.check_risk_limits (account_manager (fst s))
    (or_default (od_account_id order_data))
    (od_quantity order_data) (od_ticker order_data) = true →
  clients (fst s) !! or_default (od_account_id order_data) = Some client →
  (∀ name handler u obs,
     strategies name = Some handler → fst (handler u obs) = Py.Ok tt) →
  let order := set_status submitted (new_order e order_data) in
  ∃ obs',
    _submit_order (System.strategy_handlers strategies)
      (System.callbacks monitoring_on_order_update) e order_data s
    = (Py.Ok tt,
       (set_orders (Py.od_set (orders (fst s)) (uuid4 e) order) (fst s),
        (obs',
         snd (System.risk_callback e (order_update_of e order)
                (snd (snd s)))))).
Proof.
  intros Hcheck Hclient Hhandlers. cbv zeta.
  unfold _submit_order, Py.try_except at 1. rewrite run_gets.
  change (account_id (new_order e order_data)) with (od_account_id order_data).
  change (quantity (new_order e order_data)) with (od_quantity order_data).
  change (ticker (new_order e order_data)) with (od_ticker order_data).
  rewrite Hcheck, Hclient. cbn [negb].
  unfold Py.try_except at 1. rewrite run_bind.
  unfold on_engine at 1, Py.zoom, Py.modify. cbn [fst snd].
  rewrite notify_run. cbv zeta. cbn [fst snd].
  set (order := set_status submitted (new_order e order_data)).
  set (u := order_update_of e order).
  change (order_id order) with (uuid4 e).
  assert (Hcallbacks : ∀ w : System.World Obs,
    fold_left (λ w callback, snd (callback u w))
              (System.callbacks monitoring_on_order_update e) w
    = (fst (fold_left (λ w callback, snd (callback u w))
                      (System.callbacks monitoring_on_order_update e) w),
       snd (System.risk_callback e u (snd w)))).
  { intros w. rewrite <- callbacks_reach_risk_manager.
    apply surjective_pairing. }
  unfold System.strategy_handlers.
  destruct (strategies (strategy order)) as [handler|] eqn:Hhandler;
    cbn [fmap option_fmap option_map].
  - unfold System.on_obs, Py.zoom.
    pose proof (Hhandlers _ handler u (fst (snd s)) Hhandler) as Hok.
    destruct (handler u (fst (snd s))) as [r obs1]. cbn [fst] in Hok.
    subst r. cbn [fst snd]. rewrite Hcallbacks. cbn [snd]. eauto.
  - rewrite Hcallbacks. eauto.
Qed.

(** X30: an accepted submission is booked by the risk manager as a trade
    of quantity 0.  When [check_risk_limits] allows an intent, its account
    has a client and the strategy handlers do not raise, [_submit_order]
    registers the order as submitted and the risk manager's callback runs
    [update_position] with the order's [filled_quantity], which is still
    0, under the account hint exactly as the intent gave it, even where
    the engine checked the account "default" in its place.  So the trade
    history grows by one record of quantity 0 per submission, before any
    fill, while every position reads the same as before; monitoring
    raising or not makes no difference. *)
Theorem accepted_submission_books_empty_trade e order_data (s : System.t Obs)
    client :
  AccountManager.check_risk_limits (account_manager (System.engine s))
    (or_default (od_account_id order_data))
    (od_quantity order_data) (od_ticker order_data) = true →
  clients (System.engine s) !! or_default (od_account_id order_data)
  = Some client →
  (∀ name handler u obs,
     strategies name = Some handler → fst (handler u obs) = Py.Ok tt) →
  let s' := System.exec strategies monitoring_on_order_update
              (System.Submit e order_data) s in
  let before := System.risk_manager s in
  let after := System.risk_manager s' in
  Py.od_get (orders (System.engine s')) (uuid4 e)
  = Some (set_status submitted (new_order e order_data)) ∧
  RiskManager.trade_history after
  = (RiskManager.trade_history before
     ++ [RiskManager.trade_record (now e) (od_account_id order_data)
           (od_ticker order_data) (od_side order_data) 0.0
           (od_price order_data)])%list ∧
  (∀ a tk, (RiskManager.position after a tk
            == RiskManager.position before a tk)%Q).
Proof.
  intros Hcheck Hclient Hhandlers. cbv zeta.
  unfold System.exec, System.engine, System.risk_manager.
  destruct (submit_order_accepted e order_data s client Hcheck Hclient
              Hhandlers) as [obs' ->].
  cbn [fst snd orders set_orders]. split; [apply od_get_set_eq|].
  unfold System.risk_callback. cbn [order_update_of u_account_id u_ticker
    u_side u_filled_quantity u_price set_status new_order account_id ticker
    side filled_quantity price].
  split.
  - apply update_position_books.
  - intros a tk. rewrite update_position_position.
    destruct (decide _) as [[<- <-]|_]; [|reflexivity].
    unfold prospective. destruct (String.eqb _ "buy"); ring.
Qed.

End Booking.

Lemma accepted_submission_books_empty_trade_witness :
  RiskManager.trade_history
    (System.risk_manager
       (small_run [System.Submit (at_time "id-1" 1) (intent "buy" 1)]))
  = [RiskManager.trade_record 1 (Some "A") "BTC" "buy" 0.0 1].
Proof.
  edestruct (accepted_submission_books_empty_trade no_strategy
               quiet_monitoring (at_time "id-1" 1) (intent "buy" 1)
               small_system) as (_ & Hhistory & _).
  - reflexivity.
  - reflexivity.
  - intros name handler u obs Hhandler. discriminate Hhandler.
  - exact Hhistory.
Defined.
